(** * ExampleStrategy: pricing, reconciliation, starting-price and settlement

    A shallow embedding of [src/example_strategy.py] (the flumine strategy
    [ExampleStrategy]) and of [src/historical_files_parser.py] (the walk
    over the historical files and its market-definition filter), with the
    properties of the specification stated over it.

    Numbers.  Prices, sizes, stakes, bounds and the margin are Python
    floats; a finite float is modelled by the rational it holds, in [Q].
    The entries of a probability vector are numpy [float64] scalars
    produced by a division ([probabilities / probabilities.sum()]) and the
    strategy tests them with [math.isnan]; they are modelled by [float64],
    the rationals extended with NaN and the two infinities (no signed
    zero), whose arithmetic follows numpy: a zero divisor yields an infinity
    or NaN, never an exception.  The expected-value prices
    [(1 / p) * (1 + margin)] and [(1 / p) / (1 + margin)] are computed as
    the code computes them, in binary64: each quotient, sum and product is
    rounded to the nearest binary64 number, ties to even, with gradual
    underflow and overflow to an infinity ([round64]).  Comparisons are
    exact, as they are on floats.  The sums and the commission of the
    settlement, and the liability of the starting-price LAY order, are
    kept in exact arithmetic, as the specification states them: their
    binary64 values can differ from the model's in the last place.

    Effects.  A method that talks to the framework returns a trace and an
    outcome: the trace lists, in program order, the orders placed and
    replaced and each evaluation of [1 / runner_probability]; the outcome
    is the value returned or the exception raised.  The probability cache
    is threaded through [process_market_book] explicitly.  The random draw
    of numpy, flumine's price ladder and the reading of a market file are
    parameters of the functions that use them. *)

From Stdlib Require Import QArith Qround Qpower Qabs Lqa Lia Bool String List.
From stdpp Require Import base option list strings gmap.
Import ListNotations.

Local Open Scope string_scope.

(** ** Numbers *)

(** [x < y] and [x > y] on Python floats. *)
Definition Qltb (x y : Q) : bool := negb (Qle_bool y x).
Definition Qgtb (x y : Q) : bool := Qltb y x.

Arguments Qltb : simpl never.
Arguments Qgtb : simpl never.

Inductive float64 : Type :=
| NaN
| Inf (negative : bool)
| Fin (q : Q).

(** [math.isnan] *)
Definition isnan (x : float64) : bool :=
  match x with NaN => true | _ => false end.

(** [x == y] *)
Definition f64_eqb (x y : float64) : bool :=
  match x, y with
  | Fin a, Fin b => Qeq_bool a b
  | Inf s, Inf t => Bool.eqb s t
  | _, _ => false
  end.

(** [x < y]; every comparison with NaN is false. *)
Definition f64_ltb (x y : float64) : bool :=
  match x, y with
  | NaN, _ | _, NaN => false
  | Fin a, Fin b => Qltb a b
  | Fin _, Inf s => negb s
  | Inf s, Fin _ => s
  | Inf s, Inf t => s && negb t
  end.

(** [x <= y]; every comparison with NaN is false. *)
Definition f64_leb (x y : float64) : bool :=
  match x, y with
  | NaN, _ | _, NaN => false
  | Fin a, Fin b => Qle_bool a b
  | Fin _, Inf s => negb s
  | Inf s, Fin _ => s
  | Inf s, Inf t => s || negb t
  end.

(** [math.isfinite] *)
Definition isfinite (x : float64) : bool :=
  match x with Fin _ => true | _ => false end.

(** *** Rounding to binary64

    A binary64 number has 53 significant bits and a binary exponent
    between -1022 and 1023; below [2 ** -1022] the numbers are the multiples
    of [2 ** -1074].  The result of an arithmetic operation is the exact
    result rounded to the nearest such number, ties to the one with an even
    significand, and an infinity when the rounded magnitude reaches
    [2 ** 1024]. *)

(** [2 ** e] *)
Definition pow2 (e : Z) : Q := (2 ^ e)%Q.

(** Rounding to the nearest integer, ties to the even one. *)
Definition round_half_even (x : Q) : Z :=
  let f := Qfloor x in
  match (x - inject_Z f ?= 1 # 2)%Q with
  | Lt => f
  | Eq => if Z.even f then f else (f + 1)%Z
  | Gt => (f + 1)%Z
  end.

(** The binary exponent of [x > 0]: the [e] with
    [2 ** e <= x < 2 ** (e + 1)]. *)
Definition Qlog2 (x : Q) : Z :=
  let d := (Z.log2 (Qnum x) - Z.log2 (Zpos (Qden x)))%Z in
  if Qle_bool (pow2 d) x then d else (d - 1)%Z.

(** [x >= 0] rounded to 53 significant bits, or to a multiple of
    [2 ** -1074] below [2 ** -1022]. *)
Definition round_pos (x : Q) : Q :=
  let e := Z.max (Qlog2 x) (-1022) in
  let ulp := pow2 (e - 52) in
  (inject_Z (round_half_even (x / ulp)) * ulp)%Q.

(** The binary64 number nearest to [x]. *)
Definition round64 (x : Q) : float64 :=
  let r := round_pos (Qabs x) in
  if Qle_bool (pow2 1024) r then Inf (Qltb x 0)
  else Fin (if Qltb x 0 then - r else r)%Q.

Arguments round64 : simpl never.

(** The float that the literal [0.1] denotes. *)
Definition float_0_1 : Q := 3602879701896397 # 36028797018963968.

(** [x + y] *)
Definition f64_add (x y : float64) : float64 :=
  match x, y with
  | NaN, _ | _, NaN => NaN
  | Fin a, Fin b => round64 (a + b)
  | Inf s, Fin _ | Fin _, Inf s => Inf s
  | Inf s, Inf t => if Bool.eqb s t then Inf s else NaN
  end.

(** [x * y] *)
Definition f64_mul (x y : float64) : float64 :=
  match x, y with
  | NaN, _ | _, NaN => NaN
  | Fin a, Fin b => round64 (a * b)
  | Inf s, Fin b => if Qeq_bool b 0 then NaN else Inf (xorb s (Qltb b 0))
  | Fin a, Inf s => if Qeq_bool a 0 then NaN else Inf (xorb (Qltb a 0) s)
  | Inf s, Inf t => Inf (xorb s t)
  end.

(** [x / y] on numpy scalars: a zero divisor gives an infinity (or NaN for
    0/0) with a warning, not an exception. *)
Definition f64_div (x y : float64) : float64 :=
  match x, y with
  | NaN, _ | _, NaN => NaN
  | Fin a, Fin b =>
      if Qeq_bool b 0
      then (if Qeq_bool a 0 then NaN else Inf (Qltb a 0))
      else round64 (a / b)
  | Fin _, Inf _ => Fin 0
  | Inf s, Fin b => Inf (xorb s (Qltb b 0))
  | Inf _, Inf _ => NaN
  end.

(** ** Exceptions, results and the command trace *)

(** The exceptions that can end a call; [OSError] and [ValueError] are what
    opening a market file and parsing its first line may raise. *)
Inductive exn : Type :=
| NameError
| IndexError
| KeyError
| TypeError
| OSError
| ValueError.

Inductive result (A : Type) : Type :=
| Ok (a : A)
| Raise (e : exn).
Arguments Ok {A} a.
Arguments Raise {A} e.

(** What a method hands back to the framework: [False] or [None]. *)
Inductive pyret : Type := RetFalse | RetNone.

(** ** Data model (flumine / betfairlightweight objects, as the strategy
    reads them) *)

Inductive OrderStatus : Type :=
| PENDING | EXECUTION_COMPLETE | EXECUTABLE | EXPIRED | VIOLATION.

Definition OrderStatus_eqb (a b : OrderStatus) : bool :=
  match a, b with
  | PENDING, PENDING | EXECUTION_COMPLETE, EXECUTION_COMPLETE
  | EXECUTABLE, EXECUTABLE | EXPIRED, EXPIRED | VIOLATION, VIOLATION => true
  | _, _ => false
  end.

(** [LimitOrder(price, size)] and [LimitOnCloseOrder(liability, price)] are
    the two order types the strategy creates. *)
Inductive OrderType : Type :=
| LimitOrder (price size : Q)
| LimitOnCloseOrder (liability price : Q).

(** [order_type.price] *)
Definition price (t : OrderType) : Q :=
  match t with
  | LimitOrder p _ => p
  | LimitOnCloseOrder _ p => p
  end.

Module Trade.
Record t : Type := Trade
  { market_id : string; selection_id : Z; handicap : Q }.
End Trade.

Module Order.
Record t : Type := mk
  { selection_id : Z;
    handicap : Q;
    side : string;
    status : OrderStatus;
    order_type : OrderType;
    size_matched : Q }.
End Order.

Module PriceSize.
Record t : Type := mk { price : Q; size : Q }.
End PriceSize.

Module Runner.
Record t : Type := mk
  { selection_id : Z;
    handicap : Q;
    status : string;
    available_to_back : list PriceSize.t;
    available_to_lay : list PriceSize.t }.
End Runner.

(** The value of [market_definition.market_base_rate]: [None], a string or a
    number. *)
Inductive base_rate : Type :=
| RateNone
| RateStr (s : string)
| RateNum (r : Q).

Module MarketBook.
Record t : Type := mk
  { market_id : string;
    status : string;
    inplay : bool;
    number_of_active_runners : nat;
    runners : list Runner.t;
    market_base_rate : base_rate }.
End MarketBook.

Module Market.
Record t : Type := mk
  { market_id : string;
    seconds_to_start : Q;
    blotter : list Order.t }.
End Market.

Module RunnerContext.
Record t : Type := mk { trade_count : nat }.
End RunnerContext.

(** The strategy object: its configuration ([context] and the attributes set
    by [add]), the probability cache and the framework's runner contexts. *)
Module ExampleStrategy.
Record t : Type := mk
  { stake : Q;
    staking_strategy : string;
    seconds_to_start : Z;
    margin : Q;
    min_back_price : Q;
    max_back_price : Q;
    min_lay_price : Q;
    max_lay_price : Q;
    market_probabilities : gmap string (list float64);
    get_runner_context : string -> Z -> Q -> RunnerContext.t }.

Definition set_market_probabilities
    (self : t) (m : gmap string (list float64)) : t :=
  mk (stake self) (staking_strategy self) (seconds_to_start self)
     (margin self) (min_back_price self) (max_back_price self)
     (min_lay_price self) (max_lay_price self) m (get_runner_context self).
End ExampleStrategy.

(** Commands sent to the order-management side, and the evaluation of
    [1 / runner_probability], recorded in program order. *)
Inductive event : Type :=
| Reciprocal (divisor : float64)
| PlaceOrder (trade : Trade.t) (side : string) (order_type : OrderType)
| ReplaceOrder (order : Order.t) (new_price : Q).

Definition M (A : Type) : Type := (list event * result A)%type.

Definition ret {A} (a : A) : M A := ([], Ok a).
Definition raise {A} (e : exn) : M A := ([], Raise e).
Definition emit (e : event) : M unit := ([e], Ok tt).
Definition bind {A B} (m : M A) (f : A -> M B) : M B :=
  match m with
  | (tr, Ok a) => let '(tr', r) := f a in ((tr ++ tr')%list, r)
  | (tr, Raise e) => (tr, Raise e)
  end.

#[global] Instance M_ret : MRet M := @ret.
#[global] Instance M_bind : MBind M := fun A B f m => bind m f.

(** [data[level]["price"]], or [None] when the ladder is that short
    (flumine's [get_price]). *)
Definition get_price (data : list PriceSize.t) (level : nat) : option Q :=
  PriceSize.price <$> data !! level.

(** [round(x, 2)] on the real number [x]: the nearest multiple of 1/100,
    ties to the even one.  Python rounds the binary64 value of the product,
    which can fall on the other side of a tie (see Numbers above). *)
Definition round2 (x : Q) : Q :=
  let y := (x * 100)%Q in
  let f := Qfloor y in
  let d := (y - inject_Z f)%Q in
  let n := if Qltb d (1 # 2) then f
           else if Qltb (1 # 2) d then (f + 1)%Z
           else if Z.even f then f else (f + 1)%Z in
  (inject_Z n / 100)%Q.

(** ** ExampleStrategy *)

Import ExampleStrategy.

(** [_generate_probabilities].  [rng n] stands for the array that lines
    38-39 compute with numpy for [n] active runners (the uniform draw
    divided by its sum); it is consulted only when the market has no vector
    yet. *)
Definition _generate_probabilities (self : ExampleStrategy.t)
    (market : Market.t) (market_book : MarketBook.t)
    (rng : nat -> list float64) : ExampleStrategy.t * list float64 :=
  match market_probabilities self !! Market.market_id market with
  | None =>
      let probabilities :=
        rng (MarketBook.number_of_active_runners market_book) in
      (set_market_probabilities self
         (<[Market.market_id market := probabilities]>
            (market_probabilities self)),
       probabilities)
  | Some probabilities => (self, probabilities)
  end.

(** [int(x)] on a float: truncation toward zero. *)
Definition py_int (x : Q) : Z := Z.quot (Qnum x) (Zpos (Qden x)).

(** [add].  [context] holds the numeric settings of [self.context]; the
    stake and the staking mode, which the strategy reads from the context
    where it uses them, and the framework's runner contexts stay with
    [self]. *)
Definition add (self : ExampleStrategy.t) (context : gmap string Q)
    : ExampleStrategy.t :=
  ExampleStrategy.mk (stake self) (staking_strategy self)
    (py_int (default 60%Q (context !! "seconds_to_start")))
    (default float_0_1 (context !! "margin"))
    (default 1%Q (context !! "min_back_price"))
    (default 150%Q (context !! "max_back_price"))
    (default 1%Q (context !! "min_lay_price"))
    (default 150%Q (context !! "max_lay_price"))
    ∅ (get_runner_context self).

(** [check_market_book]: [False] when the market is not to be processed. *)
Definition check_market_book (self : ExampleStrategy.t)
    (market : option Market.t) (market_book : option MarketBook.t) : bool :=
  match market, market_book with
  | Some market, Some market_book =>
      if negb (String.eqb (MarketBook.status market_book) "OPEN") then false
      else if MarketBook.inplay market_book then false
      else if Nat.ltb (MarketBook.number_of_active_runners market_book) 2
      then false
      else if Nat.ltb 8 (MarketBook.number_of_active_runners market_book)
      then false
      else if Qgtb (Market.seconds_to_start market)
                (inject_Z (seconds_to_start self))
      then false
      else true
  | _, _ => false
  end.

(** [1 / runner_probability] *)
Definition reciprocal (runner_probability : float64) : M float64 :=
  emit (Reciprocal runner_probability);;
  mret (f64_div (Fin 1) runner_probability).

(** [_get_back_price] *)
Definition _get_back_price (self : ExampleStrategy.t)
    (runner_probability : float64) (lay_price back_price : option Q)
    : M (option Q) :=
  match lay_price, back_price with
  | Some lay_price, Some back_price =>
      let price :=
        if String.eqb (staking_strategy self) "take" then Some back_price
        else if String.eqb (staking_strategy self) "offer" then Some lay_price
        else None in
      inv ← reciprocal runner_probability;
      let runner_price_ev :=
        f64_mul inv (f64_add (Fin 1) (Fin (margin self))) in
      match price with
      | None => raise TypeError
      | Some price =>
          if f64_ltb runner_price_ev (Fin price) then mret None
          else if Qgtb (min_back_price self) price then mret None
          else if Qltb (max_back_price self) price then mret None
          else mret (Some price)
      end
  | _, _ => mret None
  end.

(** [_get_lay_price] *)
Definition _get_lay_price (self : ExampleStrategy.t)
    (runner_probability : float64) (lay_price back_price : option Q)
    : M (option Q) :=
  match lay_price, back_price with
  | Some lay_price, Some back_price =>
      let price :=
        if String.eqb (staking_strategy self) "take" then Some lay_price
        else if String.eqb (staking_strategy self) "offer" then Some back_price
        else None in
      inv ← reciprocal runner_probability;
      let runner_price_ev :=
        f64_div inv (f64_add (Fin 1) (Fin (margin self))) in
      match price with
      | None => raise TypeError
      | Some price =>
          if f64_ltb (Fin price) runner_price_ev then mret None
          else if Qgtb (min_lay_price self) price then mret None
          else if Qltb (max_lay_price self) price then mret None
          else mret (Some price)
      end
  | _, _ => mret None
  end.

(** [_place_bsp_bets].  [get_nearest_price] is flumine's rounding to the
    exchange's price ladder, a table that is not part of this repository. *)
Definition _place_bsp_bets (get_nearest_price : float64 -> Q)
    (self : ExampleStrategy.t) (market : Market.t) (runner : Runner.t)
    (back_price lay_price : option Q) (runner_probability : float64)
    (trade : Trade.t) : M pyret :=
  let runner_context :=
    get_runner_context self (Market.market_id market)
      (Runner.selection_id runner) (Runner.handicap runner) in
  if Nat.eqb (RunnerContext.trade_count runner_context) 0 then mret RetNone
  else
    match back_price, lay_price with
    | Some back_price, Some lay_price =>
        let projected_bsp := ((back_price + lay_price) / 2)%Q in
        inv ← reciprocal runner_probability;
        let limit_back_price :=
          f64_mul inv (f64_add (Fin 1) (Fin (margin self))) in
        let limit_back_price_tick := get_nearest_price limit_back_price in
        inv ← reciprocal runner_probability;
        let limit_lay_price :=
          f64_div inv (f64_add (Fin 1) (Fin (margin self))) in
        let limit_lay_price_tick := get_nearest_price limit_lay_price in
        let limit_lay_liability :=
          round2 ((projected_bsp - 1) * stake self) in
        let limit_lay_liability :=
          if Qltb limit_lay_liability 30 then 30%Q
          else limit_lay_liability in
        (if Qle_bool (min_back_price self) limit_back_price_tick
            && Qle_bool limit_back_price_tick (max_back_price self)
         then emit (PlaceOrder trade "BACK"
                      (LimitOnCloseOrder (stake self) limit_back_price_tick))
         else mret tt);;
        (if Qle_bool (min_lay_price self) limit_lay_price_tick
            && Qle_bool limit_lay_price_tick (max_lay_price self)
         then emit (PlaceOrder trade "LAY"
                      (LimitOnCloseOrder limit_lay_liability
                         limit_lay_price_tick))
         else mret tt);;
        mret RetNone
    | _, _ => mret RetNone
    end.

(** [market.blotter.strategy_selection_orders(self, selection_id,
    handicap)]: the strategy's orders on one selection. *)
Definition strategy_selection_orders (blotter : list Order.t)
    (selection_id : Z) (handicap : Q) : list Order.t :=
  List.filter
    (fun o => Z.eqb (Order.selection_id o) selection_id
              && Qeq_bool (Order.handicap o) handicap)
    blotter.

(** Lines 156-161: an order of side BACK. *)
Definition update_back_order (self : ExampleStrategy.t)
    (runner_probability : float64) (lay_price back_price : option Q)
    (order : Order.t) : M unit :=
  if OrderStatus_eqb (Order.status order) EXECUTABLE then
    proposed_price ←
      _get_back_price self runner_probability lay_price back_price;
    match proposed_price with
    | Some proposed_price =>
        if Qltb proposed_price (price (Order.order_type order))
        then emit (ReplaceOrder order proposed_price)
        else mret tt
    | None => mret tt
    end
  else mret tt.

(** Lines 163-168: an order of side LAY. *)
Definition update_lay_order (self : ExampleStrategy.t)
    (runner_probability : float64) (lay_price back_price : option Q)
    (order : Order.t) : M unit :=
  if OrderStatus_eqb (Order.status order) EXECUTABLE then
    proposed_price ←
      _get_lay_price self runner_probability lay_price back_price;
    match proposed_price with
    | Some proposed_price =>
        if Qgtb proposed_price (price (Order.order_type order))
        then emit (ReplaceOrder order proposed_price)
        else mret tt
    | None => mret tt
    end
  else mret tt.

(** The body of the loop over [selection_orders] (lines 155-168), for one
    order. *)
Definition update_order (self : ExampleStrategy.t)
    (runner_probability : float64) (lay_price back_price : option Q)
    (order : Order.t) : M unit :=
  (if String.eqb (Order.side order) "BACK"
   then update_back_order self runner_probability lay_price back_price order
   else mret tt);;
  (if String.eqb (Order.side order) "LAY"
   then update_lay_order self runner_probability lay_price back_price order
   else mret tt).

(** The loop over [selection_orders] (lines 154-168); the two flags are
    [has_back_bets] and [has_lay_bets]. *)
Fixpoint selection_orders_loop (self : ExampleStrategy.t)
    (runner_probability : float64) (lay_price back_price : option Q)
    (selection_orders : list Order.t) (has_back_bets has_lay_bets : bool)
    : M (bool * bool) :=
  match selection_orders with
  | [] => mret (has_back_bets, has_lay_bets)
  | order :: rest =>
      update_order self runner_probability lay_price back_price order;;
      selection_orders_loop self runner_probability lay_price back_price rest
        (has_back_bets || String.eqb (Order.side order) "BACK")
        (has_lay_bets || String.eqb (Order.side order) "LAY")
  end.

(** Lines 170-189, "Offer or Take prices": a new order on each side that
    has no bets yet. *)
Definition place_orders (self : ExampleStrategy.t)
    (back_price lay_price : option Q) (runner_probability : float64)
    (trade : Trade.t) (has_back_bets has_lay_bets : bool) : M unit :=
  (if negb has_back_bets then
     proposed_price ←
       _get_back_price self runner_probability lay_price back_price;
     match proposed_price with
     | Some proposed_price =>
         emit (PlaceOrder trade "BACK"
                 (LimitOrder proposed_price (stake self)))
     | None => mret tt
     end
   else mret tt);;
  (if negb has_lay_bets then
     proposed_price ←
       _get_lay_price self runner_probability lay_price back_price;
     match proposed_price with
     | Some proposed_price =>
         emit (PlaceOrder trade "LAY"
                 (LimitOrder proposed_price (stake self)))
     | None => mret tt
     end
   else mret tt).

(** Lines 149-189: the continuous path for one active runner. *)
Definition offer_or_take (self : ExampleStrategy.t) (market : Market.t)
    (runner : Runner.t) (back_price lay_price : option Q)
    (runner_probability : float64) (trade : Trade.t) : M unit :=
  let selection_orders :=
    strategy_selection_orders (Market.blotter market)
      (Runner.selection_id runner) (Runner.handicap runner) in
  '(has_back_bets, has_lay_bets) ←
    selection_orders_loop self runner_probability lay_price back_price
      selection_orders false false;
  place_orders self back_price lay_price runner_probability trade
    has_back_bets has_lay_bets.

(** [race_probability[runner_idx]] *)
Definition index_probability (race_probability : list float64)
    (runner_idx : nat) : M float64 :=
  match race_probability !! runner_idx with
  | Some runner_probability => mret runner_probability
  | None => raise IndexError
  end.

(** Lines 110-122, "Verify probabilities are valid for each runner".  The
    warning of line 119 formats the name [race], which is bound nowhere in
    the module, so that branch ends in a [NameError] before its
    [return False]. *)
Fixpoint verify_probabilities (race_probability : list float64)
    (runners : list Runner.t) (runner_idx : nat) : M unit :=
  match runners with
  | [] => mret tt
  | runner :: rest =>
      if negb (String.eqb (Runner.status runner) "ACTIVE")
      then verify_probabilities race_probability rest runner_idx
      else
        runner_probability ← index_probability race_probability runner_idx;
        if isnan runner_probability || f64_eqb runner_probability (Fin 0)
        then raise NameError
        else verify_probabilities race_probability rest (S runner_idx)
  end.

(** Lines 124-191, "Compare market odds and probabilities". *)
Fixpoint compare_market_odds (get_nearest_price : float64 -> Q)
    (self : ExampleStrategy.t) (market : Market.t)
    (market_book : MarketBook.t) (race_probability : list float64)
    (runners : list Runner.t) (runner_idx : nat) : M pyret :=
  match runners with
  | [] => mret RetNone
  | runner :: rest =>
      if negb (String.eqb (Runner.status runner) "ACTIVE")
      then compare_market_odds get_nearest_price self market market_book
             race_probability rest runner_idx
      else
        runner_probability ← index_probability race_probability runner_idx;
        let back_price := get_price (Runner.available_to_back runner) 0 in
        let lay_price := get_price (Runner.available_to_lay runner) 0 in
        let trade :=
          Trade.Trade (MarketBook.market_id market_book)
            (Runner.selection_id runner) (Runner.handicap runner) in
        if String.eqb (staking_strategy self) "bsp"
        then _place_bsp_bets get_nearest_price self market runner
               back_price lay_price runner_probability trade
        else
          offer_or_take self market runner back_price lay_price
            runner_probability trade;;
          compare_market_odds get_nearest_price self market market_book
            race_probability rest (S runner_idx)
  end.

(** [process_market_book].  The result pairs the strategy object after the
    call (its cache may have gained a vector) with the commands issued and
    the value returned or exception raised.  The runner contexts belong to
    the framework, which updates them when it handles the orders placed:
    the object returned carries them as they were when the call began, the
    placements are in the trace, and nothing is stated below about the
    runner contexts after an update. *)
Definition process_market_book (get_nearest_price : float64 -> Q)
    (self : ExampleStrategy.t) (market : option Market.t)
    (market_book : option MarketBook.t) (rng : nat -> list float64)
    : ExampleStrategy.t * M pyret :=
  match market, market_book with
  | Some market, Some market_book =>
      let '(self, race_probability) :=
        _generate_probabilities self market market_book rng in
      (self,
       if negb (Nat.eqb (length race_probability)
                  (MarketBook.number_of_active_runners market_book))
       then mret RetFalse
       else
         verify_probabilities race_probability
           (MarketBook.runners market_book) 0;;
         compare_market_odds get_nearest_price self market market_book
           race_probability (MarketBook.runners market_book) 0)
  | _, _ => (self, mret RetFalse)
  end.

(** ** Settlement *)

(** Lines 208-217: one order of a runner with the given status; the pair is
    ([market_back_pnl], [market_lay_pnl]). *)
Definition settle_order (runner_status : string) (order : Order.t)
    (pnl : Q * Q) : Q * Q :=
  let '(market_back_pnl, market_lay_pnl) := pnl in
  let size_matched := Order.size_matched order in
  let price := price (Order.order_type order) in
  let '(market_back_pnl, market_lay_pnl) :=
    if String.eqb runner_status "WINNER" then
      (if String.eqb (Order.side order) "BACK"
       then market_back_pnl + size_matched * (price - 1)
       else market_back_pnl,
       if String.eqb (Order.side order) "LAY"
       then market_lay_pnl - size_matched * (price - 1)
       else market_lay_pnl)%Q
    else (market_back_pnl, market_lay_pnl) in
  if String.eqb runner_status "LOSER" then
    (if String.eqb (Order.side order) "BACK"
     then market_back_pnl - size_matched
     else market_back_pnl,
     if String.eqb (Order.side order) "LAY"
     then market_lay_pnl + size_matched
     else market_lay_pnl)%Q
  else (market_back_pnl, market_lay_pnl).

(** Lines 205-217: the loops over the runners and their orders. *)
Definition settle_runner (market : Market.t) (pnl : Q * Q)
    (runner : Runner.t) : Q * Q :=
  fold_left (fun pnl order => settle_order (Runner.status runner) order pnl)
    (strategy_selection_orders (Market.blotter market)
       (Runner.selection_id runner) (Runner.handicap runner))
    pnl.

Definition settle_runners (market : Market.t) (runners : list Runner.t)
    : Q * Q :=
  fold_left (settle_runner market) runners (0, 0)%Q.

(** The figures [process_closed_market] logs. *)
Module Ledger.
Record t : Type := mk
  { market_back_pnl : Q;
    market_lay_pnl : Q;
    market_pnl : Q;
    market_commission : Q }.
End Ledger.

(** [market_base_rate in (None, 0, '')] *)
Definition base_rate_unset (market_base_rate : base_rate) : bool :=
  match market_base_rate with
  | RateNone => true
  | RateNum r => Qeq_bool r 0
  | RateStr s => String.eqb s ""
  end.

(** [process_closed_market]; multiplying the PnL by a non-empty string is a
    [TypeError]. *)
Definition process_closed_market (self : ExampleStrategy.t)
    (market : Market.t) (market_book : MarketBook.t) : result Ledger.t :=
  let '(market_back_pnl, market_lay_pnl) :=
    settle_runners market (MarketBook.runners market_book) in
  let market_pnl := (market_back_pnl + market_lay_pnl)%Q in
  if Qgtb market_pnl 0 then
    let market_base_rate := MarketBook.market_base_rate market_book in
    let market_base_rate :=
      if base_rate_unset market_base_rate then RateNum 5
      else market_base_rate in
    match market_base_rate with
    | RateNum market_base_rate =>
        let market_commission :=
          if Qgtb market_pnl 0 then (market_pnl * market_base_rate / 100)%Q
          else 0%Q in
        Ok (Ledger.mk market_back_pnl market_lay_pnl
              (market_pnl - market_commission)%Q market_commission)
    | _ => Raise TypeError
    end
  else Ok (Ledger.mk market_back_pnl market_lay_pnl market_pnl 0%Q).

(** ** The market-definition filter of the historical files parser *)

(** Scalar JSON values of a market definition and of a filter. *)
Inductive pyval : Type :=
| PNone
| PBool (b : bool)
| PNum (q : Q)
| PStr (s : string).

(** [x != y] *)
Definition py_ne (x y : pyval) : bool :=
  negb match x, y with
       | PNone, PNone => true
       | PStr a, PStr b => String.eqb a b
       | PBool a, PBool b => Bool.eqb a b
       | PNum a, PNum b => Qeq_bool a b
       | PBool a, PNum b | PNum b, PBool a =>
           Qeq_bool (if a then 1 else 0) b
       | _, _ => false
       end.

(** [needle in hay] on strings *)
Fixpoint contains (needle hay : string) : bool :=
  String.prefix needle hay
  || match hay with
     | EmptyString => false
     | String _ rest => contains needle rest
     end.

(** Lines 78-80, "Apply filters", in the mapping's insertion order. *)
Fixpoint apply_filters (market_definition : gmap string pyval)
    (items : list (string * pyval)) : result bool :=
  match items with
  | [] => Ok false
  | (k, v) :: rest =>
      match market_definition !! k with
      | None => Raise KeyError
      | Some x =>
          if py_ne x v then Ok true else apply_filters market_definition rest
      end
  end.

(** [_filter_market_file]; [True] means the file is filtered out.
    [read_market_definition] stands for lines 68-71: opening the file,
    parsing its first line and taking [data['mc'][0]['marketDefinition']],
    any of which may raise. *)
Definition _filter_market_file
    (read_market_definition : string -> result (gmap string pyval))
    (market_file : string)
    (market_definition_filters : list (string * pyval)) : result bool :=
  match market_definition_filters with
  | _ :: _ =>
      match read_market_definition market_file with
      | Raise e => Raise e
      | Ok market_definition =>
          match market_definition !! "name" with
          | None => Raise KeyError
          | Some (PStr name) =>
              if contains "Trot" name || contains "Pace" name then Ok true
              else apply_filters market_definition market_definition_filters
          | Some _ => Raise TypeError
          end
      end
  | [] => Ok false
  end.

(** ** The walk over the historical files

    [parse_market_files] reads and changes the file system.  The operating
    system is a parameter: a type [fs] of file-system states and the
    operations the function calls on it.  A run returns the decompressions
    and removals it performed, in order, the final state and the outcome.
    An operation that raises is taken to leave the file system as it
    was. *)

(** [s.endswith(suffix)]: some tail of [s] is [suffix]. *)
Fixpoint endswith (s suffix : string) : bool :=
  String.eqb s suffix
  || match s with
     | EmptyString => false
     | String _ rest => endswith rest suffix
     end.

(** [s[:-4]] *)
Definition drop_last4 (s : string) : string :=
  substring 0 (String.length s - 4) s.

(** [os.path.join(a, b)] on POSIX paths. *)
Definition path_join (a b : string) : string :=
  if String.prefix "/" b then b
  else if String.eqb a "" || endswith a "/" then String.append a b
  else String.append a (String.append "/" b).

(** [sorted] on strings: ascending code points. *)
Fixpoint insert_sorted (x : string) (l : list string) : list string :=
  match l with
  | [] => [x]
  | y :: rest =>
      if String.leb x y then x :: l else y :: insert_sorted x rest
  end.

Definition py_sorted (l : list string) : list string :=
  fold_right insert_sorted [] l.

(** [names] restricted by an [include_...] argument: unchanged when the
    argument is None or empty, else [list(set(names) & set(include))],
    whose order the following [sorted] makes immaterial. *)
Definition restrict (names : list string) (include : option (list string))
    : list string :=
  match include with
  | Some ((_ :: _) as include) =>
      remove_dups (List.filter (fun dI => bool_decide (dI ∈ include)) names)
  | _ => names
  end.

Inductive fs_event : Type :=
| Decompress (compressed target : string)
| Remove (path : string).

(** What line 59 raises, what was raised underneath, or the list of files. *)
Inductive parse_outcome : Type :=
| Parsed (files : list string)
| NoFilesFound
| Failed (e : exn).

Module OS.
Record t (fs : Type) : Type := mk
  { (** [os.listdir] *)
    listdir : fs -> string -> result (list string);
    (** [os.path.isdir], [os.path.isfile] *)
    isdir : fs -> string -> bool;
    isfile : fs -> string -> bool;
    (** lines 42-44: read the bz2 archive and write its content *)
    decompress : fs -> string -> string -> result fs;
    (** [os.remove] *)
    remove : fs -> string -> result fs;
    (** lines 68-71 of [_filter_market_file] *)
    read_market_definition : fs -> string -> result (gmap string pyval) }.
Arguments listdir {fs} _ _ _.
Arguments isdir {fs} _ _ _.
Arguments isfile {fs} _ _ _.
Arguments decompress {fs} _ _ _ _.
Arguments remove {fs} _ _ _.
Arguments read_market_definition {fs} _ _ _.
End OS.

Section Walk.
Context {fs : Type} (os : OS.t fs).

Definition F (A : Type) : Type := fs -> list fs_event * fs * result A.

Definition F_ret {A} (a : A) : F A := fun st => ([], st, Ok a).
Definition F_bind {A B} (f : A -> F B) (m : F A) : F B :=
  fun st =>
    match m st with
    | (tr, st', Ok a) =>
        let '(tr', st'', r) := f a st' in ((tr ++ tr')%list, st'', r)
    | (tr, st', Raise e) => (tr, st', Raise e)
    end.

#[global] Instance F_MRet : MRet F := @F_ret.
#[global] Instance F_MBind : MBind F := @F_bind.

(** A [for] loop that threads [files]. *)
Fixpoint for_each {A B : Type} (l : list A) (body : A -> B -> F B) (acc : B)
    : F B :=
  match l with
  | [] => mret acc
  | x :: rest => acc ← body x acc; for_each rest body acc
  end.

Definition listdir (path : string) : F (list string) :=
  fun st => ([], st, OS.listdir os st path).

Definition isfile (path : string) : F bool :=
  fun st => ([], st, Ok (OS.isfile os st path)).

(** [[dI for dI in os.listdir(path) if os.path.isdir(os.path.join(path, dI))]] *)
Definition list_dirs (path : string) : F (list string) :=
  fun st =>
    ([], st,
     match OS.listdir os st path with
     | Ok names =>
         Ok (List.filter (fun dI => OS.isdir os st (path_join path dI)) names)
     | Raise e => Raise e
     end).

Definition decompress (compressed target : string) : F unit :=
  fun st =>
    match OS.decompress os st compressed target with
    | Ok st' => ([Decompress compressed target], st', Ok tt)
    | Raise e => ([], st, Raise e)
    end.

Definition remove (path : string) : F unit :=
  fun st =>
    match OS.remove os st path with
    | Ok st' => ([Remove path], st', Ok tt)
    | Raise e => ([], st, Raise e)
    end.

Definition filter_market_file (market_file : string)
    (market_definition_filters : list (string * pyval)) : F bool :=
  fun st =>
    ([], st,
     _filter_market_file (OS.read_market_definition os st) market_file
       market_definition_filters).

(** Lines 35-56: one archive of an event directory. *)
Definition parse_market_file
    (market_definition_filters : list (string * pyval)) (delete_files : bool)
    (event_path market_file : string) (files : list string)
    : F (list string) :=
  let market_file_compressed := path_join event_path market_file in
  let market_file := drop_last4 market_file_compressed in
  present ← isfile market_file;
  (if negb present then decompress market_file_compressed market_file
   else mret tt);;
  filtered ← filter_market_file market_file market_definition_filters;
  if (filtered : bool) then
    (if delete_files then
       (present ← isfile market_file;
        if (present : bool) then remove market_file else mret tt);;
       (present ← isfile market_file_compressed;
        if (present : bool) then remove market_file_compressed else mret tt)
     else mret tt);;
    mret files
  else mret (files ++ [market_file])%list.

(** Lines 32-56: one event directory. *)
Definition parse_event
    (market_definition_filters : list (string * pyval)) (delete_files : bool)
    (day_path event_id : string) (files : list string) : F (list string) :=
  let event_path := path_join day_path event_id in
  names ← listdir event_path;
  let markets_files := List.filter (fun dI => endswith dI ".bz2") names in
  for_each markets_files
    (parse_market_file market_definition_filters delete_files event_path)
    files.

(** Lines 29-56: one day. *)
Definition parse_day
    (market_definition_filters : list (string * pyval)) (delete_files : bool)
    (month_path day : string) (files : list string) : F (list string) :=
  let day_path := path_join month_path day in
  event_ids ← list_dirs day_path;
  for_each event_ids
    (parse_event market_definition_filters delete_files day_path) files.

(** Lines 24-56: one month. *)
Definition parse_month
    (market_definition_filters : list (string * pyval))
    (include_days : option (list string)) (delete_files : bool)
    (year_path month : string) (files : list string) : F (list string) :=
  let month_path := path_join year_path month in
  days ← list_dirs month_path;
  for_each (py_sorted (restrict days include_days))
    (parse_day market_definition_filters delete_files month_path) files.

(** Lines 19-56: one year. *)
Definition parse_year
    (market_definition_filters : list (string * pyval))
    (include_months include_days : option (list string))
    (delete_files : bool) (data_path year : string) (files : list string)
    : F (list string) :=
  let year_path := path_join data_path year in
  months ← list_dirs year_path;
  for_each (py_sorted (restrict months include_months))
    (parse_month market_definition_filters include_days delete_files
       year_path)
    files.

(** Lines 13-56: the walk, before the final test. *)
Definition walk_market_files (data_path : string)
    (market_definition_filters : list (string * pyval))
    (include_years include_months include_days : option (list string))
    (delete_files : bool) : F (list string) :=
  years ← list_dirs data_path;
  for_each (py_sorted (restrict years include_years))
    (parse_year market_definition_filters include_months include_days
       delete_files data_path)
    [].

(** [parse_market_files] *)
Definition parse_market_files (data_path : string)
    (market_definition_filters : list (string * pyval))
    (include_years include_months include_days : option (list string))
    (delete_files : bool) (st : fs) : list fs_event * fs * parse_outcome :=
  let '(tr, st', r) :=
    walk_market_files data_path market_definition_filters include_years
      include_months include_days delete_files st in
  (tr, st',
   match r with
   | Ok [] => NoFilesFound
   | Ok files => Parsed files
   | Raise e => Failed e
   end).
End Walk.

(** ** Vocabulary of the properties *)

(** The commands of a trace: what was sent to the order-management side. *)
Definition is_command (e : event) : bool :=
  match e with Reciprocal _ => false | _ => true end.

Definition commands (tr : list event) : list event :=
  List.filter is_command tr.

(** [price] is within the configured bounds of [side]. *)
Definition side_bounds (self : ExampleStrategy.t) (side : string) (price : Q)
    : Prop :=
  (side = "BACK"
   /\ (min_back_price self <= price)%Q /\ (price <= max_back_price self)%Q)
  \/ (side = "LAY"
      /\ (min_lay_price self <= price)%Q /\ (price <= max_lay_price self)%Q).

(** A placement is a limit order for the configured stake at a price within
    the bounds of its side; a replacement moves an order to a price within
    the bounds of the order's side. *)
Definition within_bounds (self : ExampleStrategy.t) (e : event) : Prop :=
  match e with
  | Reciprocal _ => True
  | PlaceOrder _ side (LimitOrder price size) =>
      size = stake self /\ side_bounds self side price
  | PlaceOrder _ _ (LimitOnCloseOrder _ _) => False
  | ReplaceOrder order new_price =>
      side_bounds self (Order.side order) new_price
  end.

(** The candidate prices of one runner on one update. *)
Definition back_candidate (self : ExampleStrategy.t)
    (runner_probability : float64) (lay_price back_price : option Q) (c : Q)
    : Prop :=
  snd (_get_back_price self runner_probability lay_price back_price)
  = Ok (Some c).

Definition lay_candidate (self : ExampleStrategy.t)
    (runner_probability : float64) (lay_price back_price : option Q) (c : Q)
    : Prop :=
  snd (_get_lay_price self runner_probability lay_price back_price)
  = Ok (Some c).

(** The replacement rule: the order is executable and the candidate of its
    side is strictly more aggressive than its price. *)
Definition replaces (self : ExampleStrategy.t)
    (runner_probability : float64) (lay_price back_price : option Q)
    (order : Order.t) (c : Q) : Prop :=
  Order.status order = EXECUTABLE
  /\ ((Order.side order = "BACK"
       /\ back_candidate self runner_probability lay_price back_price c
       /\ (c < price (Order.order_type order))%Q)
      \/ (Order.side order = "LAY"
          /\ lay_candidate self runner_probability lay_price back_price c
          /\ (price (Order.order_type order) < c)%Q)).

(** A probability the pricing may divide by: a number other than zero. *)
Definition valid_probability (p : float64) : Prop :=
  isnan p = false /\ f64_eqb p (Fin 0) = false.

(** What the validation of lines 118-120 rejects. *)
Definition invalid_probability (p : float64) : Prop :=
  isnan p = true \/ f64_eqb p (Fin 0) = true.

Definition safe_division (e : event) : Prop :=
  match e with
  | Reciprocal divisor => valid_probability divisor
  | _ => True
  end.

(** The active runners of a market book, in snapshot order. *)
Definition active_runners (runners : list Runner.t) : list Runner.t :=
  List.filter (fun runner => String.eqb (Runner.status runner) "ACTIVE")
    runners.

(** The back candidate as the specification words it, with
    evPrice = (1/p)*(1+margin) a real number. *)
Definition spec_back_price (self : ExampleStrategy.t)
    (p lay_price back_price : Q) : option Q :=
  let rawPrice :=
    if String.eqb (staking_strategy self) "take"
    then back_price else lay_price in
  let evPrice := ((1 / p) * (1 + margin self))%Q in
  if Qle_bool rawPrice evPrice
     && Qle_bool (min_back_price self) rawPrice
     && Qle_bool rawPrice (max_back_price self)
  then Some rawPrice else None.



(** [has_back_bets] / [has_lay_bets] after the loop over the selection
    orders: some order of that side exists, whatever its status. *)
Definition has_bets (selection_orders : list Order.t) (side : string)
    : bool :=
  existsb (fun order => String.eqb (Order.side order) side) selection_orders.

(** The placement rule for one active runner: the runner's selection has no
    order of the side yet and the side has a candidate price. *)
Definition places (self : ExampleStrategy.t) (market : Market.t)
    (runner : Runner.t) (runner_probability : float64) (side : string)
    (c : Q) : Prop :=
  has_bets
    (strategy_selection_orders (Market.blotter market)
       (Runner.selection_id runner) (Runner.handicap runner)) side = false
  /\ ((side = "BACK"
       /\ back_candidate self runner_probability
            (get_price (Runner.available_to_lay runner) 0)
            (get_price (Runner.available_to_back runner) 0) c)
      \/ (side = "LAY"
          /\ lay_candidate self runner_probability
               (get_price (Runner.available_to_lay runner) 0)
               (get_price (Runner.available_to_back runner) 0) c)).

(** What the starting-price path may send: a limit-on-close BACK order
    risking the stake, or a limit-on-close LAY order with a liability of at
    least 30, each at a price within the bounds of its side. *)
Definition bsp_event_ok (self : ExampleStrategy.t) (e : event) : Prop :=
  match e with
  | Reciprocal _ => True
  | PlaceOrder _ side (LimitOnCloseOrder liability price) =>
      (side = "BACK" /\ liability = stake self
       /\ (min_back_price self <= price)%Q
       /\ (price <= max_back_price self)%Q)
      \/ (side = "LAY" /\ (30 <= liability)%Q
          /\ (min_lay_price self <= price)%Q
          /\ (price <= max_lay_price self)%Q)
  | PlaceOrder _ _ (LimitOrder _ _) => False
  | ReplaceOrder _ _ => False
  end.

(** A filter item the market definition satisfies: the key is present and
    its value is equal to the filter's. *)
Definition filter_matches (market_definition : gmap string pyval)
    (item : string * pyval) : Prop :=
  exists x, market_definition !! fst item = Some x
            /\ py_ne x (snd item) = false.

(** Replaying a log of effects on a file system, under the guards of lines
    40, 50 and 52: a decompression writes a target that is not a file yet, a
    removal deletes a path that is a file. *)
Fixpoint replay {fs : Type} (os : OS.t fs) (st : fs) (tr : list fs_event)
    : option fs :=
  match tr with
  | [] => Some st
  | Decompress compressed target :: tr =>
      if OS.isfile os st target then None
      else match OS.decompress os st compressed target with
           | Ok st' => replay os st' tr
           | Raise _ => None
           end
  | Remove path :: tr =>
      if OS.isfile os st path
      then match OS.remove os st path with
           | Ok st' => replay os st' tr
           | Raise _ => None
           end
      else None
  end.

(** The verdicts of [_filter_market_file] on a market file, in some state of
    the file system. *)
Definition kept {fs : Type} (os : OS.t fs)
    (market_definition_filters : list (string * pyval)) (market_file : string)
    : Prop :=
  exists st,
    _filter_market_file (OS.read_market_definition os st) market_file
      market_definition_filters = Ok false.

Definition rejected {fs : Type} (os : OS.t fs)
    (market_definition_filters : list (string * pyval)) (market_file : string)
    : Prop :=
  exists st,
    _filter_market_file (OS.read_market_definition os st) market_file
      market_definition_filters = Ok true.

(** A name the walk visits under an [include_...] argument: any name when
    the argument is None or empty, else a name of the argument. *)
Definition selected (include : option (list string)) (name : string)
    : Prop :=
  match include with
  | Some ((_ :: _) as include) => In name include
  | _ => True
  end.

(** [market_file] is an archive of the tree without its ".bz2": followed by
    ".bz2" it is the path year/month/day/event/name under [data_path] of a
    name ending in ".bz2", in a selected year, month and day. *)
Definition selected_archive (data_path : string)
    (include_years include_months include_days : option (list string))
    (market_file : string) : Prop :=
  exists year month day event_id name,
    selected include_years year
    /\ selected include_months month
    /\ selected include_days day
    /\ endswith name ".bz2" = true
    /\ path_join
         (path_join
            (path_join (path_join (path_join data_path year) month) day)
            event_id)
         name
       = String.append market_file ".bz2".

(** What the walk may do to the file system: decompress an archive next to
    itself, and, when asked to delete, remove a market file the filter
    rejected or its archive. *)
Definition effect_ok {fs : Type} (os : OS.t fs)
    (market_definition_filters : list (string * pyval)) (delete_files : bool)
    (e : fs_event) : Prop :=
  match e with
  | Decompress compressed target =>
      compressed = String.append target ".bz2"
  | Remove path =>
      delete_files = true
      /\ exists market_file,
           rejected os market_definition_filters market_file
           /\ (path = market_file
               \/ path = String.append market_file ".bz2")
  end.

Definition is_remove (e : fs_event) : bool :=
  match e with Remove _ => true | Decompress _ _ => false end.

(** A run of [m] from [st] performs effects that satisfy [R] and, when it
    does not raise, returns a value that satisfies [Q]. *)
Definition run_sat {fs A : Type} (R : fs -> list fs_event -> fs -> Prop)
    (Q : A -> Prop) (m : F A) (st : fs) : Prop :=
  R st (fst (fst (m st))) (snd (fst (m st)))
  /\ forall a, snd (m st) = Ok a -> Q a.

(** The invariant of the walk. *)
Definition walk_effects {fs : Type} (os : OS.t fs)
    (market_definition_filters : list (string * pyval)) (delete_files : bool)
    (st : fs) (tr : list fs_event) (st' : fs) : Prop :=
  Forall (effect_ok os market_definition_filters delete_files) tr
  /\ replay os st tr = Some st'.

Definition walk_files {fs : Type} (os : OS.t fs)
    (market_definition_filters : list (string * pyval))
    (G : string -> Prop) (files : list string) : Prop :=
  Forall G files /\ Forall (kept os market_definition_filters) files.

(** ** Sample inputs *)

Module Sample.
(** The default bounds and trading window of [add], with a margin of 1/10
    and a stake of 10. *)
Definition strategy (staking_strategy : string) (trade_count : nat)
    : ExampleStrategy.t :=
  ExampleStrategy.mk 10 staking_strategy 60 (1 # 10) 1 150 1 150 ∅
    (fun _ _ _ => RunnerContext.mk trade_count).

(** The same in 'bsp' mode, with one trade recorded on selection 101 and
    none elsewhere. *)
Definition strategy_bsp : ExampleStrategy.t :=
  ExampleStrategy.mk 10 "bsp" 60 (1 # 10) 1 150 1 150 ∅
    (fun _ selection_id _ =>
       RunnerContext.mk (if Z.eqb selection_id 101 then 1 else 0)).

Definition runner1 : Runner.t :=
  Runner.mk 101 0 "ACTIVE" [PriceSize.mk 4 25] [PriceSize.mk (42 # 10) 30].
Definition runner2 : Runner.t :=
  Runner.mk 102 0 "ACTIVE" [PriceSize.mk 2 40] [PriceSize.mk (21 # 10) 15].
Definition scratched : Runner.t :=
  Runner.mk 100 0 "REMOVED" [] [].

Definition book : MarketBook.t :=
  MarketBook.mk "1.171755571" "OPEN" false 2
    [scratched; runner1; runner2] RateNone.
Definition book3 : MarketBook.t :=
  MarketBook.mk "1.171755571" "OPEN" false 3
    [scratched; runner1; runner2] RateNone.

Definition resting_back : Order.t :=
  Order.mk 101 0 "BACK" EXECUTABLE (LimitOrder (44 # 10) 10) 0.
Definition resting_lay : Order.t :=
  Order.mk 101 0 "LAY" EXECUTABLE (LimitOrder (38 # 10) 10) 0.

Definition market : Market.t := Market.mk "1.171755571" 30 [].
Definition market_later : Market.t := Market.mk "1.171755571" 12 [].
Definition market_resting : Market.t :=
  Market.mk "1.171755571" 30 [resting_back; resting_lay].

Definition rng (n : nat) : list float64 := [Fin (1 # 4); Fin (3 # 4)].
Definition rng' (n : nat) : list float64 :=
  [Fin (1 # 2); Fin (1 # 3); Fin (1 # 6)].
Definition rng_bad (n : nat) : list float64 := [Fin (1 # 4); NaN].

Definition won_back : Order.t :=
  Order.mk 101 0 "BACK" EXECUTION_COMPLETE (LimitOrder 3 10) 10.
Definition lost_lay : Order.t :=
  Order.mk 102 0 "LAY" EXECUTION_COMPLETE (LimitOrder 3 10) 10.
Definition market_closed : Market.t :=
  Market.mk "1.171755571" (-600) [won_back; lost_lay].
Definition book_closed (market_base_rate : base_rate) : MarketBook.t :=
  MarketBook.mk "1.171755571" "CLOSED" false 0
    [Runner.mk 100 0 "REMOVED" [] []; Runner.mk 101 0 "WINNER" [] [];
     Runner.mk 102 0 "LOSER" [] []]
    market_base_rate.

Definition harness_definition : gmap string pyval :=
  {[ "name" := PStr "R4 2138m Pace M"; "marketType" := PStr "WIN" ]}.

Definition flat_definition : gmap string pyval :=
  {[ "name" := PStr "R7 1200m Hcap"; "marketType" := PStr "WIN";
     "bettingType" := PStr "ODDS"; "numberOfWinners" := PNum 1 ]}.
Definition read_flat (market_file : string) : result (gmap string pyval) :=
  Ok flat_definition.

(** A price ladder with a single tick, for running the starting-price
    path. *)
Definition get_nearest_price (x : float64) : Q := 2.
End Sample.

(** Binary64 numbers: the floats that the literals 0.23, 0.15 and 0.2
    denote, and a strategy in mode 'take' with the default bounds. *)
Module Binary64.
Definition f0_23 : Q := 8286623314361713 # 36028797018963968.
Definition f0_15 : Q := 5404319552844595 # 36028797018963968.
Definition f0_2 : Q := 3602879701896397 # 18014398509481984.

Definition strategy (margin : Q) : ExampleStrategy.t :=
  ExampleStrategy.mk 10 "take" 60 margin 1 150 1 150 ∅
    (fun _ _ _ => RunnerContext.mk 0).
End Binary64.

(** A small file system: the directory tree PRO/2020/Aug/2/29936590 is
    fixed, a state is the list of the paths of the regular files in the
    event directory.  The first market is a harness race, the second a flat
    race. *)
Module SampleFS.
Definition event_path : string := "PRO/2020/Aug/2/29936590".

Definition initial : list string :=
  ["PRO/2020/Aug/2/29936590/1.171755571.bz2";
   "PRO/2020/Aug/2/29936590/1.171755572.bz2";
   "PRO/2020/Aug/2/29936590/1.171755572"].

Definition present (st : list string) (path : string) : bool :=
  existsb (String.eqb path) st.

Definition directories : list (string * list string) :=
  [("PRO", ["2020"]); ("PRO/2020", ["Aug"]); ("PRO/2020/Aug", ["2"]);
   ("PRO/2020/Aug/2", ["29936590"])].

Definition basename (path : string) : string :=
  substring (String.length event_path + 1)
    (String.length path - (String.length event_path + 1)) path.

Definition listdir (st : list string) (path : string)
    : result (list string) :=
  if String.eqb path event_path then Ok (map basename st)
  else match List.find (fun d => String.eqb (fst d) path) directories with
       | Some d => Ok (snd d)
       | None => Raise OSError
       end.

Definition isdir (st : list string) (path : string) : bool :=
  String.eqb path event_path
  || existsb (fun d => String.eqb (fst d) path) directories.

Definition decompress (st : list string) (compressed target : string)
    : result (list string) :=
  if present st compressed then Ok (st ++ [target])%list else Raise OSError.

Definition remove (st : list string) (path : string)
    : result (list string) :=
  if present st path
  then Ok (List.filter (fun p => negb (String.eqb p path)) st)
  else Raise OSError.

Definition read_market_definition (st : list string) (path : string)
    : result (gmap string pyval) :=
  if present st path then
    if String.eqb path "PRO/2020/Aug/2/29936590/1.171755571"
    then Ok Sample.harness_definition
    else Ok Sample.flat_definition
  else Raise OSError.

Definition os : OS.t (list string) :=
  OS.mk (list string) listdir isdir present decompress remove
    read_market_definition.

Definition filters : list (string * pyval) := [("marketType", PStr "WIN")].
End SampleFS.

(** * Properties *)

(** ** Comparisons *)

Lemma Qltb_lt (x y : Q) : Qltb x y = true <-> (x < y)%Q.
Proof.
  unfold Qltb. rewrite negb_true_iff, <- not_true_iff_false, Qle_bool_iff.
  split; [apply Qnot_le_lt | apply Qlt_not_le].
Qed.

Lemma Qltb_ge (x y : Q) : Qltb x y = false <-> (y <= x)%Q.
Proof.
  unfold Qltb. now rewrite negb_false_iff, Qle_bool_iff.
Qed.

Lemma Qgtb_gt (x y : Q) : Qgtb x y = true <-> (y < x)%Q.
Proof. apply Qltb_lt. Qed.

Lemma Qgtb_le (x y : Q) : Qgtb x y = false <-> (x <= y)%Q.
Proof. apply Qltb_ge. Qed.

Lemma Qeq_bool_false_lt (x : Q) : (0 < x)%Q -> Qeq_bool x 0 = false.
Proof.
  intros H. apply not_true_iff_false. rewrite Qeq_bool_iff.
  intros E. rewrite E in H. now apply Qlt_irrefl in H.
Qed.

(** ** Rounding to the nearest integer *)

Lemma round_half_even_floor (x : Q) :
  (Qfloor x <= round_half_even x <= Qfloor x + 1)%Z.
Proof.
  unfold round_half_even.
  destruct (x - inject_Z (Qfloor x) ?= 1 # 2)%Q; [destruct (Z.even _) | |];
    lia.
Qed.

Lemma round_half_even_Z (x : Q) (n : Z) :
  (x == inject_Z n)%Q -> round_half_even x = n.
Proof.
  intros E. unfold round_half_even.
  assert (F : Qfloor x = n) by (rewrite E; apply Qfloor_Z).
  rewrite F.
  destruct (Qcompare_spec (x - inject_Z n) (1 # 2)) as [H | H | H];
    try reflexivity; rewrite E in H; exfalso; lra.
Qed.

Lemma round_half_even_le (x y : Q) :
  (x <= y)%Q -> (round_half_even x <= round_half_even y)%Z.
Proof.
  intros Hle.
  pose proof (Qfloor_resp_le x y Hle) as Hf.
  destruct (Z.eq_dec (Qfloor x) (Qfloor y)) as [E | N].
  - unfold round_half_even. rewrite <- E.
    destruct (Qcompare_spec (x - inject_Z (Qfloor x)) (1 # 2)) as [H | H | H];
      destruct (Qcompare_spec (y - inject_Z (Qfloor x)) (1 # 2))
        as [H' | H' | H'];
      try destruct (Z.even (Qfloor x)); try lia; exfalso; lra.
  - pose proof (round_half_even_floor x). pose proof (round_half_even_floor y).
    lia.
Qed.

Lemma round_half_even_ge_Z (x : Q) (n : Z) :
  (inject_Z n <= x)%Q -> (n <= round_half_even x)%Z.
Proof.
  intros H. apply round_half_even_le in H.
  now rewrite (round_half_even_Z (inject_Z n) n) in H by reflexivity.
Qed.

Lemma round_half_even_le_Z (x : Q) (n : Z) :
  (x <= inject_Z n)%Q -> (round_half_even x <= n)%Z.
Proof.
  intros H. apply round_half_even_le in H.
  now rewrite (round_half_even_Z (inject_Z n) n) in H by reflexivity.
Qed.

(** ** Powers of two *)

Lemma pow2_pos (e : Z) : (0 < pow2 e)%Q.
Proof. apply Qpower_0_lt. reflexivity. Qed.

Lemma pow2_le (e e' : Z) : (e <= e')%Z -> (pow2 e <= pow2 e')%Q.
Proof. intros H. apply Qpower_le_compat_l; [exact H | discriminate]. Qed.

Lemma pow2_lt (e e' : Z) : (e < e')%Z -> (pow2 e < pow2 e')%Q.
Proof. intros H. apply Qpower_lt_compat_l; [exact H | reflexivity]. Qed.

Lemma pow2_plus (e e' : Z) : (pow2 (e + e') == pow2 e * pow2 e')%Q.
Proof. apply Qpower_plus. discriminate. Qed.

Lemma pow2_minus (e e' : Z) : (pow2 (e - e') == pow2 e / pow2 e')%Q.
Proof. apply Qpower_minus. discriminate. Qed.

Lemma pow2_Z (n : Z) : (0 <= n)%Z -> (pow2 n == inject_Z (2 ^ n))%Q.
Proof. intros H. unfold pow2. now rewrite Zpower_Qpower. Qed.

(** ** The binary exponent *)

Lemma Qlog2_spec (x : Q) :
  (0 < x)%Q -> (pow2 (Qlog2 x) <= x)%Q /\ (x < pow2 (Qlog2 x + 1))%Q.
Proof.
  intros Hx. destruct x as [n d].
  assert (Hn : (0 < n)%Z).
  { unfold Qlt in Hx. cbn in Hx. lia. }
  unfold Qlog2. cbn [Qnum Qden].
  set (a := Z.log2 n). set (b := Z.log2 (Z.pos d)).
  destruct (Z.log2_spec n Hn) as [Ha1 Ha2]. fold a in Ha1, Ha2.
  destruct (Z.log2_spec (Z.pos d) (Pos2Z.is_pos d)) as [Hb1 Hb2].
  fold b in Hb1, Hb2.
  assert (Ha0 : (0 <= a)%Z) by apply Z.log2_nonneg.
  assert (Hb0 : (0 <= b)%Z) by apply Z.log2_nonneg.
  assert (Hx' : (n # d == inject_Z n / inject_Z (Z.pos d))%Q)
    by (rewrite Qmake_Qdiv; reflexivity).
  assert (Hd : (0 < inject_Z (Z.pos d))%Q) by reflexivity.
  assert (HA1 : (pow2 a <= inject_Z n)%Q)
    by (rewrite pow2_Z by lia; now rewrite <- Zle_Qle).
  assert (HA2 : (inject_Z n < pow2 (a + 1))%Q).
  { rewrite pow2_Z by lia. rewrite <- Zlt_Qlt. now rewrite <- Z.add_1_r in Ha2. }
  assert (HB1 : (pow2 b <= inject_Z (Z.pos d))%Q)
    by (rewrite pow2_Z by lia; now rewrite <- Zle_Qle).
  assert (HB2 : (inject_Z (Z.pos d) < pow2 (b + 1))%Q).
  { rewrite pow2_Z by lia. rewrite <- Zlt_Qlt. now rewrite <- Z.add_1_r in Hb2. }
  pose proof (pow2_pos a) as Pa. pose proof (pow2_pos b) as Pb.
  (* 2^(a-b-1) < x < 2^(a-b+1) *)
  assert (Hup : (n # d < pow2 (a - b + 1))%Q).
  { rewrite Hx'. apply Qlt_shift_div_r; [exact Hd |].
    replace (a - b + 1)%Z with ((a + 1) - b)%Z by lia.
    rewrite pow2_minus.
    apply Qlt_le_trans with (pow2 (a + 1)); [exact HA2 |].
    pose proof (pow2_pos (a + 1)) as Pa1.
    assert (E : (pow2 (a + 1) / pow2 b * inject_Z (Z.pos d)
                 == pow2 (a + 1) * (inject_Z (Z.pos d) / pow2 b))%Q)
      by (field; lra).
    rewrite E.
    assert (1 <= inject_Z (Z.pos d) / pow2 b)%Q
      by (apply Qle_shift_div_l; [exact Pb | lra]).
    nra. }
  assert (Hlow : (pow2 (a - b - 1) <= n # d)%Q).
  { rewrite Hx'. apply Qle_shift_div_l; [exact Hd |].
    replace (a - b - 1)%Z with (a - (b + 1))%Z by lia.
    rewrite pow2_minus.
    pose proof (pow2_pos (b + 1)) as Pb1.
    apply Qle_trans with (pow2 a); [| exact HA1].
    assert (E : (pow2 a / pow2 (b + 1) * inject_Z (Z.pos d)
                 == pow2 a * (inject_Z (Z.pos d) / pow2 (b + 1)))%Q)
      by (field; lra).
    rewrite E.
    assert (inject_Z (Z.pos d) / pow2 (b + 1) <= 1)%Q
      by (apply Qle_shift_div_r; [exact Pb1 | lra]).
    nra. }
  destruct (Qle_bool (pow2 (a - b)) (n # d)) eqn:Hc.
  - apply Qle_bool_iff in Hc. now split.
  - split; [exact Hlow |].
    replace (a - b - 1 + 1)%Z with (a - b)%Z by lia.
    apply Qnot_le_lt. intros H. apply Qle_bool_iff in H. congruence.
Qed.

Lemma Qlog2_le (x y : Q) :
  (0 < x)%Q -> (x <= y)%Q -> (Qlog2 x <= Qlog2 y)%Z.
Proof.
  intros Hx Hle.
  assert (Hy : (0 < y)%Q) by lra.
  destruct (Qlog2_spec x Hx) as [H1 _], (Qlog2_spec y Hy) as [_ H2].
  assert (H : (pow2 (Qlog2 x) < pow2 (Qlog2 y + 1))%Q) by lra.
  apply Qpower_lt_compat_l_inv in H; [lia | reflexivity].
Qed.

(** ** Rounding to binary64 *)

Lemma pow2_ulp_52 (e : Z) :
  (pow2 e == inject_Z (2 ^ 52) * pow2 (e - 52))%Q.
Proof.
  replace e with (52 + (e - 52))%Z at 1 by lia.
  rewrite pow2_plus. now rewrite (pow2_Z 52).
Qed.

Lemma pow2_ulp_53 (e : Z) :
  (pow2 (e + 1) == inject_Z (2 ^ 53) * pow2 (e - 52))%Q.
Proof.
  replace (e + 1)%Z with (53 + (e - 52))%Z by lia.
  rewrite pow2_plus. now rewrite (pow2_Z 53).
Qed.

Lemma round_pos_nonneg (x : Q) : (0 <= x)%Q -> (0 <= round_pos x)%Q.
Proof.
  intros Hx. unfold round_pos.
  set (ulp := pow2 _). pose proof (pow2_pos (Z.max (Qlog2 x) (-1022) - 52)).
  fold ulp in H.
  assert (0 <= round_half_even (x / ulp))%Z.
  { apply round_half_even_ge_Z. apply Qle_shift_div_l; [exact H |].
    change (inject_Z 0) with 0%Q. lra. }
  apply Qmult_le_0_compat; [| lra].
  now rewrite <- (Zle_Qle 0).
Qed.

Lemma round_pos_0 (x : Q) : (x == 0)%Q -> (round_pos x == 0)%Q.
Proof.
  intros E. unfold round_pos.
  generalize (pow2 (Z.max (Qlog2 x) (-1022) - 52)). intros ulp.
  rewrite (round_half_even_Z _ 0); [ring |].
  rewrite E. unfold Qdiv. ring.
Qed.

Lemma round_pos_lt (x y : Q) :
  (0 < x)%Q -> (x <= y)%Q -> (round_pos x <= round_pos y)%Q.
Proof.
  intros Hx Hle.
  assert (Hy : (0 < y)%Q) by lra.
  pose proof (Qlog2_le x y Hx Hle) as Hlog.
  unfold round_pos.
  set (ex := Z.max (Qlog2 x) (-1022)). set (ey := Z.max (Qlog2 y) (-1022)).
  pose proof (pow2_pos (ex - 52)) as Ux. pose proof (pow2_pos (ey - 52)) as Uy.
  destruct (Z.eq_dec ex ey) as [E | N].
  - rewrite E. apply Qmult_le_compat_r; [| lra].
    rewrite <- Zle_Qle. apply round_half_even_le.
    unfold Qdiv. apply Qmult_le_compat_r; [exact Hle |].
    apply Qinv_le_0_compat. lra.
  - assert (Hlt : (ex < ey)%Z) by lia.
    assert (Ey : ey = Qlog2 y) by lia.
    destruct (Qlog2_spec x Hx) as [_ Hx2], (Qlog2_spec y Hy) as [Hy1 _].
    apply Qle_trans with (pow2 (ex + 1)).
    + rewrite (pow2_ulp_53 ex). apply Qmult_le_compat_r; [| lra].
      rewrite <- Zle_Qle. apply round_half_even_le_Z.
      apply Qle_shift_div_r; [exact Ux |].
      rewrite <- pow2_ulp_53.
      apply Qle_trans with (pow2 (Qlog2 x + 1)); [lra |].
      apply pow2_le. lia.
    + apply Qle_trans with (pow2 ey); [apply pow2_le; lia |].
      rewrite (pow2_ulp_52 ey) at 1. apply Qmult_le_compat_r; [| lra].
      rewrite <- Zle_Qle. apply round_half_even_ge_Z.
      apply Qle_shift_div_l; [exact Uy |].
      rewrite <- pow2_ulp_52. now rewrite Ey.
Qed.

(** Rounding is monotone. *)
Lemma round_pos_le (x y : Q) :
  (0 <= x)%Q -> (x <= y)%Q -> (round_pos x <= round_pos y)%Q.
Proof.
  intros Hx Hle. destruct (Qlt_le_dec 0 x) as [H | H].
  - now apply round_pos_lt.
  - rewrite (round_pos_0 x) by lra. apply round_pos_nonneg. lra.
Qed.

Lemma round_pos_1 : (round_pos 1 == 1)%Q.
Proof. vm_compute. reflexivity. Qed.

Lemma round_pos_ge_1 (x : Q) : (1 <= x)%Q -> (1 <= round_pos x)%Q.
Proof.
  intros H. rewrite <- round_pos_1 at 1. apply round_pos_le; [lra | exact H].
Qed.

(** ** Binary64 arithmetic *)

(** On a number that is not negative [round64] is [round_pos] with the
    overflow test. *)
Lemma round64_nonneg (x : Q) :
  (0 <= x)%Q ->
  round64 x = if Qle_bool (pow2 1024) (round_pos x) then Inf false
              else Fin (round_pos x).
Proof.
  intros Hx. unfold round64.
  assert (E : Qabs x = x).
  { destruct x as [n d]. unfold Qle in Hx. cbn in Hx. cbn.
    f_equal. lia. }
  rewrite E. now rewrite (proj2 (Qltb_ge x 0) Hx).
Qed.

Lemma round64_not_nan (x : Q) : isnan (round64 x) = false.
Proof. unfold round64. now destruct (Qle_bool _ _). Qed.

(** Rounding is monotone and keeps 0 and 1. *)
Lemma round64_le (x y : Q) :
  (0 <= x)%Q -> (x <= y)%Q -> f64_leb (round64 x) (round64 y) = true.
Proof.
  intros Hx Hle. rewrite !round64_nonneg by lra.
  pose proof (round_pos_le x y Hx Hle) as H.
  destruct (Qle_bool (pow2 1024) (round_pos x)) eqn:Ox;
    destruct (Qle_bool (pow2 1024) (round_pos y)) eqn:Oy; cbn; try reflexivity.
  - apply Qle_bool_iff in Ox.
    assert (Hy : (pow2 1024 <= round_pos y)%Q) by lra.
    apply Qle_bool_iff in Hy. congruence.
  - now apply Qle_bool_iff.
Qed.

Lemma round64_ge_0 (x : Q) :
  (0 <= x)%Q -> f64_leb (Fin 0) (round64 x) = true.
Proof.
  intros Hx. rewrite round64_nonneg by exact Hx.
  destruct (Qle_bool _ _); cbn; [reflexivity |].
  apply Qle_bool_iff. now apply round_pos_nonneg.
Qed.

Lemma round64_ge_1 (x : Q) :
  (1 <= x)%Q -> f64_leb (Fin 1) (round64 x) = true.
Proof.
  intros Hx. rewrite round64_nonneg by lra.
  destruct (Qle_bool _ _); cbn; [reflexivity |].
  apply Qle_bool_iff. now apply round_pos_ge_1.
Qed.

(** [x <= y] keeps every [z <= x] and every [y < z] failure. *)
Ltac f64_cases :=
  cbn; try discriminate; try reflexivity;
  repeat match goal with b : bool |- _ => destruct b end;
  cbn; try discriminate; try reflexivity; try congruence; auto.

Lemma f64_ltb_leb_r (x y z : float64) :
  f64_leb x y = true -> f64_ltb x z = false -> isnan z = false ->
  f64_ltb y z = false.
Proof.
  destruct x as [| s | a], y as [| t | b], z as [| u | c]; f64_cases.
  rewrite Qle_bool_iff, !Qltb_ge. intros. lra.
Qed.

Lemma f64_ltb_leb_l (x y z : float64) :
  f64_leb x y = true -> f64_ltb z y = false -> isnan z = false ->
  f64_ltb z x = false.
Proof.
  destruct x as [| s | a], y as [| t | b], z as [| u | c]; f64_cases.
  rewrite Qle_bool_iff, !Qltb_ge. intros. lra.
Qed.

(** Away from NaN, [x < y] is the negation of [y <= x]. *)
Lemma f64_ltb_leb (x y : float64) :
  isnan x = false -> isnan y = false -> f64_ltb x y = negb (f64_leb y x).
Proof. destruct x as [| s | a], y as [| t | b]; f64_cases. Qed.

Lemma reciprocal_positive (p : Q) :
  (0 < p)%Q -> f64_div (Fin 1) (Fin p) = round64 (1 / p).
Proof. intros H. cbn. now rewrite (Qeq_bool_false_lt p H). Qed.

(** [1/p' >= 1/p] for [0 < p' <= p], after rounding too. *)
Lemma Qinv_le_contravar (p p' : Q) :
  (0 < p')%Q -> (p' <= p)%Q -> (1 / p <= 1 / p')%Q.
Proof.
  intros Hp' Hle.
  assert (Hp : (0 < p)%Q) by (eapply Qlt_le_trans; eauto).
  apply Qle_shift_div_l; [exact Hp' |].
  assert (E : (1 / p * p' == p' / p)%Q)
    by (field; intros E0; rewrite E0 in Hp; now apply Qlt_irrefl in Hp).
  rewrite E. apply Qle_shift_div_r; [exact Hp | lra].
Qed.

Lemma reciprocal_le (p p' : Q) :
  (0 < p')%Q -> (p' <= p)%Q ->
  f64_leb (f64_div (Fin 1) (Fin p)) (f64_div (Fin 1) (Fin p')) = true
  /\ f64_leb (Fin 0) (f64_div (Fin 1) (Fin p)) = true.
Proof.
  intros Hp' Hle. assert (Hp : (0 < p)%Q) by lra.
  rewrite !reciprocal_positive by assumption.
  assert (0 < 1 / p)%Q by (apply Qlt_shift_div_l; lra).
  split; [apply round64_le; [lra | now apply Qinv_le_contravar] |].
  apply round64_ge_0. lra.
Qed.

Lemma reciprocal_ge_1 (p : Q) :
  (0 < p)%Q -> (p <= 1)%Q -> f64_leb (Fin 1) (f64_div (Fin 1) (Fin p)) = true.
Proof.
  intros Hp Hle. rewrite reciprocal_positive by assumption.
  apply round64_ge_1. apply Qle_shift_div_l; lra.
Qed.

Lemma one_plus_ge_1 (m : Q) :
  (0 <= m)%Q -> f64_leb (Fin 1) (f64_add (Fin 1) (Fin m)) = true.
Proof. intros Hm. cbn. apply round64_ge_1. lra. Qed.

Lemma f64_ltb_inf (z : float64) : f64_ltb (Inf false) z = false.
Proof. now destruct z as [| [] |]. Qed.

Lemma f64_ltb_nan (z : float64) : f64_ltb NaN z = false.
Proof. reflexivity. Qed.

(** Multiplying by a factor [>= 1] is monotone on what is not negative;
    a NaN can only come from [0 * inf]. *)
Lemma f64_mul_le (x x' m z : float64) :
  f64_leb (Fin 0) x = true -> f64_leb x x' = true ->
  f64_leb (Fin 1) m = true -> isnan z = false ->
  f64_ltb (f64_mul x m) z = false -> f64_ltb (f64_mul x' m) z = false.
Proof.
  intros H0 Hle Hm Hz.
  assert (H0' : f64_leb (Fin 0) x' = true).
  { destruct x as [| [] | a], x' as [| [] | a']; try discriminate;
      try reflexivity.
    cbn in *. apply Qle_bool_iff in H0, Hle. apply Qle_bool_iff. lra. }
  destruct m as [| [] | c]; try discriminate.
  - (* the factor is infinite *)
    intros _. destruct x' as [| [] | a']; try discriminate.
    + apply f64_ltb_inf.
    + cbn in H0'. apply Qle_bool_iff in H0'. cbn.
      destruct (Qeq_bool a' 0); [reflexivity |].
      rewrite (proj2 (Qltb_ge a' 0) H0'). apply f64_ltb_inf.
  - (* the factor is finite *)
    cbn in Hm. apply Qle_bool_iff in Hm.
    assert (Hc : Qeq_bool c 0 = false) by (apply Qeq_bool_false_lt; lra).
    assert (Hc' : Qltb c 0 = false) by (apply Qltb_ge; lra).
    destruct x' as [| [] | a']; try discriminate.
    + intros _. cbn. rewrite Hc, Hc'. apply f64_ltb_inf.
    + destruct x as [| [] | a]; try discriminate.
      cbn in H0, Hle. apply Qle_bool_iff in H0, Hle. cbn. intros H.
      apply f64_ltb_leb_r with (round64 (a * c)); auto.
      apply round64_le; nra.
Qed.

(** Dividing by a finite divisor [>= 1] is monotone on what is not
    negative. *)
Lemma f64_div_le (x x' z : float64) (c : Q) :
  f64_leb (Fin 0) x = true -> f64_leb x x' = true -> (1 <= c)%Q ->
  isnan z = false ->
  f64_ltb z (f64_div x' (Fin c)) = false ->
  f64_ltb z (f64_div x (Fin c)) = false.
Proof.
  intros H0 Hle Hc Hz.
  assert (Hc0 : Qeq_bool c 0 = false) by (apply Qeq_bool_false_lt; lra).
  assert (Hc' : Qltb c 0 = false) by (apply Qltb_ge; lra).
  destruct x as [| [] | a]; try discriminate.
  - destruct x' as [| [] | a']; try discriminate. auto.
  - cbn in H0. apply Qle_bool_iff in H0.
    destruct x' as [| [] | a']; try discriminate.
    + cbn. rewrite Hc0, Hc'. cbn.
      destruct z as [| [] | q]; intros H; try discriminate.
      apply f64_ltb_inf.
    + cbn in Hle. apply Qle_bool_iff in Hle. cbn. rewrite Hc0. intros H.
      apply f64_ltb_leb_l with (round64 (a' / c)); auto.
      apply round64_le.
      * apply Qle_shift_div_l; lra.
      * unfold Qdiv. apply Qmult_le_compat_r; [exact Hle |].
        apply Qinv_le_0_compat. lra.
Qed.

(** ** The probability cache *)

Lemma generate_probabilities_config (self : ExampleStrategy.t)
    (market : Market.t) (market_book : MarketBook.t)
    (rng : nat -> list float64) :
  let self' := fst (_generate_probabilities self market market_book rng) in
  stake self' = stake self
  /\ staking_strategy self' = staking_strategy self
  /\ margin self' = margin self
  /\ min_back_price self' = min_back_price self
  /\ max_back_price self' = max_back_price self
  /\ min_lay_price self' = min_lay_price self
  /\ max_lay_price self' = max_lay_price self
  /\ get_runner_context self' = get_runner_context self.
Proof.
  unfold _generate_probabilities.
  destruct (market_probabilities self !! Market.market_id market);
    cbn; repeat split.
Qed.

Lemma generate_probabilities_stored (self : ExampleStrategy.t)
    (market : Market.t) (market_book : MarketBook.t)
    (rng : nat -> list float64) :
  market_probabilities (fst (_generate_probabilities self market market_book rng))
    !! Market.market_id market
  = Some (snd (_generate_probabilities self market market_book rng)).
Proof.
  unfold _generate_probabilities.
  destruct (market_probabilities self !! Market.market_id market) eqn:E; cbn.
  - exact E.
  - apply lookup_insert_eq.
Qed.

(** C8. Get-or-create is stable: a second call for the same market id,
    whatever active-runner count its market book reports and whatever the
    generator would draw, returns the vector of the first call and leaves the
    strategy object, hence the stored vector, as the first call left it. *)
Theorem generate_probabilities_twice (self : ExampleStrategy.t)
    (market market' : Market.t) (market_book market_book' : MarketBook.t)
    (rng rng' : nat -> list float64) :
  Market.market_id market' = Market.market_id market ->
  let first := _generate_probabilities self market market_book rng in
  let second := _generate_probabilities (fst first) market' market_book' rng' in
  snd second = snd first
  /\ fst second = fst first
  /\ market_probabilities (fst second) !! Market.market_id market
     = Some (snd first).
Proof.
  intros Hid first second.
  pose proof (generate_probabilities_stored self market market_book rng) as Hs.
  fold first in Hs.
  assert (Hsecond : second = (fst first, snd first)).
  { unfold second, _generate_probabilities at 1. now rewrite Hid, Hs. }
  rewrite Hsecond; cbn. auto.
Qed.

Lemma generate_probabilities_twice_witness :
  Market.market_id Sample.market_later = Market.market_id Sample.market
  /\ snd (_generate_probabilities
            (fst (_generate_probabilities (Sample.strategy "take" 0)
                    Sample.market Sample.book Sample.rng))
            Sample.market_later Sample.book3 Sample.rng')
     = [Fin (1 # 4); Fin (3 # 4)].
Proof.
  split; [reflexivity |].
  exact (proj1 (generate_probabilities_twice (Sample.strategy "take" 0)
                  Sample.market Sample.market_later Sample.book Sample.book3
                  Sample.rng Sample.rng' eq_refl)).
Defined.

(** ** The pricing functions *)

(** The tests of [_get_back_price] on a finite probability and two
    prices, with the expected-value price as the code computes it. *)
Lemma get_back_price_tests (self : ExampleStrategy.t) (p : float64)
    (lay_price back_price : Q) :
  staking_strategy self = "take" \/ staking_strategy self = "offer" ->
  let rawPrice :=
    if String.eqb (staking_strategy self) "take"
    then back_price else lay_price in
  let evPrice :=
    f64_mul (f64_div (Fin 1) p) (f64_add (Fin 1) (Fin (margin self))) in
  snd (_get_back_price self p (Some lay_price) (Some back_price))
  = if f64_ltb evPrice (Fin rawPrice) then Ok None
    else if Qgtb (min_back_price self) rawPrice then Ok None
    else if Qltb (max_back_price self) rawPrice then Ok None
    else Ok (Some rawPrice).
Proof.
  intros Hmode. unfold _get_back_price, reciprocal.
  cbn -[f64_div f64_mul f64_add].
  destruct Hmode as [-> | ->]; cbn -[f64_div f64_mul f64_add];
    repeat (match goal with |- context [if ?b then _ else _] =>
              destruct b end; try reflexivity).
Qed.

(** A product of two factors [>= 1] is not NaN. *)
Lemma f64_mul_not_nan (x m : float64) :
  f64_leb (Fin 1) x = true -> f64_leb (Fin 1) m = true ->
  isnan (f64_mul x m) = false.
Proof.
  destruct x as [| [] | a], m as [| [] | c]; try discriminate; cbn;
    try reflexivity; rewrite Qle_bool_iff; intros.
  - rewrite Qeq_bool_false_lt by lra. reflexivity.
  - rewrite Qeq_bool_false_lt by lra. reflexivity.
  - apply round64_not_nan.
Qed.

(** C1, as amended. For a probability in (0,1], a margin >= 0 and both best
    prices present, the back candidate is the raw price (best back price
    under 'take', best lay price under 'offer') when evPrice >= rawPrice and
    the raw price lies within [min_back_price, max_back_price], and is None
    otherwise, where evPrice is (1/p)*(1+margin) as the code evaluates it
    in binary64: the quotient, the sum and the product are each rounded to
    the nearest binary64 number.  With the default bounds, p = 0.25,
    margin = 0.1 (the decimal, and the float that the literal denotes) and
    mode 'take', a best back price of 4.0 is accepted at 4.0 and a best
    back price of 4.5 is rejected. *)
Theorem get_back_price_candidate :
  (forall (self : ExampleStrategy.t) (p lay_price back_price : Q),
      (0 < p)%Q -> (p <= 1)%Q -> (0 <= margin self)%Q ->
      staking_strategy self = "take" \/ staking_strategy self = "offer" ->
      let rawPrice :=
        if String.eqb (staking_strategy self) "take"
        then back_price else lay_price in
      let evPrice :=
        f64_mul (f64_div (Fin 1) (Fin p))
          (f64_add (Fin 1) (Fin (margin self))) in
      let candidate :=
        snd (_get_back_price self (Fin p) (Some lay_price) (Some back_price)) in
      (f64_leb (Fin rawPrice) evPrice = true
       /\ (min_back_price self <= rawPrice)%Q
       /\ (rawPrice <= max_back_price self)%Q ->
       candidate = Ok (Some rawPrice))
      /\ (~ (f64_leb (Fin rawPrice) evPrice = true
             /\ (min_back_price self <= rawPrice)%Q
             /\ (rawPrice <= max_back_price self)%Q) ->
          candidate = Ok None))
  /\ (forall (trade_count : nat) (lay_price : Q),
         snd (_get_back_price (Sample.strategy "take" trade_count)
                (Fin (1 # 4)) (Some lay_price) (Some 4%Q))
         = Ok (Some 4%Q))
  /\ (forall (trade_count : nat) (lay_price : Q),
         snd (_get_back_price (Sample.strategy "take" trade_count)
                (Fin (1 # 4)) (Some lay_price) (Some (45 # 10)%Q))
         = Ok None)
  /\ (forall lay_price : Q,
         snd (_get_back_price (Binary64.strategy float_0_1) (Fin (1 # 4))
                (Some lay_price) (Some 4%Q))
         = Ok (Some 4%Q))
  /\ (forall lay_price : Q,
         snd (_get_back_price (Binary64.strategy float_0_1) (Fin (1 # 4))
                (Some lay_price) (Some (45 # 10)%Q))
         = Ok None).
Proof.
  split; [| repeat split; intros; vm_compute; reflexivity].
  intros self p lay_price back_price Hp Hp1 Hm Hmode rawPrice evPrice
    candidate.
  assert (Hcand : candidate =
                  if negb (f64_leb (Fin rawPrice) evPrice) then Ok None
                  else if Qgtb (min_back_price self) rawPrice then Ok None
                  else if Qltb (max_back_price self) rawPrice then Ok None
                  else Ok (Some rawPrice)).
  { unfold candidate. rewrite get_back_price_tests by exact Hmode.
    fold rawPrice evPrice. rewrite f64_ltb_leb; [reflexivity | | reflexivity].
    apply f64_mul_not_nan;
      [now apply reciprocal_ge_1 | now apply one_plus_ge_1]. }
  rewrite Hcand. split.
  - intros (Hev & Hmin & Hmax).
    apply Qgtb_le in Hmin. apply Qltb_ge in Hmax.
    now rewrite Hev, Hmin, Hmax.
  - intros Hnot.
    destruct (f64_leb (Fin rawPrice) evPrice) eqn:Hev; [| reflexivity].
    cbn [negb].
    destruct (Qgtb (min_back_price self) rawPrice) eqn:Hmin; [reflexivity |].
    destruct (Qltb (max_back_price self) rawPrice) eqn:Hmax; [reflexivity |].
    exfalso. apply Hnot.
    apply Qgtb_le in Hmin. apply Qltb_ge in Hmax. auto.
Qed.

Lemma get_back_price_candidate_witness :
  ((0 < 1 # 4)%Q /\ (1 # 4 <= 1)%Q
   /\ (0 <= margin (Sample.strategy "offer" 0))%Q)
  /\ snd (_get_back_price (Sample.strategy "offer" 0) (Fin (1 # 4))
            (Some (42 # 10)%Q) (Some 4%Q))
     = Ok (Some (42 # 10)%Q)
  /\ snd (_get_back_price (Sample.strategy "take" 0) (Fin (1 # 4))
            (Some (46 # 10)%Q) (Some (45 # 10)%Q))
     = Ok None.
Proof.
  assert (H1 : (0 < 1 # 4)%Q) by reflexivity.
  assert (H2 : (1 # 4 <= 1)%Q) by (vm_compute; discriminate).
  assert (H3 : (0 <= margin (Sample.strategy "offer" 0))%Q)
    by (vm_compute; discriminate).
  refine (conj (conj H1 (conj H2 H3)) (conj _ _)).
  - apply (proj1 (proj1 get_back_price_candidate (Sample.strategy "offer" 0)
                    (1 # 4)%Q (42 # 10)%Q 4%Q H1 H2 H3 (or_intror eq_refl))).
    split; [vm_compute; reflexivity |].
    split; vm_compute; discriminate.
  - apply (proj2 (proj1 get_back_price_candidate (Sample.strategy "take" 0)
                    (1 # 4)%Q (46 # 10)%Q (45 # 10)%Q H1 H2 H3
                    (or_introl eq_refl))).
    intros [Hev _]. vm_compute in Hev. discriminate.
Defined.

(** C1 as stated fails when evPrice is the real number (1/p)*(1+m).  With
    p = 0.23, margin 0.15 and a best back price of 5.0 the real evPrice is
    5 and the specification accepts at 5.0, while the code, on the binary64
    numbers that 0.23 and 0.15 denote, computes an evPrice below 5 and
    returns None.  In the other direction, for the binary64 number that 0.2
    denotes (a little above 1/5) and margin 0, the real evPrice is below 5
    and the specification rejects, while the code's quotient rounds to 5
    and it accepts at 5.0. *)
Lemma get_back_price_rounding_counterexample :
  (spec_back_price (Binary64.strategy (15 # 100)) (23 # 100) 6 5 = Some 5%Q
   /\ f64_eqb (round64 (23 # 100)) (Fin Binary64.f0_23) = true
   /\ f64_eqb (round64 (15 # 100)) (Fin Binary64.f0_15) = true
   /\ snd (_get_back_price (Binary64.strategy Binary64.f0_15)
             (Fin Binary64.f0_23) (Some 6%Q) (Some 5%Q))
      = Ok None)
  /\ (f64_eqb (round64 (2 # 10)) (Fin Binary64.f0_2) = true
      /\ spec_back_price (Binary64.strategy 0) Binary64.f0_2 6 5 = None
      /\ snd (_get_back_price (Binary64.strategy 0) (Fin Binary64.f0_2)
                (Some 6%Q) (Some 5%Q))
         = Ok (Some 5%Q)).
Proof.
  split; [split; [| split; [| split]] | split; [| split]];
    vm_compute; reflexivity.
Qed.

(** ** Traces *)

Section Traces.
Context {A B : Type}.

Lemma bind_Ok (m : M A) (f : A -> M B) (a : A) :
  snd m = Ok a -> m ≫= f = ((fst m ++ fst (f a))%list, snd (f a)).
Proof.
  destruct m as [tr r]; cbn. intros ->.
  unfold mbind, M_bind, bind. now destruct (f a).
Qed.

Lemma bind_Raise (m : M A) (f : A -> M B) (e : exn) :
  snd m = Raise e -> m ≫= f = (fst m, Raise e).
Proof. destruct m as [tr r]; cbn. now intros ->. Qed.

Lemma bind_Forall (P : event -> Prop) (m : M A) (f : A -> M B) :
  Forall P (fst m) ->
  (forall a, snd m = Ok a -> Forall P (fst (f a))) ->
  Forall P (fst (m ≫= f)).
Proof.
  intros Hm Hf. destruct (snd m) as [a | e] eqn:E.
  - rewrite (bind_Ok m f a E); cbn. apply Forall_app; auto.
  - now rewrite (bind_Raise m f e E).
Qed.
End Traces.

Lemma bind_ret_l {A B : Type} (a : A) (f : A -> M B) : mret a ≫= f = f a.
Proof. unfold mret, M_ret, ret, mbind, M_bind, bind. now destruct (f a). Qed.

Lemma index_probability_Some (race_probability : list float64)
    (runner_idx : nat) (p : float64) :
  race_probability !! runner_idx = Some p ->
  index_probability race_probability runner_idx = mret p.
Proof. unfold index_probability. now intros ->. Qed.

Lemma index_probability_None (race_probability : list float64)
    (runner_idx : nat) :
  race_probability !! runner_idx = None ->
  index_probability race_probability runner_idx = raise IndexError.
Proof. unfold index_probability. now intros ->. Qed.

Lemma verify_probabilities_cons (race_probability : list float64)
    (runner : Runner.t) (rest : list Runner.t) (runner_idx : nat) :
  verify_probabilities race_probability (runner :: rest) runner_idx
  = if negb (String.eqb (Runner.status runner) "ACTIVE")
    then verify_probabilities race_probability rest runner_idx
    else
      runner_probability ← index_probability race_probability runner_idx;
      if isnan runner_probability || f64_eqb runner_probability (Fin 0)
      then raise NameError
      else verify_probabilities race_probability rest (S runner_idx).
Proof. reflexivity. Qed.

Lemma compare_market_odds_cons (get_nearest_price : float64 -> Q)
    (self : ExampleStrategy.t) (market : Market.t)
    (market_book : MarketBook.t) (race_probability : list float64)
    (runner : Runner.t) (rest : list Runner.t) (runner_idx : nat) :
  compare_market_odds get_nearest_price self market market_book
    race_probability (runner :: rest) runner_idx
  = if negb (String.eqb (Runner.status runner) "ACTIVE")
    then compare_market_odds get_nearest_price self market market_book
           race_probability rest runner_idx
    else
      runner_probability ← index_probability race_probability runner_idx;
      let back_price := get_price (Runner.available_to_back runner) 0 in
      let lay_price := get_price (Runner.available_to_lay runner) 0 in
      let trade :=
        Trade.Trade (MarketBook.market_id market_book)
          (Runner.selection_id runner) (Runner.handicap runner) in
      if String.eqb (staking_strategy self) "bsp"
      then _place_bsp_bets get_nearest_price self market runner
             back_price lay_price runner_probability trade
      else
        offer_or_take self market runner back_price lay_price
          runner_probability trade;;
        compare_market_odds get_nearest_price self market market_book
          race_probability rest (S runner_idx).
Proof. reflexivity. Qed.

Lemma ret_Forall {A : Type} (P : event -> Prop) (a : A) :
  Forall P (fst (mret a : M A)).
Proof. constructor. Qed.

Lemma raise_Forall {A : Type} (P : event -> Prop) (e : exn) :
  Forall P (fst (raise e : M A)).
Proof. constructor. Qed.

Lemma emit_Forall (P : event -> Prop) (e : event) :
  P e -> Forall P (fst (emit e)).
Proof. intros H. repeat constructor. exact H. Qed.

Lemma index_probability_Forall (P : event -> Prop)
    (race_probability : list float64) (runner_idx : nat) :
  Forall P (fst (index_probability race_probability runner_idx)).
Proof.
  unfold index_probability.
  destruct (race_probability !! runner_idx); constructor.
Qed.

(** Closes or splits goals of the form [Forall P (fst m)] along the shape
    of [m]. *)
Ltac trace_step :=
  lazymatch goal with
  | |- Forall _ (fst (mret _)) => apply ret_Forall
  | |- Forall _ (fst (raise _)) => apply raise_Forall
  | |- Forall _ (fst (index_probability _ _)) =>
      apply index_probability_Forall
  | |- Forall _ (fst (emit _)) => apply emit_Forall
  | |- Forall _ (fst (_ ≫= _)) => apply bind_Forall; [| intros ? ?]
  | |- Forall _ (fst (if ?b then _ else _)) => destruct b eqn:?
  | |- Forall _ (fst (match ?x with Some _ => _ | None => _ end)) =>
      destruct x eqn:?
  end.

(** ** Price bounds *)

Ltac case_if :=
  match goal with
  | |- context [if ?b then _ else _] => destruct b eqn:?
  end.

Ltac order_facts :=
  repeat match goal with
    | H : Qgtb _ _ = false |- _ => apply Qgtb_le in H
    | H : Qgtb _ _ = true |- _ => apply Qgtb_gt in H
    | H : Qltb _ _ = false |- _ => apply Qltb_ge in H
    | H : Qltb _ _ = true |- _ => apply Qltb_lt in H
    end.

Lemma get_back_price_bounds (self : ExampleStrategy.t) (p : float64)
    (lay_price back_price : option Q) (c : Q) :
  snd (_get_back_price self p lay_price back_price) = Ok (Some c) ->
  (min_back_price self <= c)%Q /\ (c <= max_back_price self)%Q.
Proof.
  unfold _get_back_price, reciprocal.
  destruct lay_price as [lay |], back_price as [back |]; cbn; try discriminate.
  repeat case_if; cbn; try discriminate; intros [= <-]; order_facts; auto.
Qed.

Lemma get_lay_price_bounds (self : ExampleStrategy.t) (p : float64)
    (lay_price back_price : option Q) (c : Q) :
  snd (_get_lay_price self p lay_price back_price) = Ok (Some c) ->
  (min_lay_price self <= c)%Q /\ (c <= max_lay_price self)%Q.
Proof.
  unfold _get_lay_price, reciprocal.
  destruct lay_price as [lay |], back_price as [back |]; cbn; try discriminate.
  repeat case_if; cbn; try discriminate; intros [= <-]; order_facts; auto.
Qed.

(** The only events of a pricing function are reciprocals of its
    probability argument. *)
Lemma get_back_price_events (self : ExampleStrategy.t) (p : float64)
    (lay_price back_price : option Q) :
  Forall (eq (Reciprocal p))
    (fst (_get_back_price self p lay_price back_price)).
Proof.
  unfold _get_back_price, reciprocal.
  destruct lay_price, back_price; cbn; try constructor.
  destruct (if String.eqb (staking_strategy self) "take" then _ else _);
    cbn; [| repeat constructor].
  repeat (match goal with |- context [if ?b then _ else _] =>
            destruct b end); repeat constructor.
Qed.

Lemma get_lay_price_events (self : ExampleStrategy.t) (p : float64)
    (lay_price back_price : option Q) :
  Forall (eq (Reciprocal p))
    (fst (_get_lay_price self p lay_price back_price)).
Proof.
  unfold _get_lay_price, reciprocal.
  destruct lay_price, back_price; cbn; try constructor.
  destruct (if String.eqb (staking_strategy self) "take" then _ else _);
    cbn; [| repeat constructor].
  repeat (match goal with |- context [if ?b then _ else _] =>
            destruct b end); repeat constructor.
Qed.

(** ** The events of the continuous path

    What one active runner can add to the trace: reciprocals of its own
    probability, replacements of its executable orders by a strictly better
    candidate, and placements at a candidate. *)

Section ContinuousPath.
Variable P : event -> Prop.
Variable self : ExampleStrategy.t.
Variable runner_probability : float64.
Variables lay_price back_price : option Q.


Hypothesis P_reciprocal : P (Reciprocal runner_probability).

Lemma get_back_price_Forall :
  Forall P (fst (_get_back_price self runner_probability lay_price
                   back_price)).
Proof.
  eapply Forall_impl; [apply get_back_price_events |].
  now intros e <-.
Qed.

Lemma get_lay_price_Forall :
  Forall P (fst (_get_lay_price self runner_probability lay_price
                   back_price)).
Proof.
  eapply Forall_impl; [apply get_lay_price_events |].
  now intros e <-.
Qed.


Lemma OrderStatus_eqb_eq (a b : OrderStatus) :
  OrderStatus_eqb a b = true <-> a = b.
Proof. destruct a, b; cbn; split; congruence. Qed.

Lemma update_order_Forall (order : Order.t) :
  (forall c, replaces self runner_probability lay_price back_price order c -> P (ReplaceOrder order c)) ->
  Forall P (fst (update_order self runner_probability lay_price back_price
                   order)).
Proof.
  intros Hrep. unfold replaces in Hrep. unfold update_order, update_back_order, update_lay_order.
  repeat trace_step;
    try apply get_back_price_Forall; try apply get_lay_price_Forall;
    apply Hrep; split;
    try (now apply OrderStatus_eqb_eq);
    order_facts;
    repeat match goal with
      | H : String.eqb _ _ = true |- _ => apply String.eqb_eq in H
      end;
    subst; auto.
Qed.

Lemma selection_orders_loop_Forall (selection_orders : list Order.t)
    (has_back_bets has_lay_bets : bool) :
  (forall order c, In order selection_orders -> replaces self runner_probability lay_price back_price order c ->
                   P (ReplaceOrder order c)) ->
  Forall P (fst (selection_orders_loop self runner_probability lay_price
                   back_price selection_orders has_back_bets has_lay_bets)).
Proof.
  revert has_back_bets has_lay_bets.
  induction selection_orders as [| order rest IH]; intros hb hl Hrep; cbn.
  - constructor.
  - trace_step.
    + apply update_order_Forall. intros c. apply Hrep. now left.
    + apply IH. intros o c Ho. apply Hrep. now right.
Qed.

Lemma offer_or_take_Forall (market : Market.t) (runner : Runner.t)
    (trade : Trade.t) :
  (forall order c,
      In order (strategy_selection_orders (Market.blotter market)
                  (Runner.selection_id runner) (Runner.handicap runner)) ->
      replaces self runner_probability lay_price back_price order c -> P (ReplaceOrder order c)) ->
  (forall c, back_candidate self runner_probability lay_price back_price c ->
             P (PlaceOrder trade "BACK" (LimitOrder c (stake self)))) ->
  (forall c, lay_candidate self runner_probability lay_price back_price c ->
             P (PlaceOrder trade "LAY" (LimitOrder c (stake self)))) ->
  Forall P (fst (offer_or_take self market runner back_price lay_price
                   runner_probability trade)).
Proof.
  intros Hrep Hback Hlay. unfold offer_or_take.
  trace_step; [now apply selection_orders_loop_Forall |].
  destruct a as [has_back_bets has_lay_bets]. unfold place_orders.
  repeat trace_step;
    try apply get_back_price_Forall; try apply get_lay_price_Forall;
    subst; auto.
Qed.
End ContinuousPath.

Lemma offer_or_take_within_bounds (self : ExampleStrategy.t)
    (market : Market.t) (runner : Runner.t) (back_price lay_price : option Q)
    (runner_probability : float64) (trade : Trade.t) :
  Forall (within_bounds self)
    (fst (offer_or_take self market runner back_price lay_price
            runner_probability trade)).
Proof.
  apply offer_or_take_Forall; cbn; auto.
  - intros order c _ (_ & [(Hside & Hc & _) | (Hside & Hc & _)]).
    + left. split; [exact Hside |]. exact (get_back_price_bounds _ _ _ _ _ Hc).
    + right. split; [exact Hside |]. exact (get_lay_price_bounds _ _ _ _ _ Hc).
  - intros c Hc. split; [reflexivity |]. left. split; [reflexivity |].
    exact (get_back_price_bounds _ _ _ _ _ Hc).
  - intros c Hc. split; [reflexivity |]. right. split; [reflexivity |].
    exact (get_lay_price_bounds _ _ _ _ _ Hc).
Qed.

Lemma compare_market_odds_within_bounds (get_nearest_price : float64 -> Q)
    (self : ExampleStrategy.t) (market : Market.t)
    (market_book : MarketBook.t) (race_probability : list float64)
    (runners : list Runner.t) (runner_idx : nat) :
  staking_strategy self <> "bsp" ->
  Forall (within_bounds self)
    (fst (compare_market_odds get_nearest_price self market market_book
            race_probability runners runner_idx)).
Proof.
  intros Hmode. apply String.eqb_neq in Hmode.
  revert runner_idx.
  induction runners as [| runner rest IH]; intros runner_idx; cbn.
  - constructor.
  - destruct (negb _); [apply IH |].
    rewrite Hmode.
    repeat trace_step; auto using offer_or_take_within_bounds.
Qed.

Lemma verify_probabilities_silent (race_probability : list float64)
    (runners : list Runner.t) (runner_idx : nat) :
  fst (verify_probabilities race_probability runners runner_idx) = [].
Proof.
  revert runner_idx.
  induction runners as [| runner rest IH]; intros runner_idx; cbn.
  - reflexivity.
  - destruct (negb _); [apply IH |].
    unfold index_probability.
    destruct (race_probability !! runner_idx) as [p |]; cbn; [| reflexivity].
    destruct (isnan p || f64_eqb p (Fin 0)); cbn; [reflexivity |].
    specialize (IH (S runner_idx)).
    destruct (verify_probabilities race_probability rest (S runner_idx)) as [tr r];
      cbn in *.
    subst tr. now destruct r.
Qed.

Lemma within_bounds_config (self self' : ExampleStrategy.t) (e : event) :
  stake self' = stake self ->
  min_back_price self' = min_back_price self ->
  max_back_price self' = max_back_price self ->
  min_lay_price self' = min_lay_price self ->
  max_lay_price self' = max_lay_price self ->
  within_bounds self' e -> within_bounds self e.
Proof.
  intros H1 H2 H3 H4 H5.
  destruct e as [| ? ? [] |]; cbn; unfold side_bounds;
    now rewrite ?H1, ?H2, ?H3, ?H4, ?H5.
Qed.

(** C10. On the continuous path (staking mode 'take' or 'offer'),
    whatever the market update, every order
    the strategy places is a limit order for the configured stake whose
    price lies within the bounds of its side, and every replacement price
    lies within the bounds of the side of the order it replaces:
    [min_back_price, max_back_price] for BACK and
    [min_lay_price, max_lay_price] for LAY. *)
Theorem placed_prices_within_bounds (get_nearest_price : float64 -> Q)
    (self : ExampleStrategy.t) (market : option Market.t)
    (market_book : option MarketBook.t) (rng : nat -> list float64) :
  staking_strategy self = "take" \/ staking_strategy self = "offer" ->
  Forall (within_bounds self)
    (fst (snd (process_market_book get_nearest_price self market market_book
                 rng))).
Proof.
  intros Hmode.
  assert (Hcont : staking_strategy self <> "bsp")
    by (destruct Hmode as [-> | ->]; discriminate).
  unfold process_market_book.
  destruct market as [market |], market_book as [market_book |];
    try constructor.
  pose proof (generate_probabilities_config self market market_book rng)
    as (H1 & H2 & _ & H3 & H4 & H5 & H6 & _).
  destruct (_generate_probabilities self market market_book rng)
    as [self' race_probability]; cbn in *.
  eapply Forall_impl;
    [| intros e; apply (within_bounds_config self self'); assumption].
  repeat trace_step.
  - rewrite verify_probabilities_silent. constructor.
  - apply compare_market_odds_within_bounds. now rewrite H2.
Qed.

(** ** Validation of the probability vector *)

Lemma invalid_probability_test (p : float64) :
  invalid_probability p <-> isnan p || f64_eqb p (Fin 0) = true.
Proof. unfold invalid_probability. now rewrite orb_true_iff. Qed.

Lemma valid_probability_test (p : float64) :
  valid_probability p <-> isnan p || f64_eqb p (Fin 0) = false.
Proof. unfold valid_probability. now rewrite orb_false_iff. Qed.

Lemma verify_probabilities_invalid (race_probability : list float64)
    (runners : list Runner.t) (runner_idx i : nat) (runner : Runner.t)
    (p : float64) :
  active_runners runners !! i = Some runner ->
  race_probability !! (runner_idx + i)%nat = Some p ->
  invalid_probability p ->
  verify_probabilities race_probability runners runner_idx
  = ([], Raise NameError).
Proof.
  revert runner_idx i.
  induction runners as [| r rest IH]; intros runner_idx i Hi Hp Hbad;
    [discriminate |].
  rewrite verify_probabilities_cons. cbn in Hi.
  destruct (String.eqb (Runner.status r) "ACTIVE"); cbn [negb];
    [| now apply (IH runner_idx i)].
  destruct i as [| i].
  - rewrite Nat.add_0_r in Hp.
    rewrite (index_probability_Some _ _ _ Hp), bind_ret_l.
    apply invalid_probability_test in Hbad. now rewrite Hbad.
  - destruct (lookup_lt_is_Some_2 race_probability runner_idx) as [p0 Hp0].
    { apply lookup_lt_Some in Hp. lia. }
    rewrite (index_probability_Some _ _ _ Hp0), bind_ret_l.
    destruct (isnan p0 || f64_eqb p0 (Fin 0)); [reflexivity |].
    apply (IH (S runner_idx) i); auto.
    now replace (S runner_idx + i)%nat with (runner_idx + S i)%nat by lia.
Qed.

Lemma place_bsp_bets_safe (get_nearest_price : float64 -> Q)
    (self : ExampleStrategy.t) (market : Market.t) (runner : Runner.t)
    (back_price lay_price : option Q) (runner_probability : float64)
    (trade : Trade.t) :
  valid_probability runner_probability ->
  Forall safe_division
    (fst (_place_bsp_bets get_nearest_price self market runner back_price
            lay_price runner_probability trade)).
Proof.
  intros Hp. unfold _place_bsp_bets, reciprocal.
  destruct (Nat.eqb _ 0); [constructor |].
  destruct back_price, lay_price; try constructor.
  repeat trace_step; auto; exact I.
Qed.

Lemma compare_market_odds_safe (get_nearest_price : float64 -> Q)
    (self : ExampleStrategy.t) (market : Market.t)
    (market_book : MarketBook.t) (race_probability : list float64)
    (runners : list Runner.t) (runner_idx : nat) :
  snd (verify_probabilities race_probability runners runner_idx) = Ok tt ->
  Forall safe_division
    (fst (compare_market_odds get_nearest_price self market market_book
            race_probability runners runner_idx)).
Proof.
  revert runner_idx.
  induction runners as [| runner rest IH]; intros runner_idx;
    [constructor |].
  rewrite verify_probabilities_cons, compare_market_odds_cons.
  destruct (negb _); [apply IH |].
  destruct (race_probability !! runner_idx) as [p |] eqn:Hidx.
  - rewrite (index_probability_Some _ _ _ Hidx), !bind_ret_l.
    destruct (isnan p || f64_eqb p (Fin 0)) eqn:Hp; [discriminate |].
    apply valid_probability_test in Hp. intros Hrest. cbn zeta.
    trace_step; [now apply place_bsp_bets_safe |].
    trace_step; [| now apply IH].
    apply offer_or_take_Forall; cbn; auto.
  - rewrite (index_probability_None _ _ Hidx). discriminate.
Qed.

(** C7. If the probability of any active runner is NaN or zero, the update
    is abandoned with nothing in its trace: the validation pass ends the
    call (through the [NameError] of its warning line, or through
    [return False] when the vector has the wrong length) before any pricing
    function runs, so no candidate price is computed and no command is sent.
    And on every update, each evaluation of [1 / runner_probability] has a
    divisor that is a number other than zero. *)
Theorem invalid_probability_aborts (get_nearest_price : float64 -> Q)
    (self : ExampleStrategy.t) (market : Market.t)
    (market_book : MarketBook.t) (rng : nat -> list float64) :
  let race_probability :=
    snd (_generate_probabilities self market market_book rng) in
  let run :=
    snd (process_market_book get_nearest_price self (Some market)
           (Some market_book) rng) in
  ((exists (i : nat) (runner : Runner.t) (p : float64),
       active_runners (MarketBook.runners market_book) !! i = Some runner
       /\ race_probability !! i = Some p
       /\ invalid_probability p) ->
   fst run = []
   /\ snd run = if Nat.eqb (length race_probability)
                     (MarketBook.number_of_active_runners market_book)
                then Raise NameError else Ok RetFalse)
  /\ Forall safe_division (fst run).
Proof.
  unfold process_market_book.
  destruct (_generate_probabilities self market market_book rng)
    as [self' race_probability]; cbn [fst snd].
  destruct (Nat.eqb (length race_probability) _); cbn [negb];
    [| split; [split; reflexivity | constructor]].
  split.
  - intros (i & runner & p & Hi & Hp & Hbad).
    now rewrite (verify_probabilities_invalid race_probability _ 0 i runner p
                   Hi Hp Hbad).
  - trace_step.
    + rewrite verify_probabilities_silent. constructor.
    + destruct a. now apply compare_market_odds_safe.
Qed.

Lemma invalid_probability_aborts_witness :
  (exists (i : nat) (runner : Runner.t) (p : float64),
      active_runners (MarketBook.runners Sample.book) !! i = Some runner
      /\ snd (_generate_probabilities (Sample.strategy "take" 0) Sample.market
                Sample.book Sample.rng_bad) !! i = Some p
      /\ invalid_probability p)
  /\ snd (process_market_book Sample.get_nearest_price
            (Sample.strategy "take" 0) (Some Sample.market)
            (Some Sample.book) Sample.rng_bad)
     = ([], Raise NameError).
Proof.
  assert (H : exists (i : nat) (runner : Runner.t) (p : float64),
             active_runners (MarketBook.runners Sample.book) !! i = Some runner
             /\ snd (_generate_probabilities (Sample.strategy "take" 0)
                       Sample.market Sample.book Sample.rng_bad) !! i = Some p
             /\ invalid_probability p).
  { exists 1%nat, Sample.runner2, NaN. repeat split. now left. }
  split; [exact H |].
  destruct (proj1 (invalid_probability_aborts Sample.get_nearest_price
                     (Sample.strategy "take" 0) Sample.market Sample.book
                     Sample.rng_bad) H) as [Htrace Hresult].
  apply injective_projections; [exact Htrace | exact Hresult].
Defined.

(** ** The starting-price path *)

Lemma place_bsp_bets_gate (get_nearest_price : float64 -> Q)
    (self : ExampleStrategy.t) (market : Market.t) (runner : Runner.t)
    (back_price lay_price : option Q) (runner_probability : float64)
    (trade : Trade.t) :
  RunnerContext.trade_count
    (get_runner_context self (Market.market_id market)
       (Runner.selection_id runner) (Runner.handicap runner)) = 0%nat ->
  _place_bsp_bets get_nearest_price self market runner back_price lay_price
    runner_probability trade
  = ([], Ok RetNone).
Proof. unfold _place_bsp_bets. now intros ->. Qed.

Lemma place_bsp_bets_events (get_nearest_price : float64 -> Q)
    (self : ExampleStrategy.t) (market : Market.t) (runner : Runner.t)
    (back_price lay_price : option Q) (runner_probability : float64)
    (trade : Trade.t) :
  Forall (fun e => match e with
                   | Reciprocal _ => True
                   | PlaceOrder t _ _ => t = trade
                   | ReplaceOrder _ _ => False
                   end)
    (fst (_place_bsp_bets get_nearest_price self market runner back_price
            lay_price runner_probability trade)).
Proof.
  unfold _place_bsp_bets, reciprocal.
  destruct (Nat.eqb _ 0); [constructor |].
  destruct back_price, lay_price; try constructor.
  repeat trace_step; auto.
Qed.

(** In 'bsp' mode the loop of lines 126-191 ends at its first active
    runner. *)
Lemma compare_market_odds_bsp (get_nearest_price : float64 -> Q)
    (self : ExampleStrategy.t) (market : Market.t)
    (market_book : MarketBook.t) (race_probability : list float64)
    (runners : list Runner.t) (runner_idx : nat) :
  staking_strategy self = "bsp" ->
  compare_market_odds get_nearest_price self market market_book
    race_probability runners runner_idx
  = match active_runners runners with
    | [] => mret RetNone
    | runner :: _ =>
        runner_probability ← index_probability race_probability runner_idx;
        _place_bsp_bets get_nearest_price self market runner
          (get_price (Runner.available_to_back runner) 0)
          (get_price (Runner.available_to_lay runner) 0)
          runner_probability
          (Trade.Trade (MarketBook.market_id market_book)
             (Runner.selection_id runner) (Runner.handicap runner))
    end.
Proof.
  intros Hmode.
  induction runners as [| runner rest IH]; [reflexivity |].
  rewrite compare_market_odds_cons. cbn [active_runners List.filter].
  fold (active_runners rest).
  destruct (String.eqb (Runner.status runner) "ACTIVE"); cbn [negb];
    [| exact IH].
  now rewrite Hmode.
Qed.

Lemma verify_probabilities_first (race_probability : list float64)
    (runners : list Runner.t) (runner_idx : nat) (runner : Runner.t)
    (later : list Runner.t) :
  active_runners runners = runner :: later ->
  snd (verify_probabilities race_probability runners runner_idx) = Ok tt ->
  exists p, race_probability !! runner_idx = Some p /\ valid_probability p.
Proof.
  induction runners as [| r rest IH]; [discriminate |].
  rewrite verify_probabilities_cons. cbn [active_runners List.filter].
  fold (active_runners rest).
  destruct (String.eqb (Runner.status r) "ACTIVE"); cbn [negb]; [| exact IH].
  intros _.
  destruct (race_probability !! runner_idx) as [p |] eqn:Hidx.
  - rewrite (index_probability_Some _ _ _ Hidx), bind_ret_l.
    destruct (isnan p || f64_eqb p (Fin 0)) eqn:Hp; [discriminate |].
    intros _. exists p. split; [reflexivity |].
    now apply valid_probability_test.
  - rewrite (index_probability_None _ _ Hidx). discriminate.
Qed.

Lemma verify_probabilities_Ok (race_probability : list float64)
    (runners : list Runner.t) (runner_idx : nat) :
  snd (verify_probabilities race_probability runners runner_idx) = Ok tt ->
  verify_probabilities race_probability runners runner_idx = mret tt.
Proof.
  intros H. apply injective_projections; [| exact H].
  apply verify_probabilities_silent.
Qed.

Lemma process_market_book_Some (get_nearest_price : float64 -> Q)
    (self : ExampleStrategy.t) (market : Market.t)
    (market_book : MarketBook.t) (rng : nat -> list float64) :
  let self' := fst (_generate_probabilities self market market_book rng) in
  let race_probability :=
    snd (_generate_probabilities self market market_book rng) in
  process_market_book get_nearest_price self (Some market) (Some market_book)
    rng
  = (self',
     if negb (Nat.eqb (length race_probability)
                (MarketBook.number_of_active_runners market_book))
     then mret RetFalse
     else
       verify_probabilities race_probability
         (MarketBook.runners market_book) 0;;
       compare_market_odds get_nearest_price self' market market_book
         race_probability (MarketBook.runners market_book) 0).
Proof.
  unfold process_market_book.
  now destruct (_generate_probabilities self market market_book rng).
Qed.

(** In 'bsp' mode every event of an update comes from the starting-price
    path of the first active runner. *)
Lemma process_market_book_bsp_events (get_nearest_price : float64 -> Q)
    (self : ExampleStrategy.t) (market : Market.t)
    (market_book : MarketBook.t) (rng : nat -> list float64) (e : event) :
  staking_strategy self = "bsp" ->
  let run :=
    process_market_book get_nearest_price self (Some market)
      (Some market_book) rng in
  In e (fst (snd run)) ->
  exists (runner : Runner.t) (later : list Runner.t) (p : float64),
    active_runners (MarketBook.runners market_book) = runner :: later
    /\ In e (fst (_place_bsp_bets get_nearest_price (fst run) market runner
                    (get_price (Runner.available_to_back runner) 0)
                    (get_price (Runner.available_to_lay runner) 0) p
                    (Trade.Trade (MarketBook.market_id market_book)
                       (Runner.selection_id runner)
                       (Runner.handicap runner)))).
Proof.
  intros Hmode run. subst run.
  rewrite process_market_book_Some. cbn [fst snd].
  pose proof (generate_probabilities_config self market market_book rng)
    as (_ & Hmode' & _). cbn zeta in Hmode'. rewrite Hmode in Hmode'.
  set (self' := fst (_generate_probabilities self market market_book rng))
    in *.
  set (race_probability :=
         snd (_generate_probabilities self market market_book rng)).
  destruct (negb _); [intros [] |].
  destruct (snd (verify_probabilities race_probability
                   (MarketBook.runners market_book) 0)) as [[] | err] eqn:Hv.
  - rewrite (verify_probabilities_Ok _ _ _ Hv), bind_ret_l.
    rewrite (compare_market_odds_bsp _ _ _ _ _ _ _ Hmode').
    destruct (active_runners (MarketBook.runners market_book))
      as [| runner later]; [intros [] |].
    destruct (race_probability !! 0%nat) as [p |] eqn:Hidx.
    + rewrite (index_probability_Some _ _ _ Hidx), bind_ret_l.
      intros He. now exists runner, later, p.
    + rewrite (index_probability_None _ _ Hidx). intros [].
  - rewrite (bind_Raise _ _ err Hv). cbn [fst].
    rewrite verify_probabilities_silent. intros [].
Qed.

(** C9. In 'bsp' mode an update handles the first active runner of the
    snapshot and returns from inside the loop: when the vector passes
    validation, the whole effect and result of the update are those of
    [_place_bsp_bets] on that runner with the first probability; and in every
    case any order placed carries the trade of the first active runner, so
    later active runners never receive an order on that update. *)
Theorem bsp_first_active_runner_only (get_nearest_price : float64 -> Q)
    (self : ExampleStrategy.t) (market : Market.t)
    (market_book : MarketBook.t) (rng : nat -> list float64) :
  staking_strategy self = "bsp" ->
  let run :=
    process_market_book get_nearest_price self (Some market)
      (Some market_book) rng in
  let race_probability :=
    snd (_generate_probabilities self market market_book rng) in
  (forall (runner : Runner.t) (later : list Runner.t),
      active_runners (MarketBook.runners market_book) = runner :: later ->
      length race_probability
      = MarketBook.number_of_active_runners market_book ->
      snd (verify_probabilities race_probability
             (MarketBook.runners market_book) 0) = Ok tt ->
      exists p : float64,
        race_probability !! 0%nat = Some p
        /\ snd run
           = _place_bsp_bets get_nearest_price (fst run) market runner
               (get_price (Runner.available_to_back runner) 0)
               (get_price (Runner.available_to_lay runner) 0) p
               (Trade.Trade (MarketBook.market_id market_book)
                  (Runner.selection_id runner) (Runner.handicap runner)))
  /\ (forall (trade : Trade.t) (side : string) (order_type : OrderType),
         In (PlaceOrder trade side order_type) (fst (snd run)) ->
         exists runner : Runner.t,
           head (active_runners (MarketBook.runners market_book))
           = Some runner
           /\ trade
              = Trade.Trade (MarketBook.market_id market_book)
                  (Runner.selection_id runner) (Runner.handicap runner)).
Proof.
  intros Hmode run race_probability. split.
  - intros runner later Hactive Hlen Hv.
    destruct (verify_probabilities_first _ _ _ _ _ Hactive Hv)
      as (p & Hidx & _).
    exists p. split; [exact Hidx |].
    subst run. rewrite process_market_book_Some. cbn [fst snd].
    pose proof (generate_probabilities_config self market market_book rng)
      as (_ & Hmode' & _). cbn zeta in Hmode'. rewrite Hmode in Hmode'.
    fold race_probability.
    apply Nat.eqb_eq in Hlen. rewrite Hlen. cbn [negb].
    rewrite (verify_probabilities_Ok _ _ _ Hv), bind_ret_l.
    rewrite (compare_market_odds_bsp _ _ _ _ _ _ _ Hmode'), Hactive.
    now rewrite (index_probability_Some _ _ _ Hidx), bind_ret_l.
  - intros trade side order_type He.
    destruct (process_market_book_bsp_events _ _ _ _ _ _ Hmode He)
      as (runner & later & p & Hactive & Hin).
    exists runner. rewrite Hactive. split; [reflexivity |].
    pose proof (place_bsp_bets_events get_nearest_price (fst run) market
                  runner (get_price (Runner.available_to_back runner) 0)
                  (get_price (Runner.available_to_lay runner) 0) p
                  (Trade.Trade (MarketBook.market_id market_book)
                     (Runner.selection_id runner) (Runner.handicap runner)))
      as Hall.
    rewrite List.Forall_forall in Hall. exact (Hall _ Hin).
Qed.

(** C2. In 'bsp' mode a runner whose RunnerContext records zero trades gets
    no order: [_place_bsp_bets] returns at its gate with an empty trace,
    before the projected starting price or either limit price is computed
    (no reciprocal is evaluated); and on a whole update in 'bsp' mode, no
    order is placed on the selection of any runner whose recorded trade
    count is zero. *)
Theorem bsp_zero_trade_count_no_order (get_nearest_price : float64 -> Q)
    (self : ExampleStrategy.t) (market : Market.t) (runner : Runner.t) :
  RunnerContext.trade_count
    (get_runner_context self (Market.market_id market)
       (Runner.selection_id runner) (Runner.handicap runner)) = 0%nat ->
  (forall (back_price lay_price : option Q) (runner_probability : float64)
          (trade : Trade.t),
      _place_bsp_bets get_nearest_price self market runner back_price
        lay_price runner_probability trade
      = ([], Ok RetNone))
  /\ (forall (market_book : MarketBook.t) (rng : nat -> list float64)
             (trade : Trade.t) (side : string) (order_type : OrderType),
         staking_strategy self = "bsp" ->
         In (PlaceOrder trade side order_type)
           (fst (snd (process_market_book get_nearest_price self
                        (Some market) (Some market_book) rng))) ->
         ~ (Trade.selection_id trade = Runner.selection_id runner
            /\ Trade.handicap trade = Runner.handicap runner)).
Proof.
  intros Hcount. split.
  - intros. now apply place_bsp_bets_gate.
  - intros market_book rng trade side order_type Hmode He [Hsel Hhc].
    destruct (process_market_book_bsp_events _ _ _ _ _ _ Hmode He)
      as (first & later & p & _ & Hin).
    match type of Hin with
    | In _ (fst (_place_bsp_bets ?g ?s ?m ?r ?b ?l ?q ?t)) =>
        pose proof (place_bsp_bets_events g s m r b l q t) as Hall
    end.
    rewrite List.Forall_forall in Hall.
    pose proof (Hall _ Hin) as Htrade. cbn in Htrade. subst trade.
    cbn in Hsel, Hhc.
    rewrite place_bsp_bets_gate in Hin; [destruct Hin |].
    rewrite process_market_book_Some; cbn [fst].
    pose proof (generate_probabilities_config self market market_book rng)
      as (_ & _ & _ & _ & _ & _ & _ & Hctx). cbn zeta in Hctx.
    now rewrite Hctx, Hsel, Hhc.
Qed.

Lemma bsp_zero_trade_count_no_order_witness :
  RunnerContext.trade_count
    (get_runner_context Sample.strategy_bsp (Market.market_id Sample.market)
       (Runner.selection_id Sample.runner2)
       (Runner.handicap Sample.runner2)) = 0%nat
  /\ _place_bsp_bets Sample.get_nearest_price Sample.strategy_bsp
       Sample.market Sample.runner2 (Some 2%Q) (Some (21 # 10)%Q)
       (Fin (3 # 4)) (Trade.Trade "1.171755571" 102 0)
     = ([], Ok RetNone)
  /\ In (PlaceOrder (Trade.Trade "1.171755571" 101 0) "BACK"
           (LimitOnCloseOrder 10 2))
       (fst (snd (process_market_book Sample.get_nearest_price
                    Sample.strategy_bsp (Some Sample.market)
                    (Some Sample.book) Sample.rng)))
  /\ ~ (101%Z = Runner.selection_id Sample.runner2
        /\ 0%Q = Runner.handicap Sample.runner2).
Proof.
  assert (Hcount :
            RunnerContext.trade_count
              (get_runner_context Sample.strategy_bsp
                 (Market.market_id Sample.market)
                 (Runner.selection_id Sample.runner2)
                 (Runner.handicap Sample.runner2)) = 0%nat) by reflexivity.
  assert (Hin : In (PlaceOrder (Trade.Trade "1.171755571" 101 0) "BACK"
                      (LimitOnCloseOrder 10 2))
                  (fst (snd (process_market_book Sample.get_nearest_price
                               Sample.strategy_bsp (Some Sample.market)
                               (Some Sample.book) Sample.rng))))
    by (vm_compute; auto).
  refine (conj Hcount (conj _ (conj Hin _))).
  - exact (proj1 (bsp_zero_trade_count_no_order Sample.get_nearest_price
                    Sample.strategy_bsp Sample.market Sample.runner2 Hcount)
             (Some 2%Q) (Some (21 # 10)%Q) (Fin (3 # 4))
             (Trade.Trade "1.171755571" 102 0)).
  - exact (proj2 (bsp_zero_trade_count_no_order Sample.get_nearest_price
                    Sample.strategy_bsp Sample.market Sample.runner2 Hcount)
             Sample.book Sample.rng (Trade.Trade "1.171755571" 101 0) "BACK"
             (LimitOnCloseOrder 10 2) eq_refl Hin).
Defined.

Lemma bsp_first_active_runner_only_witness :
  (staking_strategy Sample.strategy_bsp = "bsp"
   /\ active_runners (MarketBook.runners Sample.book)
      = [Sample.runner1; Sample.runner2]
   /\ length (snd (_generate_probabilities Sample.strategy_bsp Sample.market
                     Sample.book Sample.rng))
      = MarketBook.number_of_active_runners Sample.book
   /\ snd (verify_probabilities
             (snd (_generate_probabilities Sample.strategy_bsp Sample.market
                     Sample.book Sample.rng))
             (MarketBook.runners Sample.book) 0) = Ok tt)
  /\ (exists p : float64,
         snd (_generate_probabilities Sample.strategy_bsp Sample.market
                Sample.book Sample.rng) !! 0%nat = Some p
         /\ snd (process_market_book Sample.get_nearest_price
                   Sample.strategy_bsp (Some Sample.market)
                   (Some Sample.book) Sample.rng)
            = _place_bsp_bets Sample.get_nearest_price
                (fst (process_market_book Sample.get_nearest_price
                        Sample.strategy_bsp (Some Sample.market)
                        (Some Sample.book) Sample.rng))
                Sample.market Sample.runner1
                (get_price (Runner.available_to_back Sample.runner1) 0)
                (get_price (Runner.available_to_lay Sample.runner1) 0) p
                (Trade.Trade (MarketBook.market_id Sample.book)
                   (Runner.selection_id Sample.runner1)
                   (Runner.handicap Sample.runner1)))
  /\ forall (trade : Trade.t) (side : string) (order_type : OrderType),
      In (PlaceOrder trade side order_type)
        (fst (snd (process_market_book Sample.get_nearest_price
                     Sample.strategy_bsp (Some Sample.market)
                     (Some Sample.book) Sample.rng))) ->
      exists runner : Runner.t,
        head (active_runners (MarketBook.runners Sample.book)) = Some runner
        /\ trade
           = Trade.Trade (MarketBook.market_id Sample.book)
               (Runner.selection_id runner) (Runner.handicap runner).
Proof.
  refine (conj (conj eq_refl (conj eq_refl (conj eq_refl eq_refl)))
            (conj _ _)).
  - exact (proj1 (bsp_first_active_runner_only Sample.get_nearest_price
                    Sample.strategy_bsp Sample.market Sample.book Sample.rng
                    eq_refl)
             Sample.runner1 [Sample.runner2] eq_refl eq_refl eq_refl).
  - exact (proj2 (bsp_first_active_runner_only Sample.get_nearest_price
                    Sample.strategy_bsp Sample.market Sample.book Sample.rng
                    eq_refl)).
Defined.

Lemma placed_prices_within_bounds_witness :
  (staking_strategy (Sample.strategy "offer" 0) = "take"
   \/ staking_strategy (Sample.strategy "offer" 0) = "offer")
  /\ Forall (within_bounds (Sample.strategy "offer" 0))
       (fst (snd (process_market_book Sample.get_nearest_price
                    (Sample.strategy "offer" 0) (Some Sample.market_resting)
                    (Some Sample.book) Sample.rng))).
Proof.
  split; [right; reflexivity |].
  exact (placed_prices_within_bounds Sample.get_nearest_price
           (Sample.strategy "offer" 0) (Some Sample.market_resting)
           (Some Sample.book) Sample.rng (or_intror eq_refl)).
Defined.

(** ** Reconciliation of resting orders *)

Lemma bind_events {A B : Type} (m : M A) (f : A -> M B) :
  fst (m ≫= f)
  = (fst m ++ match snd m with
              | Ok a => fst (f a)
              | Raise _ => []
              end)%list.
Proof.
  destruct (snd m) as [a | e] eqn:E.
  - now rewrite (bind_Ok m f a E).
  - rewrite (bind_Raise m f e E). cbn. now rewrite app_nil_r.
Qed.

Lemma bind_outcome {A B : Type} (m : M A) (f : A -> M B) :
  snd (m ≫= f)
  = match snd m with
    | Ok a => snd (f a)
    | Raise e => Raise e
    end.
Proof.
  destruct (snd m) as [a | e] eqn:E.
  - now rewrite (bind_Ok m f a E).
  - now rewrite (bind_Raise m f e E).
Qed.

Lemma commands_app (tr tr' : list event) :
  commands (tr ++ tr') = (commands tr ++ commands tr')%list.
Proof. apply List.filter_app. Qed.

Lemma commands_reciprocals (p : float64) (tr : list event) :
  Forall (eq (Reciprocal p)) tr -> commands tr = [].
Proof.
  induction 1 as [| e tr <- _ IH]; [reflexivity |]. exact IH.
Qed.

Lemma update_back_order_commands (self : ExampleStrategy.t)
    (runner_probability : float64) (lay_price back_price : option Q)
    (order : Order.t) :
  commands (fst (update_back_order self runner_probability lay_price
                   back_price order))
  = if OrderStatus_eqb (Order.status order) EXECUTABLE then
      match snd (_get_back_price self runner_probability lay_price
                   back_price) with
      | Ok (Some c) =>
          if Qltb c (price (Order.order_type order))
          then [ReplaceOrder order c] else []
      | _ => []
      end
    else [].
Proof.
  unfold update_back_order.
  destruct (OrderStatus_eqb _ _); [| reflexivity].
  rewrite bind_events, commands_app.
  rewrite (commands_reciprocals runner_probability)
    by apply get_back_price_events.
  destruct (snd (_get_back_price _ _ _ _)) as [[c |] | e]; try reflexivity.
  now destruct (Qltb c _).
Qed.

Lemma update_lay_order_commands (self : ExampleStrategy.t)
    (runner_probability : float64) (lay_price back_price : option Q)
    (order : Order.t) :
  commands (fst (update_lay_order self runner_probability lay_price
                   back_price order))
  = if OrderStatus_eqb (Order.status order) EXECUTABLE then
      match snd (_get_lay_price self runner_probability lay_price
                   back_price) with
      | Ok (Some c) =>
          if Qgtb c (price (Order.order_type order))
          then [ReplaceOrder order c] else []
      | _ => []
      end
    else [].
Proof.
  unfold update_lay_order.
  destruct (OrderStatus_eqb _ _); [| reflexivity].
  rewrite bind_events, commands_app.
  rewrite (commands_reciprocals runner_probability)
    by apply get_lay_price_events.
  destruct (snd (_get_lay_price _ _ _ _)) as [[c |] | e]; try reflexivity.
  now destruct (Qgtb c _).
Qed.

Lemma update_order_commands (self : ExampleStrategy.t)
    (runner_probability : float64) (lay_price back_price : option Q)
    (order : Order.t) :
  commands (fst (update_order self runner_probability lay_price back_price
                   order))
  = if String.eqb (Order.side order) "BACK"
    then commands (fst (update_back_order self runner_probability lay_price
                          back_price order))
    else if String.eqb (Order.side order) "LAY"
         then commands (fst (update_lay_order self runner_probability
                               lay_price back_price order))
         else [].
Proof.
  unfold update_order. rewrite bind_events, commands_app.
  destruct (String.eqb (Order.side order) "BACK") eqn:Hback.
  - apply String.eqb_eq in Hback. rewrite Hback. cbn [String.eqb Ascii.eqb].
    replace (String.eqb "BACK" "LAY") with false by reflexivity.
    destruct (snd _); cbn; now rewrite app_nil_r.
  - cbn. now destruct (String.eqb (Order.side order) "LAY").
Qed.

(** What [update_order] sends for one order. *)
Lemma update_order_replaces (self : ExampleStrategy.t)
    (runner_probability : float64) (lay_price back_price : option Q)
    (order : Order.t) :
  (forall c,
      replaces self runner_probability lay_price back_price order c ->
      commands (fst (update_order self runner_probability lay_price
                       back_price order))
      = [ReplaceOrder order c])
  /\ ((forall c,
          ~ replaces self runner_probability lay_price back_price order c) ->
      commands (fst (update_order self runner_probability lay_price
                       back_price order))
      = []).
Proof.
  rewrite update_order_commands, update_back_order_commands,
    update_lay_order_commands.
  unfold replaces, back_candidate, lay_candidate. split.
  - intros c (Hst & [(Hs & Hc & Hlt) | (Hs & Hc & Hlt)]);
      rewrite Hs, Hc; cbn [String.eqb Ascii.eqb Bool.eqb];
      apply OrderStatus_eqb_eq in Hst; rewrite Hst.
    + apply Qltb_lt in Hlt. now rewrite Hlt.
    + replace (String.eqb "LAY" "BACK") with false by reflexivity.
      replace (String.eqb "LAY" "LAY") with true by reflexivity.
      apply Qgtb_gt in Hlt. now rewrite Hlt.
  - intros Hnone.
    destruct (String.eqb (Order.side order) "BACK") eqn:Hback;
      [| destruct (String.eqb (Order.side order) "LAY") eqn:Hlay;
         [| reflexivity]];
      (destruct (OrderStatus_eqb (Order.status order) EXECUTABLE) eqn:Hst;
       [apply OrderStatus_eqb_eq in Hst | reflexivity]).
    + apply String.eqb_eq in Hback.
      destruct (snd (_get_back_price _ _ _ _)) as [[c |] | e] eqn:Hc;
        try reflexivity.
      destruct (Qltb c _) eqn:Hlt; [| reflexivity].
      apply Qltb_lt in Hlt. exfalso. apply (Hnone c). auto.
    + apply String.eqb_eq in Hlay.
      destruct (snd (_get_lay_price _ _ _ _)) as [[c |] | e] eqn:Hc;
        try reflexivity.
      destruct (Qgtb c _) eqn:Hlt; [| reflexivity].
      apply Qgtb_gt in Hlt. exfalso. apply (Hnone c). auto 6.
Qed.

Lemma bind_In {A B : Type} (m : M A) (f : A -> M B) (e : event) :
  In e (fst (m ≫= f)) <->
  In e (fst m) \/ exists a, snd m = Ok a /\ In e (fst (f a)).
Proof.
  rewrite bind_events, in_app_iff.
  destruct (snd m) as [a | err]; split; intros [H | H]; auto.
  - right. now exists a.
  - destruct H as (a' & [= <-] & H). now right.
  - destruct H.
  - now destruct H as (a' & [=] & _).
Qed.

Lemma update_order_replace_In (self : ExampleStrategy.t)
    (runner_probability : float64) (lay_price back_price : option Q)
    (order o : Order.t) (c : Q) :
  In (ReplaceOrder o c)
    (fst (update_order self runner_probability lay_price back_price order))
  <-> o = order
      /\ replaces self runner_probability lay_price back_price order c.
Proof.
  transitivity
    (In (ReplaceOrder o c)
       (commands (fst (update_order self runner_probability lay_price
                         back_price order)))).
  { unfold commands. rewrite List.filter_In. cbn. tauto. }
  rewrite update_order_commands, update_back_order_commands,
    update_lay_order_commands.
  unfold replaces, back_candidate, lay_candidate.
  destruct (String.eqb (Order.side order) "BACK") eqn:Hback;
    [| destruct (String.eqb (Order.side order) "LAY") eqn:Hlay].
  - apply String.eqb_eq in Hback.
    destruct (OrderStatus_eqb (Order.status order) EXECUTABLE) eqn:Hst.
    + apply OrderStatus_eqb_eq in Hst.
      destruct (snd (_get_back_price _ _ _ _)) as [[c' |] | err] eqn:Hc.
      * destruct (Qltb c' _) eqn:Hlt; cbn; split.
        -- intros [[= <- <-] | []]. apply Qltb_lt in Hlt. auto 6.
        -- intros (-> & _ & [(_ & [= ->] & _) | (Hs & _)]); [now left |].
           congruence.
        -- intros [].
        -- intros (_ & _ & [(_ & [= ->] & Hlt') | (Hs & _)]);
             [| congruence].
           apply Qltb_lt in Hlt'. congruence.
      * cbn. split; [intros [] |].
        intros (_ & _ & [(_ & [=] & _) | (Hs & _)]); congruence.
      * cbn. split; [intros [] |].
        intros (_ & _ & [(_ & [=] & _) | (Hs & _)]); congruence.
    + cbn. split; [intros [] |]. intros (_ & Hst' & _).
      apply OrderStatus_eqb_eq in Hst'. congruence.
  - apply String.eqb_eq in Hlay. apply String.eqb_neq in Hback.
    destruct (OrderStatus_eqb (Order.status order) EXECUTABLE) eqn:Hst.
    + apply OrderStatus_eqb_eq in Hst.
      destruct (snd (_get_lay_price _ _ _ _)) as [[c' |] | err] eqn:Hc.
      * destruct (Qgtb c' _) eqn:Hlt; cbn; split.
        -- intros [[= <- <-] | []]. apply Qgtb_gt in Hlt. auto 6.
        -- intros (-> & _ & [(Hs & _) | (_ & [= ->] & _)]); [| now left].
           congruence.
        -- intros [].
        -- intros (_ & _ & [(Hs & _) | (_ & [= ->] & Hlt')]);
             [congruence |].
           apply Qgtb_gt in Hlt'. congruence.
      * cbn. split; [intros [] |].
        intros (_ & _ & [(Hs & _) | (_ & [=] & _)]); congruence.
      * cbn. split; [intros [] |].
        intros (_ & _ & [(Hs & _) | (_ & [=] & _)]); congruence.
    + cbn. split; [intros [] |]. intros (_ & Hst' & _).
      apply OrderStatus_eqb_eq in Hst'. congruence.
  - apply String.eqb_neq in Hback, Hlay. cbn. split; [intros [] |].
    intros (_ & _ & [(Hs & _) | (Hs & _)]); congruence.
Qed.

(** In the modes 'take' and 'offer' the continuous path raises nothing. *)
Section NoRaise.
Variable self : ExampleStrategy.t.
Hypothesis continuous :
  staking_strategy self = "take" \/ staking_strategy self = "offer".
Variable runner_probability : float64.
Variables lay_price back_price : option Q.

Lemma get_back_price_no_raise :
  exists r, snd (_get_back_price self runner_probability lay_price
                   back_price) = Ok r.
Proof.
  unfold _get_back_price, reciprocal.
  destruct lay_price, back_price; cbn; eauto.
  destruct continuous as [-> | ->]; cbn; repeat case_if; cbn; eauto.
Qed.

Lemma get_lay_price_no_raise :
  exists r, snd (_get_lay_price self runner_probability lay_price
                   back_price) = Ok r.
Proof.
  unfold _get_lay_price, reciprocal.
  destruct lay_price, back_price; cbn; eauto.
  destruct continuous as [-> | ->]; cbn; repeat case_if; cbn; eauto.
Qed.

Lemma update_order_no_raise (order : Order.t) :
  snd (update_order self runner_probability lay_price back_price order)
  = Ok tt.
Proof.
  unfold update_order, update_back_order, update_lay_order.
  destruct get_back_price_no_raise as [rb Hb].
  destruct get_lay_price_no_raise as [rl Hl].
  rewrite !bind_outcome.
  repeat (rewrite ?bind_outcome, ?Hb, ?Hl; cbn;
          try case_if; try reflexivity);
    destruct rb, rl; cbn; repeat case_if; reflexivity.
Qed.

Lemma selection_orders_loop_no_raise (selection_orders : list Order.t)
    (has_back_bets has_lay_bets : bool) :
  exists flags,
    snd (selection_orders_loop self runner_probability lay_price back_price
           selection_orders has_back_bets has_lay_bets) = Ok flags.
Proof.
  revert has_back_bets has_lay_bets.
  induction selection_orders as [| order rest IH]; intros hb hl; cbn.
  - eauto.
  - change (exists flags,
               snd (update_order self runner_probability lay_price back_price
                      order ≫= fun _ =>
                    selection_orders_loop self runner_probability lay_price
                      back_price rest
                      (hb || String.eqb (Order.side order) "BACK")
                      (hl || String.eqb (Order.side order) "LAY"))
               = Ok flags).
    rewrite bind_outcome, update_order_no_raise. apply IH.
Qed.

Lemma selection_orders_loop_In (selection_orders : list Order.t)
    (has_back_bets has_lay_bets : bool) (e : event) :
  In e (fst (selection_orders_loop self runner_probability lay_price
               back_price selection_orders has_back_bets has_lay_bets))
  <-> exists order,
        In order selection_orders
        /\ In e (fst (update_order self runner_probability lay_price
                        back_price order)).
Proof.
  revert has_back_bets has_lay_bets.
  induction selection_orders as [| order rest IH]; intros hb hl.
  - cbn. split; [intros [] | intros (o & [] & _)].
  - change (In e (fst (update_order self runner_probability lay_price
                         back_price order ≫= fun _ =>
                       selection_orders_loop self runner_probability
                         lay_price back_price rest
                         (hb || String.eqb (Order.side order) "BACK")
                         (hl || String.eqb (Order.side order) "LAY")))
            <-> exists o,
                  In o (order :: rest)
                  /\ In e (fst (update_order self runner_probability
                                  lay_price back_price o))).
    rewrite bind_In, update_order_no_raise. split.
    + intros [H | (a & _ & H)].
      * exists order. split; [now left | exact H].
      * apply IH in H as (o & Ho & H). exists o. split; [now right | exact H].
    + intros (o & [<- | Ho] & H); [now left |].
      right. exists tt. split; [reflexivity |]. apply IH. now exists o.
Qed.

Lemma place_orders_no_raise (trade : Trade.t)
    (has_back_bets has_lay_bets : bool) :
  snd (place_orders self back_price lay_price runner_probability trade
         has_back_bets has_lay_bets) = Ok tt.
Proof.
  unfold place_orders.
  destruct get_back_price_no_raise as [rb Hb].
  destruct get_lay_price_no_raise as [rl Hl].
  destruct has_back_bets, has_lay_bets; cbn [negb];
    rewrite ?bind_outcome, ?Hb, ?Hl; cbn;
    destruct rb, rl; reflexivity.
Qed.

Lemma place_orders_no_replace (trade : Trade.t)
    (has_back_bets has_lay_bets : bool) :
  Forall (fun e => match e with ReplaceOrder _ _ => False | _ => True end)
    (fst (place_orders self back_price lay_price runner_probability trade
            has_back_bets has_lay_bets)).
Proof.
  unfold place_orders.
  repeat trace_step;
    try (apply get_back_price_Forall; exact I);
    try (apply get_lay_price_Forall; exact I);
    exact I.
Qed.

Lemma offer_or_take_no_raise (market : Market.t) (runner : Runner.t)
    (trade : Trade.t) :
  snd (offer_or_take self market runner back_price lay_price
         runner_probability trade) = Ok tt.
Proof.
  unfold offer_or_take.
  destruct (selection_orders_loop_no_raise
              (strategy_selection_orders (Market.blotter market)
                 (Runner.selection_id runner) (Runner.handicap runner))
              false false) as [[hb hl] Hloop].
  rewrite bind_outcome, Hloop. apply place_orders_no_raise.
Qed.

Lemma offer_or_take_replace_In (market : Market.t) (runner : Runner.t)
    (trade : Trade.t) (o : Order.t) (c : Q) :
  In (ReplaceOrder o c)
    (fst (offer_or_take self market runner back_price lay_price
            runner_probability trade))
  <-> In o (strategy_selection_orders (Market.blotter market)
              (Runner.selection_id runner) (Runner.handicap runner))
      /\ replaces self runner_probability lay_price back_price o c.
Proof.
  unfold offer_or_take. rewrite bind_In, selection_orders_loop_In. split.
  - intros [(order & Ho & H) | ([hb hl] & _ & H)].
    + apply update_order_replace_In in H as [-> H]. auto.
    + pose proof (place_orders_no_replace trade hb hl) as Hall.
      rewrite List.Forall_forall in Hall. destruct (Hall _ H).
  - intros [Ho H]. left. exists o. split; [exact Ho |].
    now apply update_order_replace_In.
Qed.
End NoRaise.

Lemma compare_market_odds_replace_In (get_nearest_price : float64 -> Q)
    (self : ExampleStrategy.t) (market : Market.t)
    (market_book : MarketBook.t) (race_probability : list float64)
    (runners : list Runner.t) (runner_idx : nat) (o : Order.t) (c : Q) :
  staking_strategy self = "take" \/ staking_strategy self = "offer" ->
  snd (verify_probabilities race_probability runners runner_idx) = Ok tt ->
  In (ReplaceOrder o c)
    (fst (compare_market_odds get_nearest_price self market market_book
            race_probability runners runner_idx))
  <-> exists (i : nat) (runner : Runner.t) (p : float64),
        active_runners runners !! i = Some runner
        /\ race_probability !! (runner_idx + i)%nat = Some p
        /\ In o (strategy_selection_orders (Market.blotter market)
                   (Runner.selection_id runner) (Runner.handicap runner))
        /\ replaces self p
             (get_price (Runner.available_to_lay runner) 0)
             (get_price (Runner.available_to_back runner) 0) o c.
Proof.
  intros Hmode.
  assert (Hbsp : String.eqb (staking_strategy self) "bsp" = false)
    by (destruct Hmode as [-> | ->]; reflexivity).
  revert runner_idx.
  induction runners as [| runner rest IH]; intros runner_idx.
  - cbn. intros _. split; [intros [] |].
    now intros (i & r & p & [=] & _).
  - rewrite verify_probabilities_cons, compare_market_odds_cons.
    cbn [active_runners List.filter]. fold (active_runners rest).
    destruct (String.eqb (Runner.status runner) "ACTIVE"); cbn [negb];
      [| apply IH].
    destruct (race_probability !! runner_idx) as [p |] eqn:Hidx.
    + rewrite (index_probability_Some _ _ _ Hidx), !bind_ret_l.
      destruct (isnan p || f64_eqb p (Fin 0)); [discriminate |].
      intros Hrest. cbn zeta. rewrite Hbsp.
      rewrite bind_In, (offer_or_take_no_raise self Hmode).
      rewrite (offer_or_take_replace_In self Hmode).
      split.
      * intros [[Ho Hrep] | (a & _ & H)].
        -- exists 0%nat, runner, p. rewrite Nat.add_0_r. auto.
        -- apply (IH (S runner_idx) Hrest) in H
             as (i & r & q & Hi & Hq & Ho & Hrep).
           exists (S i), r, q. split; [exact Hi |]. split; [| auto].
           now replace (runner_idx + S i)%nat with (S runner_idx + i)%nat
             by lia.
      * intros ([| i] & r & q & Hi & Hq & Ho & Hrep).
        -- cbn in Hi. injection Hi as <-. rewrite Nat.add_0_r in Hq.
           left. split; [exact Ho | congruence].
        -- right. exists tt. split; [reflexivity |].
           apply (IH (S runner_idx) Hrest).
           exists i, r, q. split; [exact Hi |]. split; [| auto].
           now replace (S runner_idx + i)%nat with (runner_idx + S i)%nat
             by lia.
    + rewrite (index_probability_None _ _ Hidx). discriminate.
Qed.

Lemma replaces_cache (self : ExampleStrategy.t)
    (m : gmap string (list float64)) (p : float64)
    (lay_price back_price : option Q) (o : Order.t) (c : Q) :
  replaces (set_market_probabilities self m) p lay_price back_price o c
  <-> replaces self p lay_price back_price o c.
Proof. reflexivity. Qed.

Lemma replaces_generate_probabilities (self : ExampleStrategy.t)
    (market : Market.t) (market_book : MarketBook.t)
    (rng : nat -> list float64) (p : float64)
    (lay_price back_price : option Q) (o : Order.t) (c : Q) :
  replaces (fst (_generate_probabilities self market market_book rng)) p
    lay_price back_price o c
  <-> replaces self p lay_price back_price o c.
Proof.
  unfold _generate_probabilities.
  destruct (market_probabilities self !! Market.market_id market);
    cbn [fst]; [reflexivity | apply replaces_cache].
Qed.

(** C5. For a resting order the strategy reaches on the continuous path, a
    replace command is issued exactly when the order is executable and the
    fresh candidate of its side exists and is strictly more aggressive than
    the order's price (strictly lower for BACK, strictly higher for LAY);
    the command then names that order and the candidate price and nothing
    else, so the order keeps its size.  When the candidate is absent, equal
    or less aggressive, no command is sent for the order.  On a whole update
    in mode 'take' or 'offer' whose vector passes validation, the
    replacements sent are exactly those of the selection orders of the
    active runners, each judged with the probability of its runner. *)
Theorem replace_rule (get_nearest_price : float64 -> Q)
    (self : ExampleStrategy.t) :
  (forall (runner_probability : float64) (lay_price back_price : option Q)
          (order : Order.t),
      (forall c,
          replaces self runner_probability lay_price back_price order c ->
          commands (fst (update_order self runner_probability lay_price
                           back_price order))
          = [ReplaceOrder order c])
      /\ ((forall c,
              ~ replaces self runner_probability lay_price back_price
                  order c) ->
          commands (fst (update_order self runner_probability lay_price
                           back_price order))
          = []))
  /\ (forall (market : Market.t) (market_book : MarketBook.t)
             (rng : nat -> list float64) (o : Order.t) (c : Q),
         staking_strategy self = "take" \/ staking_strategy self = "offer" ->
         let race_probability :=
           snd (_generate_probabilities self market market_book rng) in
         length race_probability
         = MarketBook.number_of_active_runners market_book ->
         snd (verify_probabilities race_probability
                (MarketBook.runners market_book) 0) = Ok tt ->
         In (ReplaceOrder o c)
           (fst (snd (process_market_book get_nearest_price self
                        (Some market) (Some market_book) rng)))
         <-> exists (i : nat) (runner : Runner.t) (p : float64),
               active_runners (MarketBook.runners market_book) !! i
               = Some runner
               /\ race_probability !! i = Some p
               /\ In o (strategy_selection_orders (Market.blotter market)
                          (Runner.selection_id runner)
                          (Runner.handicap runner))
               /\ replaces self p
                    (get_price (Runner.available_to_lay runner) 0)
                    (get_price (Runner.available_to_back runner) 0) o c).
Proof.
  split; [intros; apply update_order_replaces |].
  intros market market_book rng o c Hmode race_probability Hlen Hv.
  rewrite process_market_book_Some. cbn [fst snd]. fold race_probability.
  apply Nat.eqb_eq in Hlen. rewrite Hlen. cbn [negb].
  rewrite (verify_probabilities_Ok _ _ _ Hv), bind_ret_l.
  pose proof (generate_probabilities_config self market market_book rng)
    as (_ & Hmode' & _). cbn zeta in Hmode'.
  rewrite compare_market_odds_replace_In;
    [| now rewrite Hmode' | exact Hv].
  split; intros (i & runner & p & Hi & Hp & Ho & Hrep);
    exists i, runner, p;
    (split; [exact Hi |]; split; [exact Hp |]; split; [exact Ho |]);
    now apply (replaces_generate_probabilities self market market_book rng).
Qed.

Lemma replace_rule_witness :
  replaces (Sample.strategy "offer" 0) (Fin (1 # 4)) (Some (38 # 10)%Q)
    (Some (37 # 10)%Q)
    (Order.mk 101 0 "BACK" EXECUTABLE (LimitOrder 4 10) 0) (38 # 10)%Q
  /\ commands
       (fst (update_order (Sample.strategy "offer" 0) (Fin (1 # 4))
               (Some (38 # 10)%Q) (Some (37 # 10)%Q)
               (Order.mk 101 0 "BACK" EXECUTABLE (LimitOrder 4 10) 0)))
     = [ReplaceOrder (Order.mk 101 0 "BACK" EXECUTABLE (LimitOrder 4 10) 0)
          (38 # 10)%Q]
  /\ (forall c,
         ~ replaces (Sample.strategy "offer" 0) (Fin (1 # 4))
             (Some (42 # 10)%Q) (Some (41 # 10)%Q)
             (Order.mk 101 0 "BACK" EXECUTABLE (LimitOrder 4 10) 0) c)
  /\ commands
       (fst (update_order (Sample.strategy "offer" 0) (Fin (1 # 4))
               (Some (42 # 10)%Q) (Some (41 # 10)%Q)
               (Order.mk 101 0 "BACK" EXECUTABLE (LimitOrder 4 10) 0)))
     = []
  /\ In (ReplaceOrder Sample.resting_back (42 # 10)%Q)
       (fst (snd (process_market_book Sample.get_nearest_price
                    (Sample.strategy "offer" 0) (Some Sample.market_resting)
                    (Some Sample.book) Sample.rng))).
Proof.
  assert (H : replaces (Sample.strategy "offer" 0) (Fin (1 # 4))
                (Some (38 # 10)%Q) (Some (37 # 10)%Q)
                (Order.mk 101 0 "BACK" EXECUTABLE (LimitOrder 4 10) 0)
                (38 # 10)%Q).
  { split; [reflexivity |]. left. split; [reflexivity |].
    split; [reflexivity | reflexivity]. }
  assert (H' : forall c,
             ~ replaces (Sample.strategy "offer" 0) (Fin (1 # 4))
                 (Some (42 # 10)%Q) (Some (41 # 10)%Q)
                 (Order.mk 101 0 "BACK" EXECUTABLE (LimitOrder 4 10) 0) c).
  { intros c (_ & [(_ & Hc & Hlt) | (Hside & _)]); [| discriminate].
    vm_compute in Hc. injection Hc as <-. vm_compute in Hlt. discriminate. }
  refine (conj H (conj _ (conj H' (conj _ _)))).
  - exact (proj1 (proj1 (replace_rule Sample.get_nearest_price
                           (Sample.strategy "offer" 0))
                    (Fin (1 # 4)) (Some (38 # 10)%Q) (Some (37 # 10)%Q)
                    (Order.mk 101 0 "BACK" EXECUTABLE (LimitOrder 4 10) 0))
             (38 # 10)%Q H).
  - exact (proj2 (proj1 (replace_rule Sample.get_nearest_price
                           (Sample.strategy "offer" 0))
                    (Fin (1 # 4)) (Some (42 # 10)%Q) (Some (41 # 10)%Q)
                    (Order.mk 101 0 "BACK" EXECUTABLE (LimitOrder 4 10) 0))
             H').
  - apply (proj2 (replace_rule Sample.get_nearest_price
                    (Sample.strategy "offer" 0))
             Sample.market_resting Sample.book Sample.rng Sample.resting_back
             (42 # 10)%Q (or_intror eq_refl) eq_refl eq_refl).
    exists 0%nat, Sample.runner1, (Fin (1 # 4)).
    split; [reflexivity |]. split; [reflexivity |].
    split; [now left |].
    split; [reflexivity |]. left. split; [reflexivity |].
    split; reflexivity.
Defined.

(** ** Settlement *)






(** ** The market-definition filter *)

Lemma append_cons (a : Ascii.ascii) (s t : string) :
  String.append (String a s) t = String a (String.append s t).
Proof. reflexivity. Qed.

Lemma String_prefix_app (needle hay : string) :
  String.prefix needle hay = true <->
  exists post, hay = String.append needle post.
Proof.
  revert hay. induction needle as [| a needle IH]; intros hay.
  - split; [eauto | now destruct hay].
  - destruct hay as [| b hay]; cbn.
    + split; [discriminate | intros (post & H)].
      rewrite append_cons in H. discriminate.
    + destruct (Ascii.ascii_dec a b) as [-> | Hab].
      * rewrite IH. split; intros (post & H); exists post;
          rewrite append_cons in *; congruence.
      * split; [discriminate | intros (post & H)].
        rewrite append_cons in H. congruence.
Qed.

(** [contains] is Python's substring test. *)
Lemma contains_substring (needle hay : string) :
  contains needle hay = true <->
  exists pre post, hay = String.append pre (String.append needle post).
Proof.
  induction hay as [| b hay IH]; cbn [contains];
    rewrite orb_true_iff, String_prefix_app.
  - split.
    + intros [(post & H) | [=]]. now exists EmptyString, post.
    + intros ([| ? ?] & post & H).
      * left. now exists post.
      * rewrite append_cons in H. discriminate.
  - rewrite IH. split.
    + intros [(post & H) | (pre & post & H)].
      * now exists EmptyString, post.
      * exists (String b pre), post. rewrite append_cons. now rewrite H.
    + intros ([| a pre] & post & H).
      * left. now exists post.
      * right. rewrite append_cons in H. injection H as _ H.
        now exists pre, post.
Qed.




(** * Further properties of the strategy *)

(** ** The pre-filter *)

(** X1. [check_market_book] lets a market through exactly when the book is
    OPEN, not in play, reports between 2 and 8 active runners, and the
    market's seconds-to-start do not exceed the configured threshold; a
    missing market or book is never let through. *)
Theorem check_market_book_accepts (self : ExampleStrategy.t) :
  (forall (market : Market.t) (market_book : MarketBook.t),
      check_market_book self (Some market) (Some market_book) = true
      <-> MarketBook.status market_book = "OPEN"
          /\ MarketBook.inplay market_book = false
          /\ (2 <= MarketBook.number_of_active_runners market_book <= 8)%nat
          /\ (Market.seconds_to_start market
              <= inject_Z (seconds_to_start self))%Q)
  /\ (forall market_book, check_market_book self None market_book = false)
  /\ (forall market, check_market_book self market None = false).
Proof.
  split; [| split; [reflexivity | now intros []]].
  intros market market_book. unfold check_market_book.
  destruct (String.eqb (MarketBook.status market_book) "OPEN") eqn:Hst;
    cbn [negb].
  2: { apply String.eqb_neq in Hst. split; [discriminate | tauto]. }
  apply String.eqb_eq in Hst.
  destruct (MarketBook.inplay market_book);
    [split; [discriminate | intros (_ & [=] & _)] |].
  destruct (Nat.ltb_spec (MarketBook.number_of_active_runners market_book) 2).
  { split; [discriminate | intros (_ & _ & ? & _); lia]. }
  destruct (Nat.ltb_spec 8 (MarketBook.number_of_active_runners market_book)).
  { split; [discriminate | intros (_ & _ & ? & _); lia]. }
  destruct (Qgtb _ _) eqn:Hs; order_facts.
  - split; [discriminate | intros (_ & _ & _ & Hle)].
    exfalso. exact (Qlt_not_le _ _ Hs Hle).
  - split; [intros _ | reflexivity]. repeat split; try assumption; lia.
Qed.

(** ** The pricing functions, continued *)

Lemma Qeq_bool_false_neq (x y : Q) : ~ (x == y)%Q -> Qeq_bool x y = false.
Proof.
  intros H. apply not_true_iff_false. now rewrite Qeq_bool_iff.
Qed.

(** The tests of [_get_lay_price] on two prices, with the expected-value
    price as the code computes it. *)
Lemma get_lay_price_tests (self : ExampleStrategy.t) (p : float64)
    (lay_price back_price : Q) :
  staking_strategy self = "take" \/ staking_strategy self = "offer" ->
  let rawPrice :=
    if String.eqb (staking_strategy self) "take"
    then lay_price else back_price in
  let evPrice :=
    f64_div (f64_div (Fin 1) p) (f64_add (Fin 1) (Fin (margin self))) in
  snd (_get_lay_price self p (Some lay_price) (Some back_price))
  = if f64_ltb (Fin rawPrice) evPrice then Ok None
    else if Qgtb (min_lay_price self) rawPrice then Ok None
    else if Qltb (max_lay_price self) rawPrice then Ok None
    else Ok (Some rawPrice).
Proof.
  intros Hmode. unfold _get_lay_price, reciprocal.
  cbn -[f64_div f64_mul f64_add].
  destruct Hmode as [-> | ->]; cbn -[f64_div f64_mul f64_add];
    repeat (case_if; try reflexivity).
Qed.

(** A quotient of a number [>= 1] by a finite divisor [>= 1] is not
    NaN. *)
Lemma f64_div_not_nan (x m : float64) :
  f64_leb (Fin 1) x = true -> f64_leb (Fin 1) m = true ->
  isfinite m = true -> isnan (f64_div x m) = false.
Proof.
  destruct x as [| [] | a], m as [| [] | c]; try discriminate; cbn;
    try reflexivity; rewrite !Qle_bool_iff; intros.
  rewrite Qeq_bool_false_lt by lra. apply round64_not_nan.
Qed.

(** X2. For a probability in (0,1], a margin >= 0 for which 1 + margin is
    finite, and both best prices present, the lay candidate is the raw
    price (best lay price under 'take', best back price under 'offer') when
    evPrice <= rawPrice and the raw price lies within
    [min_lay_price, max_lay_price], and is None otherwise, where evPrice is
    (1/p)/(1+margin) as the code evaluates it in binary64: the two
    quotients and the sum are each rounded to the nearest binary64
    number. *)
Theorem get_lay_price_candidate (self : ExampleStrategy.t)
    (p lay_price back_price : Q) :
  (0 < p)%Q -> (p <= 1)%Q -> (0 <= margin self)%Q ->
  isfinite (f64_add (Fin 1) (Fin (margin self))) = true ->
  staking_strategy self = "take" \/ staking_strategy self = "offer" ->
  let rawPrice :=
    if String.eqb (staking_strategy self) "take"
    then lay_price else back_price in
  let evPrice :=
    f64_div (f64_div (Fin 1) (Fin p)) (f64_add (Fin 1) (Fin (margin self))) in
  let candidate :=
    snd (_get_lay_price self (Fin p) (Some lay_price) (Some back_price)) in
  (f64_leb evPrice (Fin rawPrice) = true
   /\ (min_lay_price self <= rawPrice)%Q
   /\ (rawPrice <= max_lay_price self)%Q ->
   candidate = Ok (Some rawPrice))
  /\ (~ (f64_leb evPrice (Fin rawPrice) = true
         /\ (min_lay_price self <= rawPrice)%Q
         /\ (rawPrice <= max_lay_price self)%Q) ->
      candidate = Ok None).
Proof.
  intros Hp Hp1 Hm Hfinite Hmode rawPrice evPrice candidate.
  assert (Hcand : candidate =
                  if negb (f64_leb evPrice (Fin rawPrice)) then Ok None
                  else if Qgtb (min_lay_price self) rawPrice then Ok None
                  else if Qltb (max_lay_price self) rawPrice then Ok None
                  else Ok (Some rawPrice)).
  { unfold candidate. rewrite get_lay_price_tests by exact Hmode.
    fold rawPrice evPrice. rewrite f64_ltb_leb; [reflexivity | reflexivity |].
    apply f64_div_not_nan;
      [now apply reciprocal_ge_1 | now apply one_plus_ge_1 | exact Hfinite]. }
  rewrite Hcand. split.
  - intros (Hev & Hmin & Hmax).
    apply Qgtb_le in Hmin. apply Qltb_ge in Hmax.
    now rewrite Hev, Hmin, Hmax.
  - intros Hnot.
    destruct (f64_leb evPrice (Fin rawPrice)) eqn:Hev; [| reflexivity].
    cbn [negb]. repeat (case_if; try reflexivity).
    exfalso. apply Hnot. order_facts. auto.
Qed.

Lemma get_lay_price_candidate_witness :
  ((0 < 1 # 5)%Q /\ (1 # 5 <= 1)%Q
   /\ (0 <= margin (Sample.strategy "take" 0))%Q
   /\ isfinite (f64_add (Fin 1) (Fin (margin (Sample.strategy "take" 0))))
      = true)
  /\ snd (_get_lay_price (Sample.strategy "take" 0) (Fin (1 # 5))
            (Some 5%Q) (Some (48 # 10)%Q))
     = Ok (Some 5%Q)
  /\ snd (_get_lay_price (Sample.strategy "take" 0) (Fin (1 # 5))
            (Some (45 # 10)%Q) (Some (44 # 10)%Q))
     = Ok None.
Proof.
  assert (H1 : (0 < 1 # 5)%Q) by reflexivity.
  assert (H2 : (1 # 5 <= 1)%Q) by (vm_compute; discriminate).
  assert (H3 : (0 <= margin (Sample.strategy "take" 0))%Q)
    by (vm_compute; discriminate).
  assert (H4 : isfinite
                 (f64_add (Fin 1) (Fin (margin (Sample.strategy "take" 0))))
               = true) by (vm_compute; reflexivity).
  refine (conj (conj H1 (conj H2 (conj H3 H4))) (conj _ _)).
  - apply (proj1 (get_lay_price_candidate (Sample.strategy "take" 0)
                    (1 # 5)%Q 5%Q (48 # 10)%Q H1 H2 H3 H4
                    (or_introl eq_refl))).
    split; [vm_compute; reflexivity |].
    split; vm_compute; discriminate.
  - apply (proj2 (get_lay_price_candidate (Sample.strategy "take" 0)
                    (1 # 5)%Q (45 # 10)%Q (44 # 10)%Q H1 H2 H3 H4
                    (or_introl eq_refl))).
    intros [Hev _]. vm_compute in Hev. discriminate.
Defined.

Lemma pricing_unset_price (self : ExampleStrategy.t) (p : float64)
    (lay back : Q) :
  staking_strategy self <> "take" -> staking_strategy self <> "offer" ->
  snd (_get_back_price self p (Some lay) (Some back)) = Raise TypeError
  /\ snd (_get_lay_price self p (Some lay) (Some back)) = Raise TypeError.
Proof.
  intros Ht Ho. apply String.eqb_neq in Ht, Ho.
  unfold _get_back_price, _get_lay_price, reciprocal.
  now rewrite Ht, Ho.
Qed.

Lemma pricing_absent_price (self : ExampleStrategy.t) (p : float64)
    (lay_price back_price : option Q) :
  lay_price = None \/ back_price = None ->
  _get_back_price self p lay_price back_price = ([], Ok None)
  /\ _get_lay_price self p lay_price back_price = ([], Ok None).
Proof.
  unfold _get_back_price, _get_lay_price.
  destruct lay_price, back_price; intros [[=] | [=]]; split; reflexivity.
Qed.

(** X3. The only exception a pricing function raises is the [TypeError] of
    comparing with an unset price, and it raises it exactly when both best
    prices are present and the staking mode is neither 'take' nor 'offer';
    with a best price absent the answer is None in every mode, and no
    reciprocal is evaluated. *)
Theorem pricing_raises (self : ExampleStrategy.t) (p : float64)
    (lay_price back_price : option Q) :
  let unset_price :=
    (exists lay back, lay_price = Some lay /\ back_price = Some back)
    /\ staking_strategy self <> "take"
    /\ staking_strategy self <> "offer" in
  (forall e, snd (_get_back_price self p lay_price back_price) = Raise e
             <-> e = TypeError /\ unset_price)
  /\ (forall e, snd (_get_lay_price self p lay_price back_price) = Raise e
                <-> e = TypeError /\ unset_price)
  /\ (lay_price = None \/ back_price = None ->
      _get_back_price self p lay_price back_price = ([], Ok None)
      /\ _get_lay_price self p lay_price back_price = ([], Ok None)).
Proof.
  cbn zeta.
  assert (Hcases :
            (staking_strategy self = "take" \/ staking_strategy self = "offer")
            \/ (staking_strategy self <> "take"
                /\ staking_strategy self <> "offer")).
  { destruct (String.eqb_spec (staking_strategy self) "take"); [auto |].
    destruct (String.eqb_spec (staking_strategy self) "offer"); auto. }
  split; [| split; [| apply pricing_absent_price]]; intros e; split.
  - intros He. destruct Hcases as [Hc | [Ht Ho]].
    + destruct (get_back_price_no_raise self Hc p lay_price back_price)
        as [r Hr]. congruence.
    + destruct lay_price as [lay |], back_price as [back |];
        try (unfold _get_back_price in He; discriminate).
      rewrite (proj1 (pricing_unset_price self p lay back Ht Ho)) in He.
      injection He as <-. split; [reflexivity |].
      split; [now exists lay, back | auto].
  - intros (-> & (lay & back & -> & ->) & Ht & Ho).
    apply pricing_unset_price; assumption.
  - intros He. destruct Hcases as [Hc | [Ht Ho]].
    + destruct (get_lay_price_no_raise self Hc p lay_price back_price)
        as [r Hr]. congruence.
    + destruct lay_price as [lay |], back_price as [back |];
        try (unfold _get_lay_price in He; discriminate).
      rewrite (proj2 (pricing_unset_price self p lay back Ht Ho)) in He.
      injection He as <-. split; [reflexivity |].
      split; [now exists lay, back | auto].
  - intros (-> & (lay & back & -> & ->) & Ht & Ho).
    apply pricing_unset_price; assumption.
Qed.

(** When the tests of a pricing function let a price through. *)
Lemma tests_candidate (rejected : bool) (lo hi raw c : Q) :
  (if rejected then Ok None
   else if Qgtb lo raw then Ok None
   else if Qltb hi raw then Ok None
   else Ok (Some raw)) = Ok (Some c)
  <-> raw = c /\ rejected = false /\ (lo <= c)%Q /\ (c <= hi)%Q.
Proof.
  destruct rejected; [split; [discriminate | now intros (_ & [=] & _)] |].
  destruct (Qgtb lo raw) eqn:Hlo.
  { apply Qgtb_gt in Hlo. split; [discriminate | intros (<- & _ & H & _)].
    exfalso. lra. }
  destruct (Qltb hi raw) eqn:Hhi.
  { apply Qltb_lt in Hhi. split; [discriminate | intros (<- & _ & _ & H)].
    exfalso. lra. }
  apply Qgtb_le in Hlo. apply Qltb_ge in Hhi. split.
  - intros [= <-]. auto.
  - now intros (<- & _).
Qed.

Lemma back_candidate_tests (self : ExampleStrategy.t) (p : float64)
    (lay_price back_price : option Q) (c : Q) :
  back_candidate self p lay_price back_price c
  <-> ((staking_strategy self = "take" /\ back_price = Some c
        /\ lay_price <> None)
       \/ (staking_strategy self = "offer" /\ lay_price = Some c
           /\ back_price <> None))
      /\ f64_ltb
           (f64_mul (f64_div (Fin 1) p)
              (f64_add (Fin 1) (Fin (margin self))))
           (Fin c) = false
      /\ (min_back_price self <= c)%Q /\ (c <= max_back_price self)%Q.
Proof.
  unfold back_candidate.
  destruct lay_price as [lay |], back_price as [back |];
    try (unfold _get_back_price; cbn;
         split; [discriminate
                | intros ([(_ & H1 & H2) | (_ & H1 & H2)] & _); congruence]).
  destruct (String.eqb_spec (staking_strategy self) "take") as [Ht | Ht];
    [| destruct (String.eqb_spec (staking_strategy self) "offer")
         as [Ho | Ho]].
  - rewrite get_back_price_tests by auto. cbn zeta. rewrite Ht. cbn [String.eqb Ascii.eqb Bool.eqb].
    rewrite tests_candidate. split.
    + intros (<- & Hrest).
      split; [left; repeat split; auto; discriminate | exact Hrest].
    + intros ([(_ & Hc & _) | (Ho & _)] & Hrest); [| congruence].
      injection Hc as <-. now split.
  - rewrite get_back_price_tests by auto. cbn zeta.
    rewrite (proj2 (String.eqb_neq _ _) Ht).
    rewrite tests_candidate. split.
    + intros (<- & Hrest).
      split; [right; repeat split; auto; discriminate | exact Hrest].
    + intros ([(Ht' & _) | (_ & Hc & _)] & Hrest); [congruence |].
      injection Hc as <-. now split.
  - rewrite (proj1 (pricing_unset_price self p lay back Ht Ho)). cbn.
    split; [discriminate | intros ([(? & _) | (? & _)] & _); congruence].
Qed.

Lemma lay_candidate_tests (self : ExampleStrategy.t) (p : float64)
    (lay_price back_price : option Q) (c : Q) :
  lay_candidate self p lay_price back_price c
  <-> ((staking_strategy self = "take" /\ lay_price = Some c
        /\ back_price <> None)
       \/ (staking_strategy self = "offer" /\ back_price = Some c
           /\ lay_price <> None))
      /\ f64_ltb (Fin c)
           (f64_div (f64_div (Fin 1) p)
              (f64_add (Fin 1) (Fin (margin self)))) = false
      /\ (min_lay_price self <= c)%Q /\ (c <= max_lay_price self)%Q.
Proof.
  unfold lay_candidate.
  destruct lay_price as [lay |], back_price as [back |];
    try (unfold _get_lay_price; cbn;
         split; [discriminate
                | intros ([(_ & H1 & H2) | (_ & H1 & H2)] & _); congruence]).
  destruct (String.eqb_spec (staking_strategy self) "take") as [Ht | Ht];
    [| destruct (String.eqb_spec (staking_strategy self) "offer")
         as [Ho | Ho]].
  - rewrite get_lay_price_tests by auto. cbn zeta. rewrite Ht. cbn [String.eqb Ascii.eqb Bool.eqb].
    rewrite tests_candidate. split.
    + intros (<- & Hrest).
      split; [left; repeat split; auto; discriminate | exact Hrest].
    + intros ([(_ & Hc & _) | (Ho & _)] & Hrest); [| congruence].
      injection Hc as <-. now split.
  - rewrite get_lay_price_tests by auto. cbn zeta.
    rewrite (proj2 (String.eqb_neq _ _) Ht).
    rewrite tests_candidate. split.
    + intros (<- & Hrest).
      split; [right; repeat split; auto; discriminate | exact Hrest].
    + intros ([(Ht' & _) | (_ & Hc & _)] & Hrest); [congruence |].
      injection Hc as <-. now split.
  - rewrite (proj2 (pricing_unset_price self p lay back Ht Ho)). cbn.
    split; [discriminate | intros ([(? & _) | (? & _)] & _); congruence].
Qed.

(** X4. Acceptance follows the probability in one direction only, rounding
    included.  With a margin >= 0, a back candidate accepted for a
    probability p is accepted, at the same price, for every smaller
    positive probability; a lay candidate accepted for p > 0 is accepted
    for every larger probability, provided 1 + margin is finite in
    binary64 (as it is for every margin that is a binary64 number). *)
Theorem candidate_monotone (self : ExampleStrategy.t) (p p' : Q)
    (lay_price back_price : option Q) (c : Q) :
  (0 <= margin self)%Q -> (0 < p')%Q -> (p' <= p)%Q ->
  (back_candidate self (Fin p) lay_price back_price c ->
   back_candidate self (Fin p') lay_price back_price c)
  /\ (isfinite (f64_add (Fin 1) (Fin (margin self))) = true ->
      lay_candidate self (Fin p') lay_price back_price c ->
      lay_candidate self (Fin p) lay_price back_price c).
Proof.
  intros Hm Hp' Hle.
  destruct (reciprocal_le p p' Hp' Hle) as [Hinv H0].
  pose proof (one_plus_ge_1 (margin self) Hm) as Hone.
  rewrite !back_candidate_tests, !lay_candidate_tests.
  split.
  - intros (Hraw & Hev & Hbounds). split; [exact Hraw |].
    split; [| exact Hbounds].
    now apply (f64_mul_le (f64_div (Fin 1) (Fin p))).
  - intros Hfinite (Hraw & Hev & Hbounds). split; [exact Hraw |].
    split; [| exact Hbounds].
    destruct (f64_add (Fin 1) (Fin (margin self))) as [| s | c1];
      try discriminate.
    cbn in Hone. apply Qle_bool_iff in Hone.
    now apply (f64_div_le _ (f64_div (Fin 1) (Fin p'))).
Qed.

Lemma candidate_monotone_witness :
  ((0 <= margin (Sample.strategy "take" 0))%Q
   /\ (0 < 1 # 5)%Q /\ (1 # 5 <= 1 # 4)%Q)
  /\ back_candidate (Sample.strategy "take" 0) (Fin (1 # 4))
       (Some (42 # 10)%Q) (Some 4%Q) 4%Q
  /\ back_candidate (Sample.strategy "take" 0) (Fin (1 # 5))
       (Some (42 # 10)%Q) (Some 4%Q) 4%Q.
Proof.
  assert (H1 : (0 <= margin (Sample.strategy "take" 0))%Q)
    by (vm_compute; discriminate).
  assert (H2 : (0 < 1 # 5)%Q) by reflexivity.
  assert (H3 : (1 # 5 <= 1 # 4)%Q) by (vm_compute; discriminate).
  assert (H4 : back_candidate (Sample.strategy "take" 0) (Fin (1 # 4))
                 (Some (42 # 10)%Q) (Some 4%Q) 4%Q) by reflexivity.
  refine (conj (conj H1 (conj H2 H3)) (conj H4 _)).
  exact (proj1 (candidate_monotone (Sample.strategy "take" 0) (1 # 4) (1 # 5)
                  (Some (42 # 10)%Q) (Some 4%Q) 4%Q H1 H2 H3) H4).
Defined.

(** The proviso of the second half is needed.  With a margin beyond the
    binary64 range 1 + margin is an infinity; for a probability whose
    reciprocal overflows the expected-value price is then NaN, which no
    comparison rejects, while for a larger probability it is 0. *)
Lemma lay_candidate_overflow :
  let self :=
    ExampleStrategy.mk 10 "take" 60 (pow2 1024) 1 150 (-2) 150 ∅
      (fun _ _ _ => RunnerContext.mk 0) in
  (0 <= margin self)%Q /\ (0 < pow2 (-1100))%Q /\ (pow2 (-1100) <= 1)%Q
  /\ lay_candidate self (Fin (pow2 (-1100))) (Some (-1)%Q) (Some (-1)%Q) (-1)
  /\ ~ lay_candidate self (Fin 1) (Some (-1)%Q) (Some (-1)%Q) (-1).
Proof.
  cbn zeta. split; [vm_compute; discriminate |].
  split; [vm_compute; reflexivity |].
  split; [vm_compute; discriminate |].
  split; [vm_compute; reflexivity |].
  intros H. vm_compute in H. discriminate.
Qed.

(** ** Placement of new orders *)

Section Placement.
Variable self : ExampleStrategy.t.
Hypothesis continuous :
  staking_strategy self = "take" \/ staking_strategy self = "offer".
Variable runner_probability : float64.
Variables lay_price back_price : option Q.

Lemma selection_orders_loop_flags (selection_orders : list Order.t)
    (has_back_bets has_lay_bets : bool) :
  snd (selection_orders_loop self runner_probability lay_price back_price
         selection_orders has_back_bets has_lay_bets)
  = Ok (has_back_bets || has_bets selection_orders "BACK",
        has_lay_bets || has_bets selection_orders "LAY").
Proof.
  revert has_back_bets has_lay_bets.
  induction selection_orders as [| order rest IH]; intros hb hl.
  - cbn. now rewrite !orb_false_r.
  - change (snd (update_order self runner_probability lay_price back_price
                   order ≫= fun _ =>
                 selection_orders_loop self runner_probability lay_price
                   back_price rest
                   (hb || String.eqb (Order.side order) "BACK")
                   (hl || String.eqb (Order.side order) "LAY"))
            = Ok (hb || has_bets (order :: rest) "BACK",
                  hl || has_bets (order :: rest) "LAY")).
    rewrite bind_outcome, (update_order_no_raise self continuous), IH.
    cbn [has_bets existsb]. now rewrite !orb_assoc.
Qed.

Lemma update_order_no_place (order : Order.t) :
  Forall (fun e => match e with PlaceOrder _ _ _ => False | _ => True end)
    (fst (update_order self runner_probability lay_price back_price order)).
Proof. apply update_order_Forall; cbn; auto. Qed.

Lemma place_side_In (candidate : M (option Q)) (r : option Q)
    (trade t : Trade.t) (side0 side : string) (order_type : OrderType)
    (has_side_bets : bool) :
  Forall (eq (Reciprocal runner_probability)) (fst candidate) ->
  snd candidate = Ok r ->
  let part : M unit :=
    if negb has_side_bets then
      proposed_price ← candidate;
      match proposed_price with
      | Some proposed_price =>
          emit (PlaceOrder trade side0
                  (LimitOrder proposed_price (stake self)))
      | None => mret tt
      end
    else mret tt in
  snd part = Ok tt
  /\ (In (PlaceOrder t side order_type) (fst part)
      <-> has_side_bets = false
          /\ exists c, r = Some c /\ t = trade /\ side = side0
                       /\ order_type = LimitOrder c (stake self)).
Proof.
  intros Hev Hr part. subst part. rewrite List.Forall_forall in Hev.
  destruct has_side_bets; cbn [negb].
  - split; [reflexivity |]. cbn. split; [intros [] | now intros [[=] _]].
  - rewrite bind_outcome, bind_In, Hr. split; [now destruct r |]. split.
    + intros [H | (a & [= <-] & H)].
      * apply Hev in H. discriminate.
      * destruct r as [c |]; [| destruct H].
        destruct H as [[= <- <- <-] | []]. eauto 8.
    + intros (_ & c & -> & -> & -> & ->). right. exists (Some c).
      split; [reflexivity |]. now left.
Qed.

Lemma place_orders_In (trade t : Trade.t) (side : string)
    (order_type : OrderType) (has_back_bets has_lay_bets : bool) :
  In (PlaceOrder t side order_type)
    (fst (place_orders self back_price lay_price runner_probability trade
            has_back_bets has_lay_bets))
  <-> t = trade
      /\ exists c,
          order_type = LimitOrder c (stake self)
          /\ ((side = "BACK" /\ has_back_bets = false
               /\ back_candidate self runner_probability lay_price
                    back_price c)
              \/ (side = "LAY" /\ has_lay_bets = false
                  /\ lay_candidate self runner_probability lay_price
                       back_price c)).
Proof.
  unfold place_orders, back_candidate, lay_candidate.
  destruct (get_back_price_no_raise self continuous runner_probability
              lay_price back_price) as [rb Hb].
  destruct (get_lay_price_no_raise self continuous runner_probability
              lay_price back_price) as [rl Hl].
  destruct (place_side_In _ rb trade t "BACK" side order_type has_back_bets
              (get_back_price_events self runner_probability lay_price
                 back_price) Hb) as [Hob Hib].
  destruct (place_side_In _ rl trade t "LAY" side order_type has_lay_bets
              (get_lay_price_events self runner_probability lay_price
                 back_price) Hl) as [_ Hil].
  cbn zeta in Hob, Hib, Hil.
  rewrite bind_In, Hob, Hib, Hb, Hl. split.
  - intros [(Hhas & c & -> & -> & -> & ->) | (a & _ & H)].
    + split; [reflexivity |]. exists c. split; [reflexivity |]. auto.
    + apply Hil in H as (Hhas & c & -> & -> & -> & ->).
      split; [reflexivity |]. exists c. split; [reflexivity |]. auto.
  - intros (-> & c & -> & [(-> & Hhas & [= ->]) | (-> & Hhas & [= ->])]).
    + left. split; [exact Hhas |]. now exists c.
    + right. exists tt. split; [reflexivity |]. apply Hil.
      split; [exact Hhas |]. now exists c.
Qed.
End Placement.

Lemma offer_or_take_place_In (self : ExampleStrategy.t)
    (runner_probability : float64) (lay_price back_price : option Q)
    (market : Market.t) (runner : Runner.t) (trade t : Trade.t)
    (side : string) (order_type : OrderType) :
  staking_strategy self = "take" \/ staking_strategy self = "offer" ->
  In (PlaceOrder t side order_type)
    (fst (offer_or_take self market runner back_price lay_price
            runner_probability trade))
  <-> t = trade
      /\ exists c,
          order_type = LimitOrder c (stake self)
          /\ has_bets
               (strategy_selection_orders (Market.blotter market)
                  (Runner.selection_id runner) (Runner.handicap runner))
               side = false
          /\ ((side = "BACK"
               /\ back_candidate self runner_probability lay_price
                    back_price c)
              \/ (side = "LAY"
                  /\ lay_candidate self runner_probability lay_price
                       back_price c)).
Proof.
  intros Hmode. unfold offer_or_take.
  rewrite bind_In, (selection_orders_loop_In self Hmode),
    (selection_orders_loop_flags self Hmode).
  cbn [orb]. split.
  - intros [(order & _ & H) | (flags & [= <-] & H)].
    + pose proof (update_order_no_place self runner_probability lay_price
                    back_price order) as Hall.
      rewrite List.Forall_forall in Hall. destruct (Hall _ H).
    + apply (place_orders_In self Hmode) in H
        as (-> & c & -> & [(-> & Hb & Hc) | (-> & Hb & Hc)]);
        (split; [reflexivity |]); exists c; (split; [reflexivity |]);
        (split; [exact Hb |]); auto.
  - intros (-> & c & -> & Hb & Hc). right. eexists. split; [reflexivity |].
    apply (place_orders_In self Hmode). split; [reflexivity |].
    exists c. split; [reflexivity |].
    destruct Hc as [(-> & Hc) | (-> & Hc)]; auto.
Qed.

(** On the continuous path with a validated vector, the trace of the loop
    is made of the traces of its active runners, each run with the
    probability at its rank. *)
Lemma compare_market_odds_In (get_nearest_price : float64 -> Q)
    (self : ExampleStrategy.t) (market : Market.t)
    (market_book : MarketBook.t) (race_probability : list float64)
    (runners : list Runner.t) (runner_idx : nat) (e : event) :
  staking_strategy self = "take" \/ staking_strategy self = "offer" ->
  snd (verify_probabilities race_probability runners runner_idx) = Ok tt ->
  In e (fst (compare_market_odds get_nearest_price self market market_book
               race_probability runners runner_idx))
  <-> exists (i : nat) (runner : Runner.t) (p : float64),
        active_runners runners !! i = Some runner
        /\ race_probability !! (runner_idx + i)%nat = Some p
        /\ In e (fst (offer_or_take self market runner
                        (get_price (Runner.available_to_back runner) 0)
                        (get_price (Runner.available_to_lay runner) 0) p
                        (Trade.Trade (MarketBook.market_id market_book)
                           (Runner.selection_id runner)
                           (Runner.handicap runner)))).
Proof.
  intros Hmode.
  assert (Hbsp : String.eqb (staking_strategy self) "bsp" = false)
    by (destruct Hmode as [-> | ->]; reflexivity).
  revert runner_idx.
  induction runners as [| runner rest IH]; intros runner_idx.
  - cbn. intros _. split; [intros [] |].
    now intros (i & r & p & [=] & _).
  - rewrite verify_probabilities_cons, compare_market_odds_cons.
    cbn [active_runners List.filter]. fold (active_runners rest).
    destruct (String.eqb (Runner.status runner) "ACTIVE"); cbn [negb];
      [| apply IH].
    destruct (race_probability !! runner_idx) as [p |] eqn:Hidx.
    + rewrite (index_probability_Some _ _ _ Hidx), !bind_ret_l.
      destruct (isnan p || f64_eqb p (Fin 0)); [discriminate |].
      intros Hrest. cbn zeta. rewrite Hbsp.
      rewrite bind_In, (offer_or_take_no_raise self Hmode).
      split.
      * intros [H | (a & _ & H)].
        -- exists 0%nat, runner, p. rewrite Nat.add_0_r. auto.
        -- apply (IH (S runner_idx) Hrest) in H
             as (i & r & q & Hi & Hq & H).
           exists (S i), r, q. split; [exact Hi |]. split; [| exact H].
           now replace (runner_idx + S i)%nat with (S runner_idx + i)%nat
             by lia.
      * intros ([| i] & r & q & Hi & Hq & H).
        -- cbn in Hi. injection Hi as <-. rewrite Nat.add_0_r in Hq.
           left. congruence.
        -- right. exists tt. split; [reflexivity |].
           apply (IH (S runner_idx) Hrest).
           exists i, r, q. split; [exact Hi |]. split; [| exact H].
           now replace (S runner_idx + i)%nat with (runner_idx + S i)%nat
             by lia.
    + rewrite (index_probability_None _ _ Hidx). discriminate.
Qed.

Lemma place_bsp_bets_outcome (get_nearest_price : float64 -> Q)
    (self : ExampleStrategy.t) (market : Market.t) (runner : Runner.t)
    (back_price lay_price : option Q) (runner_probability : float64)
    (trade : Trade.t) :
  snd (_place_bsp_bets get_nearest_price self market runner back_price
         lay_price runner_probability trade) = Ok RetNone.
Proof.
  unfold _place_bsp_bets, reciprocal.
  destruct (Nat.eqb _ 0); [reflexivity |].
  destruct back_price, lay_price; try reflexivity.
  cbn. repeat case_if; reflexivity.
Qed.

Lemma compare_market_odds_outcome (get_nearest_price : float64 -> Q)
    (self : ExampleStrategy.t) (market : Market.t)
    (market_book : MarketBook.t) (race_probability : list float64)
    (runners : list Runner.t) (runner_idx : nat) :
  staking_strategy self = "take" \/ staking_strategy self = "offer"
  \/ staking_strategy self = "bsp" ->
  snd (verify_probabilities race_probability runners runner_idx) = Ok tt ->
  snd (compare_market_odds get_nearest_price self market market_book
         race_probability runners runner_idx) = Ok RetNone.
Proof.
  intros Hmode. revert runner_idx.
  induction runners as [| runner rest IH]; intros runner_idx;
    [reflexivity |].
  rewrite verify_probabilities_cons, compare_market_odds_cons.
  destruct (negb _); [apply IH |].
  destruct (race_probability !! runner_idx) as [p |] eqn:Hidx.
  - rewrite (index_probability_Some _ _ _ Hidx), !bind_ret_l.
    destruct (isnan p || f64_eqb p (Fin 0)); [discriminate |].
    intros Hrest. cbn zeta.
    destruct (String.eqb_spec (staking_strategy self) "bsp") as [Hb | Hb].
    + apply place_bsp_bets_outcome.
    + assert (Hc : staking_strategy self = "take"
                   \/ staking_strategy self = "offer") by tauto.
      rewrite bind_outcome, (offer_or_take_no_raise self Hc). now apply IH.
  - rewrite (index_probability_None _ _ Hidx). discriminate.
Qed.

Lemma places_generate_probabilities (self : ExampleStrategy.t)
    (market market' : Market.t) (market_book : MarketBook.t)
    (rng : nat -> list float64) (runner : Runner.t) (p : float64)
    (side : string) (c : Q) :
  places (fst (_generate_probabilities self market market_book rng)) market'
    runner p side c
  <-> places self market' runner p side c.
Proof.
  unfold _generate_probabilities.
  destruct (market_probabilities self !! Market.market_id market);
    reflexivity.
Qed.

(** X5. The placement rule.  On an update in mode 'take' or 'offer' whose
    vector passes validation, a new order is placed exactly for an active
    runner and a side such that the runner's selection has no order of that
    side in the blotter, whatever its status, and the side has a candidate
    price; the order is a limit order at the candidate for the configured
    stake, on the runner's own trade. *)
Theorem placement_rule (get_nearest_price : float64 -> Q)
    (self : ExampleStrategy.t) (market : Market.t)
    (market_book : MarketBook.t) (rng : nat -> list float64)
    (trade : Trade.t) (side : string) (order_type : OrderType) :
  staking_strategy self = "take" \/ staking_strategy self = "offer" ->
  let race_probability :=
    snd (_generate_probabilities self market market_book rng) in
  length race_probability
  = MarketBook.number_of_active_runners market_book ->
  snd (verify_probabilities race_probability
         (MarketBook.runners market_book) 0) = Ok tt ->
  In (PlaceOrder trade side order_type)
    (fst (snd (process_market_book get_nearest_price self (Some market)
                 (Some market_book) rng)))
  <-> exists (i : nat) (runner : Runner.t) (p : float64) (c : Q),
        active_runners (MarketBook.runners market_book) !! i = Some runner
        /\ race_probability !! i = Some p
        /\ trade = Trade.Trade (MarketBook.market_id market_book)
                     (Runner.selection_id runner) (Runner.handicap runner)
        /\ order_type = LimitOrder c (stake self)
        /\ places self market runner p side c.
Proof.
  intros Hmode race_probability Hlen Hv.
  rewrite process_market_book_Some. cbn [fst snd]. fold race_probability.
  apply Nat.eqb_eq in Hlen. rewrite Hlen. cbn [negb].
  rewrite (verify_probabilities_Ok _ _ _ Hv), bind_ret_l.
  pose proof (generate_probabilities_config self market market_book rng)
    as (Hstake & Hmode' & _). cbn zeta in Hstake, Hmode'.
  assert (Hcont :
            staking_strategy
              (fst (_generate_probabilities self market market_book rng))
            = "take"
            \/ staking_strategy
                 (fst (_generate_probabilities self market market_book rng))
               = "offer") by now rewrite Hmode'.
  rewrite (compare_market_odds_In _ _ _ _ _ _ _ _ Hcont Hv).
  split.
  - intros (i & runner & p & Hi & Hp & H).
    apply (offer_or_take_place_In _ _ _ _ _ _ _ _ _ _ Hcont) in H
      as (-> & c & -> & Hb & Hc).
    exists i, runner, p, c. rewrite Hstake.
    split; [exact Hi |]. split; [exact Hp |]. split; [reflexivity |].
    split; [reflexivity |].
    apply (places_generate_probabilities self market market market_book rng).
    split; [exact Hb | exact Hc].
  - intros (i & runner & p & c & Hi & Hp & -> & -> & Hpl).
    exists i, runner, p. split; [exact Hi |]. split; [exact Hp |].
    apply (offer_or_take_place_In _ _ _ _ _ _ _ _ _ _ Hcont).
    split; [reflexivity |]. exists c. rewrite Hstake.
    split; [reflexivity |].
    apply (places_generate_probabilities self market market market_book rng)
      in Hpl.
    exact Hpl.
Qed.

Lemma placement_rule_witness :
  ((staking_strategy (Sample.strategy "take" 0) = "take"
    \/ staking_strategy (Sample.strategy "take" 0) = "offer")
   /\ length (snd (_generate_probabilities (Sample.strategy "take" 0)
                     Sample.market Sample.book Sample.rng))
      = MarketBook.number_of_active_runners Sample.book
   /\ snd (verify_probabilities
             (snd (_generate_probabilities (Sample.strategy "take" 0)
                     Sample.market Sample.book Sample.rng))
             (MarketBook.runners Sample.book) 0) = Ok tt)
  /\ In (PlaceOrder (Trade.Trade "1.171755571" 101 0) "BACK"
           (LimitOrder 4 10))
       (fst (snd (process_market_book Sample.get_nearest_price
                    (Sample.strategy "take" 0) (Some Sample.market)
                    (Some Sample.book) Sample.rng))).
Proof.
  refine (conj (conj (or_introl eq_refl) (conj eq_refl eq_refl)) _).
  apply (proj2 (placement_rule Sample.get_nearest_price
                  (Sample.strategy "take" 0) Sample.market Sample.book
                  Sample.rng (Trade.Trade "1.171755571" 101 0) "BACK"
                  (LimitOrder 4 10) (or_introl eq_refl) eq_refl eq_refl)).
  exists 0%nat, Sample.runner1, (Fin (1 # 4)), 4%Q.
  split; [reflexivity |]. split; [reflexivity |]. split; [reflexivity |].
  split; [reflexivity |]. split; [reflexivity |]. left.
  split; reflexivity.
Defined.

(** ** Outcomes of an update *)

Lemma generate_probabilities_hit (self : ExampleStrategy.t)
    (market : Market.t) (market_book : MarketBook.t)
    (rng : nat -> list float64) (v : list float64) :
  market_probabilities self !! Market.market_id market = Some v ->
  _generate_probabilities self market market_book rng = (self, v).
Proof. unfold _generate_probabilities. now intros ->. Qed.

(** X6. Once a market has a vector, it is never regenerated: a later update
    of that market whose book reports an active-runner count other than the
    vector's length returns False, sends nothing and leaves the strategy
    object as it was, whatever the generator would draw. *)
Theorem stale_vector_refused (get_nearest_price : float64 -> Q)
    (self : ExampleStrategy.t) (market market' : Market.t)
    (market_book market_book' : MarketBook.t)
    (rng rng' : nat -> list float64) :
  let first :=
    process_market_book get_nearest_price self (Some market)
      (Some market_book) rng in
  let race_probability :=
    snd (_generate_probabilities self market market_book rng) in
  Market.market_id market' = Market.market_id market ->
  MarketBook.number_of_active_runners market_book'
  <> length race_probability ->
  process_market_book get_nearest_price (fst first) (Some market')
    (Some market_book') rng'
  = (fst first, ([], Ok RetFalse)).
Proof.
  intros first race_probability Hid Hlen. subst first.
  rewrite !process_market_book_Some. cbn [fst snd].
  pose proof (generate_probabilities_stored self market market_book rng)
    as Hstored.
  rewrite <- Hid in Hstored.
  rewrite (generate_probabilities_hit _ _ market_book' rng' _ Hstored).
  cbn [fst snd]. fold race_probability.
  destruct (Nat.eqb_spec (length race_probability)
              (MarketBook.number_of_active_runners market_book'));
    [congruence | reflexivity].
Qed.

Lemma stale_vector_refused_witness :
  (Market.market_id Sample.market_later = Market.market_id Sample.market
   /\ MarketBook.number_of_active_runners Sample.book3
      <> length (snd (_generate_probabilities (Sample.strategy "take" 0)
                        Sample.market Sample.book Sample.rng)))
  /\ snd (process_market_book Sample.get_nearest_price
            (fst (process_market_book Sample.get_nearest_price
                    (Sample.strategy "take" 0) (Some Sample.market)
                    (Some Sample.book) Sample.rng))
            (Some Sample.market_later) (Some Sample.book3) Sample.rng')
     = ([], Ok RetFalse).
Proof.
  assert (Hlen : MarketBook.number_of_active_runners Sample.book3
                 <> length (snd (_generate_probabilities
                                   (Sample.strategy "take" 0) Sample.market
                                   Sample.book Sample.rng)))
    by (cbn; discriminate).
  refine (conj (conj eq_refl Hlen) _).
  exact (f_equal snd
           (stale_vector_refused Sample.get_nearest_price
              (Sample.strategy "take" 0) Sample.market Sample.market_later
              Sample.book Sample.book3 Sample.rng Sample.rng' eq_refl Hlen)).
Defined.

(** X7. An update whose vector passes validation runs to completion in each
    of the three staking modes: it returns None and raises nothing. *)
Theorem validated_update_completes (get_nearest_price : float64 -> Q)
    (self : ExampleStrategy.t) (market : Market.t)
    (market_book : MarketBook.t) (rng : nat -> list float64) :
  staking_strategy self = "take" \/ staking_strategy self = "offer"
  \/ staking_strategy self = "bsp" ->
  let race_probability :=
    snd (_generate_probabilities self market market_book rng) in
  length race_probability
  = MarketBook.number_of_active_runners market_book ->
  snd (verify_probabilities race_probability
         (MarketBook.runners market_book) 0) = Ok tt ->
  snd (snd (process_market_book get_nearest_price self (Some market)
              (Some market_book) rng)) = Ok RetNone.
Proof.
  intros Hmode race_probability Hlen Hv.
  rewrite process_market_book_Some. cbn [fst snd]. fold race_probability.
  apply Nat.eqb_eq in Hlen. rewrite Hlen. cbn [negb].
  rewrite (verify_probabilities_Ok _ _ _ Hv), bind_ret_l.
  pose proof (generate_probabilities_config self market market_book rng)
    as (_ & Hmode' & _). cbn zeta in Hmode'.
  apply compare_market_odds_outcome; [now rewrite Hmode' | exact Hv].
Qed.

Lemma validated_update_completes_witness :
  ((staking_strategy Sample.strategy_bsp = "take"
    \/ staking_strategy Sample.strategy_bsp = "offer"
    \/ staking_strategy Sample.strategy_bsp = "bsp")
   /\ length (snd (_generate_probabilities Sample.strategy_bsp Sample.market
                     Sample.book Sample.rng))
      = MarketBook.number_of_active_runners Sample.book
   /\ snd (verify_probabilities
             (snd (_generate_probabilities Sample.strategy_bsp Sample.market
                     Sample.book Sample.rng))
             (MarketBook.runners Sample.book) 0) = Ok tt)
  /\ snd (snd (process_market_book Sample.get_nearest_price
                 Sample.strategy_bsp (Some Sample.market)
                 (Some Sample.book) Sample.rng)) = Ok RetNone.
Proof.
  refine (conj (conj (or_intror (or_intror eq_refl)) (conj eq_refl eq_refl))
            _).
  exact (validated_update_completes Sample.get_nearest_price
           Sample.strategy_bsp Sample.market Sample.book Sample.rng
           (or_intror (or_intror eq_refl)) eq_refl eq_refl).
Defined.

(** ** Validation, case by case *)

Lemma valid_invalid (p : float64) :
  valid_probability p -> invalid_probability p -> False.
Proof.
  intros [H1 H2] [H | H]; congruence.
Qed.

Lemma valid_or_invalid (p : float64) :
  valid_probability p \/ invalid_probability p.
Proof.
  unfold valid_probability, invalid_probability.
  destruct (isnan p), (f64_eqb p (Fin 0)); auto.
Qed.

(** The first rank at which validation stops decides its outcome. *)
Lemma verify_probabilities_spec (race_probability : list float64)
    (runners : list Runner.t) (runner_idx : nat) :
  let k := length (active_runners runners) in
  match snd (verify_probabilities race_probability runners runner_idx) with
  | Ok _ =>
      forall i, (i < k)%nat ->
                exists p, race_probability !! (runner_idx + i)%nat = Some p
                          /\ valid_probability p
  | Raise NameError =>
      exists i p, (i < k)%nat
                  /\ race_probability !! (runner_idx + i)%nat = Some p
                  /\ invalid_probability p
  | Raise IndexError =>
      exists i, (i < k)%nat
                /\ race_probability !! (runner_idx + i)%nat = None
                /\ forall j, (j < i)%nat ->
                             exists p,
                               race_probability !! (runner_idx + j)%nat
                               = Some p
                               /\ valid_probability p
  | Raise _ => False
  end.
Proof.
  revert runner_idx.
  induction runners as [| runner rest IH]; intros runner_idx.
  - cbn. intros i Hi. lia.
  - rewrite verify_probabilities_cons.
    cbn [active_runners List.filter]. fold (active_runners rest).
    destruct (String.eqb (Runner.status runner) "ACTIVE"); cbn [negb];
      [| apply IH].
    cbn [length].
    destruct (race_probability !! runner_idx) as [p |] eqn:Hidx.
    + rewrite (index_probability_Some _ _ _ Hidx), bind_ret_l.
      destruct (isnan p || f64_eqb p (Fin 0)) eqn:Hp.
      * apply invalid_probability_test in Hp. cbn.
        exists 0%nat, p. rewrite Nat.add_0_r. split; [lia | auto].
      * apply valid_probability_test in Hp.
        specialize (IH (S runner_idx)). cbn zeta in IH.
        destruct (snd (verify_probabilities race_probability rest
                         (S runner_idx))) as [[] | []].
        -- intros [| i] Hi.
           ++ exists p. now rewrite Nat.add_0_r.
           ++ destruct (IH i ltac:(lia)) as (q & Hq & Hv).
              exists q. split; [| exact Hv].
              now replace (runner_idx + S i)%nat with (S runner_idx + i)%nat
                by lia.
        -- destruct IH as (i & q & Hi & Hq & Hinv).
           exists (S i), q. split; [lia |]. split; [| exact Hinv].
           now replace (runner_idx + S i)%nat with (S runner_idx + i)%nat
             by lia.
        -- destruct IH as (i & Hi & Hq & Hall).
           exists (S i). split; [lia |]. split.
           ++ now replace (runner_idx + S i)%nat
                with (S runner_idx + i)%nat by lia.
           ++ intros [| j] Hj.
              ** exists p. now rewrite Nat.add_0_r.
              ** destruct (Hall j ltac:(lia)) as (q & Hq' & Hv).
                 exists q. split; [| exact Hv].
                 now replace (runner_idx + S j)%nat
                   with (S runner_idx + j)%nat by lia.
        -- exact IH.
        -- exact IH.
        -- exact IH.
        -- exact IH.
    + rewrite (index_probability_None _ _ Hidx). cbn.
      exists 0%nat. rewrite Nat.add_0_r. split; [lia |]. split; [exact Hidx |].
      intros j Hj. lia.
Qed.

(** X8. The validation pass of [process_market_book] has three outcomes,
    decided by the vector and the number k of ACTIVE runners in the book's
    list.  It passes exactly when the vector has at least k entries and its
    first k entries are numbers other than zero; it ends in [NameError]
    exactly when one of the first k entries is NaN or zero; it ends in
    [IndexError] exactly when the vector has fewer than k entries, all of
    them valid.  It never sends a command. *)
Theorem verify_probabilities_outcome (race_probability : list float64)
    (runners : list Runner.t) :
  let k := length (active_runners runners) in
  let outcome := snd (verify_probabilities race_probability runners 0) in
  (outcome = Ok tt
   <-> (k <= length race_probability)%nat
       /\ forall i p, (i < k)%nat -> race_probability !! i = Some p ->
                      valid_probability p)
  /\ (outcome = Raise NameError
      <-> exists i p, (i < k)%nat /\ race_probability !! i = Some p
                      /\ invalid_probability p)
  /\ (outcome = Raise IndexError
      <-> (length race_probability < k)%nat
          /\ Forall valid_probability race_probability)
  /\ fst (verify_probabilities race_probability runners 0) = [].
Proof.
  intros k outcome.
  pose proof (verify_probabilities_spec race_probability runners 0) as Hspec.
  cbn zeta in Hspec. fold k outcome in Hspec. cbn [Nat.add] in Hspec.
  split; [| split; [| split; [| apply verify_probabilities_silent]]].
  - split.
    + intros Ho. rewrite Ho in Hspec. split.
      * destruct (Nat.le_gt_cases k (length race_probability)) as [H | H];
          [exact H |].
        destruct (Hspec (length race_probability) H) as (p & Hp & _).
        apply lookup_lt_Some in Hp. lia.
      * intros i p Hi Hp. destruct (Hspec i Hi) as (q & Hq & Hv). congruence.
    + intros [Hk Hall].
      destruct outcome as [[] | []]; try reflexivity; try contradiction.
      * destruct Hspec as (i & p & Hi & Hp & Hinv).
        destruct (valid_invalid p (Hall i p Hi Hp) Hinv).
      * destruct Hspec as (i & Hi & Hnone & _).
        apply lookup_ge_None in Hnone. lia.
  - split.
    + intros Ho. now rewrite Ho in Hspec.
    + intros (i & p & Hi & Hp & Hinv).
      destruct outcome as [[] | []]; try reflexivity; try contradiction.
      * destruct (Hspec i Hi) as (q & Hq & Hv).
        assert (q = p) by congruence. subst q.
        destruct (valid_invalid p Hv Hinv).
      * destruct Hspec as (i' & Hi' & Hnone & Hall).
        apply lookup_ge_None in Hnone. pose proof (lookup_lt_Some _ _ _ Hp).
        destruct (Hall i ltac:(lia)) as (q & Hq & Hv).
        assert (q = p) by congruence. subst q.
        destruct (valid_invalid p Hv Hinv).
  - split.
    + intros Ho. rewrite Ho in Hspec.
      destruct Hspec as (i & Hi & Hnone & Hall).
      apply lookup_ge_None in Hnone. split; [lia |].
      apply Forall_lookup. intros j p Hp.
      pose proof (lookup_lt_Some _ _ _ Hp).
      destruct (Hall j ltac:(lia)) as (q & Hq & Hv). congruence.
    + intros [Hlen Hall].
      destruct outcome as [[] | []]; try reflexivity; try contradiction.
      * destruct (Hspec (length race_probability) Hlen) as (p & Hp & _).
        apply lookup_lt_Some in Hp. lia.
      * destruct Hspec as (i & p & Hi & Hp & Hinv).
        rewrite Forall_lookup in Hall.
        destruct (valid_invalid p (Hall i p Hp) Hinv).
Qed.

(** ** The cache across an update *)

(** X9. Of the strategy's own attributes an update changes the cache only,
    and only by adding the vector of its own market: the stake, the
    staking mode, the trading window, the margin and the four price bounds
    are as before, every market that had a vector keeps it, no other market
    gains one, whatever the outcome of the update; and after an update
    with a market and a book, the market has a vector. *)
Theorem update_preserves_cache (get_nearest_price : float64 -> Q)
    (self : ExampleStrategy.t) (market : option Market.t)
    (market_book : option MarketBook.t) (rng : nat -> list float64) :
  let self' :=
    fst (process_market_book get_nearest_price self market market_book rng) in
  (forall market_id v,
      market_probabilities self !! market_id = Some v ->
      market_probabilities self' !! market_id = Some v)
  /\ (forall market_id,
         market_probabilities self' !! market_id <> None ->
         market_probabilities self !! market_id <> None
         \/ exists m, market = Some m /\ market_book <> None
                      /\ market_id = Market.market_id m)
  /\ (forall m b, market = Some m -> market_book = Some b ->
                  market_probabilities self' !! Market.market_id m <> None)
  /\ (stake self' = stake self
      /\ staking_strategy self' = staking_strategy self
      /\ seconds_to_start self' = seconds_to_start self
      /\ margin self' = margin self
      /\ min_back_price self' = min_back_price self
      /\ max_back_price self' = max_back_price self
      /\ min_lay_price self' = min_lay_price self
      /\ max_lay_price self' = max_lay_price self).
Proof.
  cbn zeta. unfold process_market_book.
  destruct market as [m |], market_book as [b |]; cbn [fst];
    try solve [repeat split; try tauto; try discriminate].
  unfold _generate_probabilities.
  destruct (market_probabilities self !! Market.market_id m) as [v0 |] eqn:E;
    cbn [fst].
  - repeat split; try tauto.
    intros ? ? [= <-] [= <-]. congruence.
  - split; [| split; [| split]].
    + intros market_id v Hv. cbn.
      rewrite lookup_insert_ne; [exact Hv | congruence].
    + intros market_id Hin. cbn in Hin.
      destruct (decide (Market.market_id m = market_id)) as [<- | Hne].
      * right. exists m. repeat split. discriminate.
      * left. now rewrite lookup_insert_ne in Hin.
    + intros ? ? [= <-] [= <-]. cbn. now rewrite lookup_insert_eq.
    + repeat split.
Qed.

(** ** Starting-price orders *)

Lemma place_bsp_bets_ok (get_nearest_price : float64 -> Q)
    (self : ExampleStrategy.t) (market : Market.t) (runner : Runner.t)
    (back_price lay_price : option Q) (runner_probability : float64)
    (trade : Trade.t) :
  Forall (bsp_event_ok self)
    (fst (_place_bsp_bets get_nearest_price self market runner back_price
            lay_price runner_probability trade))
  /\ (length (commands
                (fst (_place_bsp_bets get_nearest_price self market runner
                        back_price lay_price runner_probability trade)))
      <= 2)%nat.
Proof.
  unfold _place_bsp_bets, reciprocal.
  destruct (Nat.eqb _ 0); [split; [constructor | cbn; lia] |].
  destruct back_price as [back |], lay_price as [lay |];
    try (split; [constructor | cbn; lia]).
  cbn -[Qle_bool round2 Qdiv Qmult Qplus Qminus f64_div f64_mul f64_add].
  generalize (get_nearest_price
                (f64_mul (f64_div (Fin 1) runner_probability)
                   (f64_add (Fin 1) (Fin (margin self))))).
  generalize (get_nearest_price
                (f64_div (f64_div (Fin 1) runner_probability)
                   (f64_add (Fin 1) (Fin (margin self))))).
  generalize (round2 (((back + lay) / 2 - 1) * stake self)).
  intros raw tick_lay tick_back.
  assert (Hfloor : (30 <= (if Qltb raw 30 then 30 else raw))%Q).
  { destruct (Qltb raw 30) eqn:E; order_facts; [discriminate | exact E]. }
  destruct (Qle_bool (min_back_price self) tick_back
            && Qle_bool tick_back (max_back_price self)) eqn:Eb;
    destruct (Qle_bool (min_lay_price self) tick_lay
              && Qle_bool tick_lay (max_lay_price self)) eqn:El;
    cbn -[Qle]; (split; [| lia]);
    repeat (apply Forall_cons; split); try apply Forall_nil; try exact I;
    try (apply andb_true_iff in Eb as [Eb1 Eb2];
         apply Qle_bool_iff in Eb1, Eb2);
    try (apply andb_true_iff in El as [El1 El2];
         apply Qle_bool_iff in El1, El2);
    cbn -[Qle]; auto 6.
Qed.

Lemma process_market_book_bsp_trace (get_nearest_price : float64 -> Q)
    (self : ExampleStrategy.t) (market : Market.t)
    (market_book : MarketBook.t) (rng : nat -> list float64) :
  staking_strategy self = "bsp" ->
  let run :=
    process_market_book get_nearest_price self (Some market)
      (Some market_book) rng in
  fst (snd run) = []
  \/ exists (runner : Runner.t) (back_price lay_price : option Q)
            (p : float64) (trade : Trade.t),
      fst (snd run)
      = fst (_place_bsp_bets get_nearest_price (fst run) market runner
               back_price lay_price p trade).
Proof.
  intros Hmode run. subst run.
  rewrite process_market_book_Some. cbn [fst snd].
  pose proof (generate_probabilities_config self market market_book rng)
    as (_ & Hmode' & _). cbn zeta in Hmode'. rewrite Hmode in Hmode'.
  set (race_probability :=
         snd (_generate_probabilities self market market_book rng)).
  destruct (negb _); [now left |].
  destruct (snd (verify_probabilities race_probability
                   (MarketBook.runners market_book) 0))
    as [[] | err] eqn:Hv.
  - rewrite (verify_probabilities_Ok _ _ _ Hv), bind_ret_l.
    rewrite (compare_market_odds_bsp _ _ _ _ _ _ _ Hmode').
    destruct (active_runners (MarketBook.runners market_book))
      as [| runner later]; [now left |].
    destruct (race_probability !! 0%nat) as [p |] eqn:Hidx.
    + rewrite (index_probability_Some _ _ _ Hidx), bind_ret_l.
      right. now eexists _, _, _, _, _.
    + rewrite (index_probability_None _ _ Hidx). now left.
  - rewrite (bind_Raise _ _ err Hv). cbn [fst].
    left. apply verify_probabilities_silent.
Qed.

Lemma bsp_event_ok_config (self self' : ExampleStrategy.t) (e : event) :
  stake self' = stake self ->
  min_back_price self' = min_back_price self ->
  max_back_price self' = max_back_price self ->
  min_lay_price self' = min_lay_price self ->
  max_lay_price self' = max_lay_price self ->
  bsp_event_ok self' e -> bsp_event_ok self e.
Proof.
  intros H1 H2 H3 H4 H5.
  destruct e as [| ? ? [] |]; cbn; now rewrite ?H1, ?H2, ?H3, ?H4, ?H5.
Qed.

(** X10. In 'bsp' mode an update sends at most two commands, and each is a
    limit-on-close order: a BACK order whose liability is the configured
    stake, or a LAY order whose liability is at least 30, at a tick price
    within the bounds of its side.  It never places a plain limit order and
    never replaces one. *)
Theorem bsp_orders (get_nearest_price : float64 -> Q)
    (self : ExampleStrategy.t) (market : Market.t)
    (market_book : MarketBook.t) (rng : nat -> list float64) :
  staking_strategy self = "bsp" ->
  let trace :=
    fst (snd (process_market_book get_nearest_price self (Some market)
                (Some market_book) rng)) in
  Forall (bsp_event_ok self) trace /\ (length (commands trace) <= 2)%nat.
Proof.
  intros Hmode trace. subst trace.
  pose proof (generate_probabilities_config self market market_book rng)
    as (H1 & _ & _ & H3 & H4 & H5 & H6 & _). cbn zeta in *.
  destruct (process_market_book_bsp_trace get_nearest_price self market
              market_book rng Hmode)
    as [-> | (runner & back & lay & p & trade & ->)].
  - split; [constructor | cbn; lia].
  - rewrite process_market_book_Some. cbn [fst].
    destruct (place_bsp_bets_ok get_nearest_price
                (fst (_generate_probabilities self market market_book rng))
                market runner back lay p trade) as [Hok Hlen].
    split; [| exact Hlen].
    eapply Forall_impl; [exact Hok |].
    intros e. now apply bsp_event_ok_config.
Qed.

Lemma bsp_orders_witness :
  staking_strategy Sample.strategy_bsp = "bsp"
  /\ Forall (bsp_event_ok Sample.strategy_bsp)
       [Reciprocal (Fin (1 # 4)); Reciprocal (Fin (1 # 4));
        PlaceOrder (Trade.Trade "1.171755571" 101 0) "BACK"
          (LimitOnCloseOrder 10 2);
        PlaceOrder (Trade.Trade "1.171755571" 101 0) "LAY"
          (LimitOnCloseOrder (3100 # 100) 2)].
Proof.
  split; [reflexivity |].
  exact (proj1 (bsp_orders Sample.get_nearest_price Sample.strategy_bsp
                  Sample.market Sample.book Sample.rng eq_refl)).
Defined.

(** ** Settlement, continued *)




Lemma settle_order_unsettled (runner_status : string) (order : Order.t)
    (pnl : Q * Q) :
  runner_status <> "WINNER" -> runner_status <> "LOSER" ->
  settle_order runner_status order pnl = pnl.
Proof.
  intros Hw Hl. apply String.eqb_neq in Hw, Hl.
  unfold settle_order. destruct pnl. now rewrite Hw, Hl.
Qed.

(** X13. Only winners and losers settle: if no runner of the closing book
    has status WINNER or LOSER (a voided market, say), the ledger is zero
    throughout, whatever orders the strategy holds and whatever the base
    rate. *)
Theorem unsettled_market_zero (self : ExampleStrategy.t) (market : Market.t)
    (market_book : MarketBook.t) :
  Forall (fun runner => Runner.status runner <> "WINNER"
                        /\ Runner.status runner <> "LOSER")
    (MarketBook.runners market_book) ->
  process_closed_market self market market_book
  = Ok (Ledger.mk 0 0 (0 + 0) 0).
Proof.
  intros Hall.
  assert (Hzero : settle_runners market (MarketBook.runners market_book)
                  = (0, 0)%Q).
  { unfold settle_runners. generalize (0, 0)%Q as pnl.
    induction Hall as [| runner rest [Hw Hl] _ IH]; intros pnl;
      [reflexivity |].
    cbn [fold_left]. rewrite <- (IH pnl) at 2. f_equal.
    unfold settle_runner.
    induction (strategy_selection_orders _ _ _) as [| order orders IHo]
      in pnl |- *; [reflexivity |].
    cbn [fold_left]. now rewrite settle_order_unsettled, IHo. }
  unfold process_closed_market. now rewrite Hzero.
Qed.

Lemma unsettled_market_zero_witness :
  Forall (fun runner => Runner.status runner <> "WINNER"
                        /\ Runner.status runner <> "LOSER")
    (MarketBook.runners Sample.book)
  /\ process_closed_market (Sample.strategy "take" 0) Sample.market_closed
       Sample.book
     = Ok (Ledger.mk 0 0 (0 + 0) 0).
Proof.
  assert (H : Forall (fun runner => Runner.status runner <> "WINNER"
                                    /\ Runner.status runner <> "LOSER")
                (MarketBook.runners Sample.book))
    by (repeat constructor; discriminate).
  exact (conj H (unsettled_market_zero (Sample.strategy "take" 0)
                   Sample.market_closed Sample.book H)).
Defined.

Lemma settle_order_unmatched (runner_status : string) (order : Order.t)
    (back lay : Q) :
  (Order.size_matched order == 0)%Q -> (back == 0)%Q -> (lay == 0)%Q ->
  (fst (settle_order runner_status order (back, lay)) == 0)%Q
  /\ (snd (settle_order runner_status order (back, lay)) == 0)%Q.
Proof.
  intros Hs Hb Hl. unfold settle_order.
  destruct (String.eqb runner_status "WINNER"),
    (String.eqb runner_status "LOSER"),
    (String.eqb (Order.side order) "BACK"),
    (String.eqb (Order.side order) "LAY");
    cbn [fst snd]; rewrite ?Hs, ?Hb, ?Hl; split; ring.
Qed.

(** X14. Unmatched orders settle at nothing: if no order in the blotter has
    any size matched, the back PnL, the lay PnL and the net PnL are zero,
    no commission is charged, and the call succeeds whatever the base rate
    and the runners' statuses. *)
Theorem unmatched_orders_zero (self : ExampleStrategy.t) (market : Market.t)
    (market_book : MarketBook.t) :
  Forall (fun order => (Order.size_matched order == 0)%Q)
    (Market.blotter market) ->
  exists ledger,
    process_closed_market self market market_book = Ok ledger
    /\ (Ledger.market_back_pnl ledger == 0)%Q
    /\ (Ledger.market_lay_pnl ledger == 0)%Q
    /\ (Ledger.market_pnl ledger == 0)%Q
    /\ Ledger.market_commission ledger = 0%Q.
Proof.
  intros Hall.
  assert (Hzero :
            forall runners pnl,
              (fst pnl == 0)%Q /\ (snd pnl == 0)%Q ->
              (fst (fold_left (settle_runner market) runners pnl) == 0)%Q
              /\ (snd (fold_left (settle_runner market) runners pnl) == 0)%Q).
  { induction runners as [| runner rest IH]; intros pnl Hpnl;
      [exact Hpnl |].
    cbn [fold_left]. apply IH. unfold settle_runner.
    assert (Horders :
              Forall (fun order => (Order.size_matched order == 0)%Q)
                (strategy_selection_orders (Market.blotter market)
                   (Runner.selection_id runner) (Runner.handicap runner))).
    { unfold strategy_selection_orders. rewrite List.Forall_forall in *.
      intros order Hin. apply List.filter_In in Hin as [Hin _]. auto. }
    revert pnl Hpnl.
    induction Horders as [| order orders Ho _ IHo]; intros [back lay] Hpnl;
      [exact Hpnl |].
    cbn [fold_left]. apply IHo.
    destruct Hpnl as [Hb Hl]. cbn in Hb, Hl.
    destruct (settle_order (Runner.status runner) order (back, lay))
      as [back' lay'] eqn:E.
    pose proof (settle_order_unmatched (Runner.status runner) order back lay
                  Ho Hb Hl) as H.
    now rewrite E in H. }
  unfold process_closed_market, settle_runners.
  specialize (Hzero (MarketBook.runners market_book) (0, 0)%Q
                (conj (Qeq_refl 0) (Qeq_refl 0))).
  destruct (fold_left (settle_runner market)
              (MarketBook.runners market_book) (0, 0)%Q) as [back lay].
  cbn [fst snd] in Hzero. destruct Hzero as [Hb Hl].
  assert (Hnot : Qgtb (back + lay) 0 = false).
  { apply Qgtb_le. rewrite Hb, Hl. discriminate. }
  rewrite Hnot. eexists. split; [reflexivity |]. cbn.
  repeat split; try assumption. rewrite Hb, Hl. reflexivity.
Qed.

Lemma unmatched_orders_zero_witness :
  Forall (fun order => (Order.size_matched order == 0)%Q)
    (Market.blotter Sample.market_resting)
  /\ exists ledger,
      process_closed_market (Sample.strategy "take" 0) Sample.market_resting
        (Sample.book_closed (RateStr "five")) = Ok ledger
      /\ (Ledger.market_back_pnl ledger == 0)%Q
      /\ (Ledger.market_lay_pnl ledger == 0)%Q
      /\ (Ledger.market_pnl ledger == 0)%Q
      /\ Ledger.market_commission ledger = 0%Q.
Proof.
  assert (H : Forall (fun order => (Order.size_matched order == 0)%Q)
                (Market.blotter Sample.market_resting))
    by (repeat constructor).
  exact (conj H (unmatched_orders_zero (Sample.strategy "take" 0)
                   Sample.market_resting
                   (Sample.book_closed (RateStr "five")) H)).
Defined.

(** ** The market-definition filter, continued *)

(** The first item that is missing or different decides [apply_filters]. *)
Lemma apply_filters_spec (market_definition : gmap string pyval)
    (items : list (string * pyval)) :
  match apply_filters market_definition items with
  | Ok false => Forall (filter_matches market_definition) items
  | Ok true =>
      exists k v x, In (k, v) items
                    /\ market_definition !! k = Some x
                    /\ py_ne x v = true
  | Raise KeyError =>
      exists k v, In (k, v) items /\ market_definition !! k = None
  | Raise _ => False
  end.
Proof.
  induction items as [| [k v] rest IH]; cbn [apply_filters];
    [constructor |].
  destruct (market_definition !! k) as [x |] eqn:Hk.
  - destruct (py_ne x v) eqn:Hne.
    + exists k, v, x. split; [now left | auto].
    + destruct (apply_filters market_definition rest) as [[] | []];
        try contradiction.
      * destruct IH as (k' & v' & x' & Hin & H). exists k', v', x'.
        split; [now right | exact H].
      * constructor; [| exact IH]. exists x. auto.
      * destruct IH as (k' & v' & Hin & H). exists k', v'.
        split; [now right | exact H].
  - exists k, v. split; [now left | exact Hk].
Qed.

(** X15. For a readable market file whose name is a string without "Trot"
    or "Pace" and a non-empty filter mapping: the file is kept (False)
    exactly when every filter key is present in the market definition with
    an equal value; the function raises only [KeyError], and only when some
    filter key is absent from the definition; and when every filter key is
    present the file is filtered out (True) exactly when some value
    differs. *)
Theorem filter_verdict
    (read_market_definition : string -> result (gmap string pyval))
    (market_file : string)
    (market_definition_filters : list (string * pyval))
    (market_definition : gmap string pyval) (name : string) :
  market_definition_filters <> [] ->
  read_market_definition market_file = Ok market_definition ->
  market_definition !! "name" = Some (PStr name) ->
  contains "Trot" name = false -> contains "Pace" name = false ->
  let verdict :=
    _filter_market_file read_market_definition market_file
      market_definition_filters in
  (verdict = Ok false
   <-> Forall (filter_matches market_definition) market_definition_filters)
  /\ (forall e, verdict = Raise e ->
                e = KeyError
                /\ exists k v, In (k, v) market_definition_filters
                               /\ market_definition !! k = None)
  /\ ((forall k v, In (k, v) market_definition_filters ->
                   market_definition !! k <> None) ->
      verdict = Ok true
      <-> Exists (fun item => ~ filter_matches market_definition item)
            market_definition_filters).
Proof.
  intros Hne Hread Hname Htrot Hpace verdict.
  assert (Hverdict :
            verdict = apply_filters market_definition
                        market_definition_filters).
  { unfold verdict, _filter_market_file.
    destruct market_definition_filters; [congruence |].
    now rewrite Hread, Hname, Htrot, Hpace. }
  rewrite Hverdict.
  pose proof (apply_filters_spec market_definition market_definition_filters)
    as Hspec.
  assert (Hdiff : forall k v x,
             In (k, v) market_definition_filters ->
             market_definition !! k = Some x -> py_ne x v = true ->
             Forall (filter_matches market_definition)
               market_definition_filters -> False).
  { intros k v x Hin Hk Hx Hall. rewrite List.Forall_forall in Hall.
    destruct (Hall _ Hin) as (y & Hy & Hy'). cbn in Hy, Hy'. congruence. }
  assert (Hmiss : forall k v,
             In (k, v) market_definition_filters ->
             market_definition !! k = None ->
             Forall (filter_matches market_definition)
               market_definition_filters -> False).
  { intros k v Hin Hk Hall. rewrite List.Forall_forall in Hall.
    destruct (Hall _ Hin) as (y & Hy & _). cbn in Hy. congruence. }
  split; [| split].
  - split.
    + intros H. now rewrite H in Hspec.
    + intros Hall.
      destruct (apply_filters _ _) as [[] | []]; try contradiction;
        try reflexivity.
      * destruct Hspec as (k & v & x & Hin & Hk & Hx).
        destruct (Hdiff k v x Hin Hk Hx Hall).
      * destruct Hspec as (k & v & Hin & Hk).
        destruct (Hmiss k v Hin Hk Hall).
  - intros e He. rewrite He in Hspec.
    destruct e; try contradiction. auto.
  - intros Hkeys. split.
    + intros H. rewrite H in Hspec.
      destruct Hspec as (k & v & x & Hin & Hk & Hx).
      apply List.Exists_exists. exists (k, v). split; [exact Hin |].
      intros (y & Hy & Hy'). cbn in Hy, Hy'. congruence.
    + intros Hex.
      destruct (apply_filters _ _) as [[] | []]; try contradiction;
        try reflexivity.
      * apply List.Exists_exists in Hex as (item & Hin & Hno).
        rewrite List.Forall_forall in Hspec. destruct (Hno (Hspec _ Hin)).
      * destruct Hspec as (k & v & Hin & Hk).
        destruct (Hkeys k v Hin Hk).
Qed.

Lemma filter_verdict_witness :
  ([("marketType", PStr "WIN"); ("bettingType", PStr "ODDS")] <> []
   /\ contains "Trot" "R7 1200m Hcap" = false
   /\ contains "Pace" "R7 1200m Hcap" = false)
  /\ Forall (filter_matches Sample.flat_definition)
       [("marketType", PStr "WIN"); ("bettingType", PStr "ODDS")]
  /\ _filter_market_file Sample.read_flat "1.171755571"
       [("marketType", PStr "WIN"); ("bettingType", PStr "ODDS")]
     = Ok false.
Proof.
  assert (Hne : [("marketType", PStr "WIN"); ("bettingType", PStr "ODDS")]
                <> []) by discriminate.
  assert (Hall : Forall (filter_matches Sample.flat_definition)
                   [("marketType", PStr "WIN");
                    ("bettingType", PStr "ODDS")]).
  { repeat constructor; eexists; split; reflexivity. }
  refine (conj (conj Hne (conj eq_refl eq_refl)) (conj Hall _)).
  exact (proj2 (proj1 (filter_verdict Sample.read_flat "1.171755571"
                         [("marketType", PStr "WIN");
                          ("bettingType", PStr "ODDS")]
                         Sample.flat_definition "R7 1200m Hcap" Hne eq_refl
                         eq_refl eq_refl eq_refl)) Hall).
Defined.

Lemma apply_filters_permutation (market_definition : gmap string pyval)
    (items items' : list (string * pyval)) :
  Permutation items items' ->
  (forall k v, In (k, v) items -> market_definition !! k <> None) ->
  apply_filters market_definition items
  = apply_filters market_definition items'.
Proof.
  intros Hperm Hkeys.
  assert (Hkeys' : forall k v, In (k, v) items' ->
                               market_definition !! k <> None).
  { intros k v Hin. apply (Hkeys k v).
    now apply (Permutation_in _ (Permutation_sym Hperm)). }
  pose proof (apply_filters_spec market_definition items) as H.
  pose proof (apply_filters_spec market_definition items') as H'.
  assert (Hclash : forall l l', Permutation l l' ->
             Forall (filter_matches market_definition) l ->
             (exists k v x, In (k, v) l' /\ market_definition !! k = Some x
                            /\ py_ne x v = true) -> False).
  { intros l l' Hp Hall (k & v & x & Hin & Hk & Hx).
    apply (Permutation_in _ (Permutation_sym Hp)) in Hin.
    rewrite List.Forall_forall in Hall.
    destruct (Hall _ Hin) as (y & Hy & Hy'). cbn in Hy, Hy'. congruence. }
  destruct (apply_filters market_definition items) as [[] | []],
    (apply_filters market_definition items') as [[] | []];
    try contradiction; try reflexivity;
    try (destruct H as (k & v & Hin & Hk); destruct (Hkeys k v Hin Hk));
    try (destruct H' as (k & v & Hin & Hk); destruct (Hkeys' k v Hin Hk)).
  - destruct (Hclash items' items (Permutation_sym Hperm) H' H).
  - destruct (Hclash items items' Hperm H H').
Qed.

(** X16. When every filter key is present in the market definition, the
    verdict on a file does not depend on the order of the filter mapping:
    two mappings with the same items in different orders filter the same
    files. *)
Theorem filter_order_irrelevant
    (read_market_definition : string -> result (gmap string pyval))
    (market_file : string)
    (market_definition_filters filters' : list (string * pyval))
    (market_definition : gmap string pyval) :
  Permutation market_definition_filters filters' ->
  read_market_definition market_file = Ok market_definition ->
  (forall k v, In (k, v) market_definition_filters ->
               market_definition !! k <> None) ->
  _filter_market_file read_market_definition market_file
    market_definition_filters
  = _filter_market_file read_market_definition market_file filters'.
Proof.
  intros Hperm Hread Hkeys. unfold _filter_market_file. rewrite Hread.
  destruct market_definition_filters as [| item rest].
  - apply Permutation_nil in Hperm. now subst.
  - destruct filters' as [| item' rest'].
    + apply Permutation_sym, Permutation_nil in Hperm. discriminate.
    + destruct (market_definition !! "name") as [[| | | name] |];
        try reflexivity.
      destruct (contains "Trot" name || contains "Pace" name);
        [reflexivity |].
      now apply apply_filters_permutation.
Qed.

Lemma filter_order_irrelevant_witness :
  (Permutation [("marketType", PStr "PLACE"); ("bettingType", PStr "ODDS")]
     [("bettingType", PStr "ODDS"); ("marketType", PStr "PLACE")]
   /\ forall k v,
       In (k, v) [("marketType", PStr "PLACE"); ("bettingType", PStr "ODDS")]
       -> Sample.flat_definition !! k <> None)
  /\ _filter_market_file Sample.read_flat "1.171755571"
       [("marketType", PStr "PLACE"); ("bettingType", PStr "ODDS")]
     = _filter_market_file Sample.read_flat "1.171755571"
         [("bettingType", PStr "ODDS"); ("marketType", PStr "PLACE")].
Proof.
  assert (Hperm : Permutation
                    [("marketType", PStr "PLACE");
                     ("bettingType", PStr "ODDS")]
                    [("bettingType", PStr "ODDS");
                     ("marketType", PStr "PLACE")])
    by apply perm_swap.
  assert (Hkeys : forall k v,
             In (k, v) [("marketType", PStr "PLACE");
                        ("bettingType", PStr "ODDS")]
             -> Sample.flat_definition !! k <> None).
  { intros k v [[= <- <-] | [[= <- <-] | []]]; discriminate. }
  exact (conj (conj Hperm Hkeys)
           (filter_order_irrelevant Sample.read_flat "1.171755571" _ _
              Sample.flat_definition Hperm eq_refl Hkeys)).
Defined.

(** ** Start-up *)

(** X17. [add] empties the probability cache: whatever vectors the strategy
    held, the first update of a market after [add] draws a fresh vector
    from the generator, and the cache then holds that market alone. *)
Theorem add_resets_cache (get_nearest_price : float64 -> Q)
    (self : ExampleStrategy.t) (context : gmap string Q)
    (market : Market.t) (market_book : MarketBook.t)
    (rng : nat -> list float64) :
  let fresh := rng (MarketBook.number_of_active_runners market_book) in
  snd (_generate_probabilities (add self context) market market_book rng)
  = fresh
  /\ market_probabilities
       (fst (process_market_book get_nearest_price (add self context)
               (Some market) (Some market_book) rng))
     = {[ Market.market_id market := fresh ]}.
Proof.
  cbn zeta. rewrite process_market_book_Some. cbn [fst].
  unfold _generate_probabilities. cbn [add market_probabilities].
  rewrite lookup_empty. cbn. split; [reflexivity |].
  apply insert_empty.
Qed.

(** X18. With no price bound in the context, [add] installs the bounds 1
    and 150 on both sides: in mode 'take' or 'offer' every limit order the
    strategy then places, and every replacement price, lies between 1 and
    150. *)
Theorem default_bounds (get_nearest_price : float64 -> Q)
    (self : ExampleStrategy.t) (context : gmap string Q)
    (market : option Market.t) (market_book : option MarketBook.t)
    (rng : nat -> list float64) :
  staking_strategy self = "take" \/ staking_strategy self = "offer" ->
  context !! "min_back_price" = None -> context !! "max_back_price" = None ->
  context !! "min_lay_price" = None -> context !! "max_lay_price" = None ->
  let trace :=
    fst (snd (process_market_book get_nearest_price (add self context)
                market market_book rng)) in
  (forall trade side price size,
      In (PlaceOrder trade side (LimitOrder price size)) trace ->
      (1 <= price)%Q /\ (price <= 150)%Q)
  /\ (forall order price,
         In (ReplaceOrder order price) trace ->
         (1 <= price)%Q /\ (price <= 150)%Q).
Proof.
  intros Hmode H1 H2 H3 H4 trace.
  assert (Hall : Forall (within_bounds (add self context)) trace).
  { subst trace.
    destruct market as [market |], market_book as [market_book |];
      try constructor.
    rewrite process_market_book_Some. cbn [fst snd].
    pose proof (generate_probabilities_config (add self context) market
                  market_book rng)
      as (G1 & G2 & _ & G3 & G4 & G5 & G6 & _). cbn zeta in *.
    eapply Forall_impl;
      [| intros e;
         apply (within_bounds_config (add self context)
                  (fst (_generate_probabilities (add self context) market
                          market_book rng))); assumption].
    repeat trace_step.
    - rewrite verify_probabilities_silent. constructor.
    - apply compare_market_odds_within_bounds. rewrite G2. cbn.
      destruct Hmode as [-> | ->]; discriminate. }
  rewrite List.Forall_forall in Hall.
  assert (Hside : forall side price,
             side_bounds (add self context) side price ->
             (1 <= price)%Q /\ (price <= 150)%Q).
  { unfold side_bounds. cbn. rewrite H1, H2, H3, H4. cbn. tauto. }
  split.
  - intros trade side price size Hin. destruct (Hall _ Hin) as [_ Hb].
    now apply (Hside side).
  - intros order price Hin. apply (Hside (Order.side order)).
    exact (Hall _ Hin).
Qed.

Lemma default_bounds_witness :
  ((staking_strategy (Sample.strategy "take" 0) = "take"
    \/ staking_strategy (Sample.strategy "take" 0) = "offer")
   /\ ({[ "margin" := (2 # 10)%Q ]} : gmap string Q) !! "min_back_price"
      = None)
  /\ In (PlaceOrder (Trade.Trade "1.171755571" 101 0) "BACK"
           (LimitOrder 4 10))
       (fst (snd (process_market_book Sample.get_nearest_price
                    (add (Sample.strategy "take" 0)
                       {[ "margin" := (2 # 10)%Q ]})
                    (Some Sample.market) (Some Sample.book) Sample.rng)))
  /\ (1 <= 4)%Q /\ (4 <= 150)%Q.
Proof.
  assert (Hin : In (PlaceOrder (Trade.Trade "1.171755571" 101 0) "BACK"
                      (LimitOrder 4 10))
                  (fst (snd (process_market_book Sample.get_nearest_price
                               (add (Sample.strategy "take" 0)
                                  {[ "margin" := (2 # 10)%Q ]})
                               (Some Sample.market) (Some Sample.book)
                               Sample.rng))))
    by (vm_compute; auto).
  refine (conj (conj (or_introl eq_refl) eq_refl) (conj Hin _)).
  exact (proj1 (default_bounds Sample.get_nearest_price
                  (Sample.strategy "take" 0) {[ "margin" := (2 # 10)%Q ]}
                  (Some Sample.market) (Some Sample.book) Sample.rng
                  (or_introl eq_refl) eq_refl eq_refl eq_refl eq_refl)
           (Trade.Trade "1.171755571" 101 0) "BACK" 4%Q 10%Q Hin).
Defined.

(** * Properties of the historical files parser *)

(** ** Paths *)

Lemma append_assoc (a b c : string) :
  String.append (String.append a b) c = String.append a (String.append b c).
Proof.
  induction a as [| x a IH]; [reflexivity |].
  rewrite !append_cons. now rewrite IH.
Qed.

Lemma length_append (a b : string) :
  String.length (String.append a b) = String.length a + String.length b.
Proof.
  induction a as [| x a IH]; [reflexivity |].
  rewrite append_cons. cbn [String.length]. now rewrite IH.
Qed.

Lemma substring_append (a b : string) :
  substring 0 (String.length a) (String.append a b) = a.
Proof.
  induction a as [| x a IH].
  - now destruct b.
  - rewrite append_cons. cbn [String.length substring]. now rewrite IH.
Qed.

(** [s.endswith(suffix)] is the suffix test. *)
Lemma endswith_suffix (s suffix : string) :
  endswith s suffix = true <-> exists pre, s = String.append pre suffix.
Proof.
  induction s as [| x s IH]; cbn [endswith];
    rewrite orb_true_iff, String.eqb_eq.
  - split.
    + intros [<- | [=]]. now exists EmptyString.
    + intros ([| ? ?] & H); [now left |].
      rewrite append_cons in H. discriminate.
  - rewrite IH. split.
    + intros [<- | (pre & ->)]; [now exists EmptyString |].
      exists (String x pre). now rewrite append_cons.
    + intros ([| y pre] & H); [now left | right].
      rewrite append_cons in H. injection H as _ H. now exists pre.
Qed.

(** Dropping the last four characters undoes appending ".bz2". *)
Lemma drop_last4_append (s : string) :
  drop_last4 (String.append s ".bz2") = s.
Proof.
  unfold drop_last4. rewrite length_append. cbn [String.length].
  replace (String.length s + 4 - 4) with (String.length s) by lia.
  apply substring_append.
Qed.

(** A joined path ends with its second component. *)
Lemma path_join_suffix (a b : string) :
  exists pre, path_join a b = String.append pre b.
Proof.
  unfold path_join.
  destruct (String.prefix "/" b); [now exists EmptyString |].
  destruct (String.eqb a "" || endswith a "/").
  - now exists a.
  - exists (String.append a "/"). now rewrite append_assoc.
Qed.

(** Line 37's assumption holds for every name that passed line 34: the
    joined path is the market file followed by ".bz2". *)
Lemma market_file_compressed (event_path name : string) :
  endswith name ".bz2" = true ->
  path_join event_path name
  = String.append (drop_last4 (path_join event_path name)) ".bz2".
Proof.
  intros H. apply endswith_suffix in H as (stem & ->).
  destruct (path_join_suffix event_path (String.append stem ".bz2"))
    as (pre & ->).
  rewrite <- append_assoc. now rewrite drop_last4_append.
Qed.

(** ** Directory names *)

Lemma insert_sorted_In (x y : string) (l : list string) :
  In y (insert_sorted x l) <-> y = x \/ In y l.
Proof.
  induction l as [| z l IH]; cbn [insert_sorted].
  - cbn. intuition.
  - destruct (String.leb x z); cbn [In]; [intuition |].
    rewrite IH. intuition.
Qed.

Lemma py_sorted_In (y : string) (l : list string) :
  In y (py_sorted l) <-> In y l.
Proof.
  induction l as [| x l IH]; [reflexivity |].
  unfold py_sorted in *. cbn [fold_right In].
  rewrite insert_sorted_In, IH. intuition.
Qed.

Lemma restrict_selected (names : list string)
    (include : option (list string)) (name : string) :
  In name (py_sorted (restrict names include)) ->
  In name names /\ selected include name.
Proof.
  rewrite py_sorted_In.
  destruct include as [[| x include] |]; cbn [restrict selected]; auto.
  intros H%list_elem_of_In%elem_of_remove_dups%list_elem_of_In%filter_In.
  destruct H as [H1 H2%bool_decide_eq_true%list_elem_of_In]. auto.
Qed.

(** ** Runs *)

Lemma replay_app {fs : Type} (os : OS.t fs) (st st' st'' : fs)
    (tr tr' : list fs_event) :
  replay os st tr = Some st' -> replay os st' tr' = Some st'' ->
  replay os st (tr ++ tr')%list = Some st''.
Proof.
  revert st. induction tr as [| [c t | p] tr IH]; intros st; cbn.
  - now intros [= ->].
  - destruct (OS.isfile os st t); [discriminate |].
    destruct (OS.decompress os st c t); [apply IH | discriminate].
  - destruct (OS.isfile os st p); [| discriminate].
    destruct (OS.remove os st p); [apply IH | discriminate].
Qed.

Section Runs.
Context {fs : Type} (os : OS.t fs).
Variable market_definition_filters : list (string * pyval).
Variable delete_files : bool.

Local Abbreviation R := (walk_effects os market_definition_filters delete_files).

Lemma walk_effects_nil (st : fs) : R st [] st.
Proof. split; [constructor | reflexivity]. Qed.

Lemma walk_effects_app (st st' st'' : fs) (tr tr' : list fs_event) :
  R st tr st' -> R st' tr' st'' -> R st (tr ++ tr')%list st''.
Proof.
  intros [H1 H2] [H3 H4]. split.
  - apply Forall_app. now split.
  - now apply replay_app with st'.
Qed.

Lemma run_sat_ret {A : Type} (Q : A -> Prop) (a : A) (st : fs) :
  Q a -> run_sat R Q (mret a) st.
Proof.
  intros H. split; [apply walk_effects_nil |].
  now intros ? [= <-].
Qed.

Lemma run_sat_bind {A B : Type} (P : A -> Prop) (Q : B -> Prop)
    (m : F A) (f : A -> F B) (st : fs) :
  run_sat R P m st ->
  (forall a st1, P a -> run_sat R Q (f a) st1) ->
  run_sat R Q (m ≫= f) st.
Proof.
  unfold run_sat, mbind, F_MBind, F_bind.
  destruct (m st) as [[tr st'] [a |]]; cbn [fst snd]; intros [HR HP] Hf.
  - specialize (Hf a st' (HP a eq_refl)).
    destruct (f a st') as [[tr' st''] r]. cbn [fst snd] in *.
    destruct Hf as [HR' HQ]. split; [| exact HQ].
    now apply walk_effects_app with st'.
  - split; [exact HR | discriminate].
Qed.

Lemma run_sat_for_each {A B : Type} (Q : B -> Prop) (l : list A)
    (body : A -> B -> F B) :
  (forall x acc st, In x l -> Q acc -> run_sat R Q (body x acc) st) ->
  forall acc st, Q acc -> run_sat R Q (for_each l body acc) st.
Proof.
  induction l as [| x l IH]; intros Hbody acc st Hacc; cbn [for_each].
  - now apply run_sat_ret.
  - apply run_sat_bind with Q.
    + apply Hbody; [now left | exact Hacc].
    + intros acc' st1 Hacc'. apply IH; [| exact Hacc'].
      intros y acc'' st2 Hy. apply Hbody. now right.
Qed.

(** A listing of directories performs no effect. *)
Lemma run_sat_list_dirs (path : string) (st : fs) :
  run_sat R (fun _ => True) (list_dirs os path) st.
Proof. split; [apply walk_effects_nil | auto]. Qed.

(** [os.path.isfile] reads the state and changes nothing. *)
Lemma run_sat_isfile {A : Type} (Q : A -> Prop) (path : string)
    (f : bool -> F A) (st : fs) :
  run_sat R Q (f (OS.isfile os st path)) st ->
  run_sat R Q (isfile os path ≫= f) st.
Proof.
  unfold run_sat, mbind, F_MBind, F_bind, isfile.
  now destruct (f (OS.isfile os st path) st) as [[tr st'] r].
Qed.

(** Lines 40-44: the archive is decompressed next to itself, and only when
    the target is not a file. *)
Lemma run_sat_decompress (market_file : string) (st : fs) :
  run_sat R (fun _ => True)
    (if negb (OS.isfile os st market_file)
     then decompress os (String.append market_file ".bz2") market_file
     else mret ()) st.
Proof.
  destruct (OS.isfile os st market_file) eqn:Hfile; cbn [negb].
  - now apply run_sat_ret.
  - unfold run_sat, decompress, walk_effects.
    destruct (OS.decompress os st _ market_file) as [st' |] eqn:Hd;
      cbn [fst snd replay]; rewrite ?Hfile, ?Hd;
      (split; [split |]; auto); now repeat constructor.
Qed.

(** Lines 50-53: a path is removed only when it is a file. *)
Lemma run_sat_remove (path : string) (st : fs) :
  effect_ok os market_definition_filters delete_files (Remove path) ->
  run_sat R (fun _ => True)
    (present ← isfile os path;
     if (present : bool) then remove os path else mret ()) st.
Proof.
  intros Hok. apply run_sat_isfile.
  destruct (OS.isfile os st path) eqn:Hfile.
  - unfold run_sat, remove, walk_effects.
    destruct (OS.remove os st path) as [st' |] eqn:Hr;
      cbn [fst snd replay]; rewrite ?Hfile, ?Hr;
      (split; [split |]; auto); now repeat constructor.
  - now apply run_sat_ret.
Qed.

(** Line 47: the verdict is [_filter_market_file]'s, in the current
    state. *)
Lemma run_sat_filter (market_file : string) (st : fs) :
  run_sat R
    (fun filtered : bool =>
       if filtered then rejected os market_definition_filters market_file
       else kept os market_definition_filters market_file)
    (filter_market_file os market_file market_definition_filters) st.
Proof.
  split; [apply walk_effects_nil |].
  unfold filter_market_file. cbn [snd].
  intros [|] H; now exists st.
Qed.
End Runs.

(** Lines 35-56. *)
Lemma parse_market_file_sat {fs : Type} (os : OS.t fs)
    (market_definition_filters : list (string * pyval))
    (delete_files : bool) (G : string -> Prop) (event_path name : string)
    (files : list string) (st : fs) :
  endswith name ".bz2" = true ->
  G (drop_last4 (path_join event_path name)) ->
  walk_files os market_definition_filters G files ->
  run_sat (walk_effects os market_definition_filters delete_files)
    (walk_files os market_definition_filters G)
    (parse_market_file os market_definition_filters delete_files event_path
       name files) st.
Proof.
  intros Hname HG [HQ1 HQ2].
  pose proof (market_file_compressed event_path name Hname) as Hc.
  unfold parse_market_file.
  set (market_file := drop_last4 (path_join event_path name)) in *.
  rewrite Hc.
  apply run_sat_isfile.
  apply run_sat_bind with (fun _ => True);
    [apply run_sat_decompress | intros _ st1 _].
  eapply run_sat_bind; [apply run_sat_filter | intros [|] st2 Hverdict].
  - apply run_sat_bind with (fun _ => True).
    + destruct delete_files; [| now apply run_sat_ret].
      apply run_sat_bind with (fun _ => True).
      * apply run_sat_remove. split; [reflexivity |].
        exists market_file. auto.
      * intros _ st3 _. apply run_sat_remove. split; [reflexivity |].
        exists market_file. auto.
    + intros _ st3 _. apply run_sat_ret. now split.
  - apply run_sat_ret. split; apply Forall_app; split; auto.
Qed.

Section Levels.
Context {fs : Type} (os : OS.t fs).
Variable market_definition_filters : list (string * pyval).
Variable delete_files : bool.
Variable G : string -> Prop.

Local Abbreviation R := (walk_effects os market_definition_filters delete_files).
Local Abbreviation Q := (walk_files os market_definition_filters G).

(** Lines 32-56. *)
Lemma parse_event_sat (day_path event_id : string) (files : list string)
    (st : fs) :
  (forall name,
     endswith name ".bz2" = true ->
     G (drop_last4 (path_join (path_join day_path event_id) name))) ->
  Q files ->
  run_sat R Q
    (parse_event os market_definition_filters delete_files day_path event_id
       files) st.
Proof.
  intros HG HQ. unfold parse_event.
  apply run_sat_bind with (fun _ => True).
  - split; [apply walk_effects_nil | auto].
  - intros names st1 _. apply run_sat_for_each; [| exact HQ].
    intros name acc st2 [_ Hname]%filter_In Hacc.
    apply parse_market_file_sat; auto.
Qed.

(** Lines 29-56. *)
Lemma parse_day_sat (month_path day : string) (files : list string)
    (st : fs) :
  (forall event_id name,
     endswith name ".bz2" = true ->
     G (drop_last4
          (path_join (path_join (path_join month_path day) event_id)
             name))) ->
  Q files ->
  run_sat R Q
    (parse_day os market_definition_filters delete_files month_path day
       files) st.
Proof.
  intros HG HQ. unfold parse_day.
  apply run_sat_bind with (fun _ => True); [apply run_sat_list_dirs |].
  intros event_ids st1 _. apply run_sat_for_each; [| exact HQ].
  intros event_id acc st2 _ Hacc. apply parse_event_sat; auto.
Qed.

(** Lines 24-56. *)
Lemma parse_month_sat (include_days : option (list string))
    (year_path month : string) (files : list string) (st : fs) :
  (forall day event_id name,
     selected include_days day ->
     endswith name ".bz2" = true ->
     G (drop_last4
          (path_join
             (path_join (path_join (path_join year_path month) day)
                event_id)
             name))) ->
  Q files ->
  run_sat R Q
    (parse_month os market_definition_filters include_days delete_files
       year_path month files) st.
Proof.
  intros HG HQ. unfold parse_month.
  apply run_sat_bind with (fun _ => True); [apply run_sat_list_dirs |].
  intros days st1 _. apply run_sat_for_each; [| exact HQ].
  intros day acc st2 [_ Hday]%restrict_selected Hacc.
  apply parse_day_sat; auto.
Qed.

(** Lines 19-56. *)
Lemma parse_year_sat (include_months include_days : option (list string))
    (data_path year : string) (files : list string) (st : fs) :
  (forall month day event_id name,
     selected include_months month ->
     selected include_days day ->
     endswith name ".bz2" = true ->
     G (drop_last4
          (path_join
             (path_join
                (path_join (path_join (path_join data_path year) month) day)
                event_id)
             name))) ->
  Q files ->
  run_sat R Q
    (parse_year os market_definition_filters include_months include_days
       delete_files data_path year files) st.
Proof.
  intros HG HQ. unfold parse_year.
  apply run_sat_bind with (fun _ => True); [apply run_sat_list_dirs |].
  intros months st1 _. apply run_sat_for_each; [| exact HQ].
  intros month acc st2 [_ Hmonth]%restrict_selected Hacc.
  apply parse_month_sat; auto.
Qed.
End Levels.

(** Lines 13-56: the invariant of the whole walk. *)
Lemma walk_market_files_sat {fs : Type} (os : OS.t fs) (data_path : string)
    (market_definition_filters : list (string * pyval))
    (include_years include_months include_days : option (list string))
    (delete_files : bool) (st : fs) :
  run_sat (walk_effects os market_definition_filters delete_files)
    (walk_files os market_definition_filters
       (selected_archive data_path include_years include_months
          include_days))
    (walk_market_files os data_path market_definition_filters include_years
       include_months include_days delete_files) st.
Proof.
  unfold walk_market_files.
  apply run_sat_bind with (fun _ => True); [apply run_sat_list_dirs |].
  intros years st1 _. apply run_sat_for_each; [| split; constructor].
  intros year acc st2 [_ Hyear]%restrict_selected Hacc.
  apply parse_year_sat; [| exact Hacc].
  intros month day event_id name Hmonth Hday Hname.
  exists year, month, day, event_id, name.
  repeat (split; [assumption |]).
  now apply market_file_compressed.
Qed.

(** The outcome and the log of [parse_market_files] in terms of the walk. *)
Lemma parse_market_files_walk {fs : Type} (os : OS.t fs)
    (data_path : string) (market_definition_filters : list (string * pyval))
    (include_years include_months include_days : option (list string))
    (delete_files : bool) (st : fs) :
  let run :=
    walk_market_files os data_path market_definition_filters include_years
      include_months include_days delete_files st in
  let result :=
    parse_market_files os data_path market_definition_filters include_years
      include_months include_days delete_files st in
  fst result = fst run
  /\ (forall files, snd result = Parsed files ->
        snd run = Ok files /\ files <> []).
Proof.
  unfold parse_market_files. cbn zeta.
  destruct (walk_market_files _ _ _ _ _ _ _ _) as [[tr st'] r].
  split; [reflexivity |]. cbn [snd].
  destruct r as [[| f files] |]; intros ? [= <-]. now split.
Qed.

(** X19. When [parse_market_files] returns a list it is not empty, and every
    path in it is an archive of the tree without its ".bz2" suffix: followed
    by ".bz2" it is data_path/year/month/day/event/name for a name ending in
    ".bz2", with the year, month and day among the included ones where an
    include list is given; and [_filter_market_file] answered False for
    it. *)
Theorem parsed_files_selected {fs : Type} (os : OS.t fs)
    (data_path : string) (market_definition_filters : list (string * pyval))
    (include_years include_months include_days : option (list string))
    (delete_files : bool) (st : fs) (files : list string) :
  snd (parse_market_files os data_path market_definition_filters
         include_years include_months include_days delete_files st)
  = Parsed files ->
  files <> []
  /\ forall market_file,
       In market_file files ->
       selected_archive data_path include_years include_months include_days
         market_file
       /\ kept os market_definition_filters market_file.
Proof.
  intros H.
  destruct (parse_market_files_walk os data_path market_definition_filters
              include_years include_months include_days delete_files st)
    as [_ Hwalk].
  destruct (Hwalk files H) as [Hrun Hne]. split; [exact Hne |].
  destruct (walk_market_files_sat os data_path market_definition_filters
              include_years include_months include_days delete_files st)
    as [_ Hfiles].
  destruct (Hfiles files Hrun) as [H1 H2].
  rewrite List.Forall_forall in H1, H2. auto.
Qed.

Lemma parsed_files_selected_witness :
  snd (parse_market_files SampleFS.os "PRO" SampleFS.filters
         (Some ["2020"]) None (Some ["1"; "2"]) true SampleFS.initial)
  = Parsed ["PRO/2020/Aug/2/29936590/1.171755572"]
  /\ selected_archive "PRO" (Some ["2020"]) None (Some ["1"; "2"])
       "PRO/2020/Aug/2/29936590/1.171755572".
Proof.
  assert (H : snd (parse_market_files SampleFS.os "PRO" SampleFS.filters
                     (Some ["2020"]) None (Some ["1"; "2"]) true
                     SampleFS.initial)
              = Parsed ["PRO/2020/Aug/2/29936590/1.171755572"])
    by (vm_compute; reflexivity).
  refine (conj H _).
  exact (proj1 (proj2 (parsed_files_selected SampleFS.os "PRO"
                         SampleFS.filters (Some ["2020"]) None
                         (Some ["1"; "2"]) true SampleFS.initial _ H)
                  _ (or_introl eq_refl))).
Defined.

(** X20. Whatever the outcome, [parse_market_files] changes the file system
    in two ways only: it decompresses an archive [p ++ ".bz2"] into [p], and,
    when [delete_files] is set, it removes a market file for which
    [_filter_market_file] answered True, or that file's archive. *)
Theorem parser_effects {fs : Type} (os : OS.t fs)
    (data_path : string) (market_definition_filters : list (string * pyval))
    (include_years include_months include_days : option (list string))
    (delete_files : bool) (st : fs) :
  Forall (effect_ok os market_definition_filters delete_files)
    (fst (fst (parse_market_files os data_path market_definition_filters
                 include_years include_months include_days delete_files
                 st))).
Proof.
  destruct (parse_market_files_walk os data_path market_definition_filters
              include_years include_months include_days delete_files st)
    as [-> _].
  apply (walk_market_files_sat os data_path market_definition_filters
           include_years include_months include_days delete_files st).
Qed.

(** X21. The file system after [parse_market_files] is the initial one
    changed by the logged decompressions and removals, in order, and each of
    them met its guard: a decompression wrote a path that was not a file,
    a removal deleted a path that was a file. *)
Theorem parser_guards {fs : Type} (os : OS.t fs)
    (data_path : string) (market_definition_filters : list (string * pyval))
    (include_years include_months include_days : option (list string))
    (delete_files : bool) (st : fs) :
  let result :=
    parse_market_files os data_path market_definition_filters include_years
      include_months include_days delete_files st in
  replay os st (fst (fst result)) = Some (snd (fst result)).
Proof.
  cbn zeta.
  destruct (parse_market_files_walk os data_path market_definition_filters
              include_years include_months include_days delete_files st)
    as [-> _].
  apply (walk_market_files_sat os data_path market_definition_filters
           include_years include_months include_days delete_files st).
Qed.

(** X22. [parse_market_files] removes nothing when [delete_files] is False,
    and nothing when the filter mapping is empty, even with [delete_files]
    set: without filters no file is filtered out. *)
Theorem no_removal {fs : Type} (os : OS.t fs)
    (data_path : string) (market_definition_filters : list (string * pyval))
    (include_years include_months include_days : option (list string))
    (delete_files : bool) (st : fs) :
  delete_files = false \/ market_definition_filters = [] ->
  Forall (fun e => is_remove e = false)
    (fst (fst (parse_market_files os data_path market_definition_filters
                 include_years include_months include_days delete_files
                 st))).
Proof.
  intros Hoff.
  destruct (parse_market_files_walk os data_path market_definition_filters
              include_years include_months include_days delete_files st)
    as [-> _].
  destruct (walk_market_files_sat os data_path market_definition_filters
              include_years include_months include_days delete_files st)
    as [[Heffects _] _].
  eapply Forall_impl; [exact Heffects |].
  intros [c t | p]; [reflexivity |].
  intros (Hdelete & market_file & (st' & Hverdict) & _).
  destruct Hoff as [-> | ->]; discriminate.
Qed.

Lemma no_removal_witness :
  (true = false \/ @nil (string * pyval) = [])
  /\ Forall (fun e => is_remove e = false)
       (fst (fst (parse_market_files SampleFS.os "PRO" [] None None None
                    true SampleFS.initial))).
Proof.
  refine (conj (or_intror eq_refl) _).
  exact (no_removal SampleFS.os "PRO" [] None None None true
           SampleFS.initial (or_intror eq_refl)).
Defined.
